(** * ML-Cybersec: the real-time CVE scoring and ingestion pipeline

  A shallow embedding of [backend/cve_realtime_processor.py] and of the
  two places of [backend/app.py] that wrap it (the startup check and the
  [/predict/latest-cves] route), followed by the properties of the
  pipeline.  The callers of the pipeline are embedded after it: the routes
  POST /predict and GET /health of [backend/app.py], the monitor of
  [backend/production_integration.py], and [backend/check_server.py].

  - Python [float] is IEEE 754 binary64; it is modelled by [spec_float]
    with [prec = 53] and [emax = 1024], whose operations round to nearest,
    ties to even, exactly as the hardware does.
  - Python exceptions are values of [exn]; a call that may raise returns a
    [result].
  - Logging and the single network call are effects on a [World]; code
    that logs or calls the feed lives in the monad [M]. *)

From Stdlib Require Import ZArith List String Bool Lia.
From Stdlib Require Import SpecFloat.
Import ListNotations.
Local Open Scope string_scope.
Local Open Scope list_scope.
Local Open Scope Z_scope.

(* ================================================================= *)
(** ** Binary64 numbers *)

Module Float64.

Definition prec : Z := 53.
Definition emax : Z := 1024.

Definition float := spec_float.

(** The values a Python float can hold. *)
Definition is_float64 (x : float) : Prop := valid_binary prec emax x = true.

Definition of_Z (z : Z) : float := binary_normalize prec emax z 0 false.
Definition fsub : float -> float -> float := SFsub prec emax.
Definition fdiv : float -> float -> float := SFdiv prec emax.

(** Python's [x <= y], [x >= y], [x < y] and [x == y] on floats. *)
Definition fle (x y : float) : bool := SFleb x y.
Definition fge (x y : float) : bool := SFleb y x.
Definition flt (x y : float) : bool := SFltb x y.
Definition feq (x y : float) : bool := SFeqb x y.

(** The float a decimal literal [n/d] denotes: the quotient rounded to
    the nearest binary64 number. *)
Definition decimal (n d : Z) : float := fdiv (of_Z n) (of_Z d).

Definition zero : float := S754_zero false.
Definition one : float := S754_finite false 0x10000000000000 (-52).

(** The literals of the source and of the specification, written as
    [float.hex()] prints them. *)
Definition f0_70   : float := S754_finite false 0x16666666666666 (-53).
Definition f0_40   : float := S754_finite false 0x1999999999999a (-54).
Definition f0_6999 : float := S754_finite false 0x166594af4f0d84 (-53).
Definition f0_3999 : float := S754_finite false 0x1997f62b6ae7d5 (-54).
Definition f0_6001 : float := S754_finite false 0x133404ea4a8c15 (-53).

(** The next binary64 number above 0.6001; Python prints it
    0.6001000000000001. *)
Definition f0_6001_next : float := S754_finite false 0x133404ea4a8c16 (-53).

End Float64.

Import Float64.

(* ================================================================= *)
(** ** Exceptions *)

(** The subclasses of [requests.RequestException] the feed call raises. *)
Inductive request_error : Type :=
| ConnectionError
| Timeout
| HTTPError (status_code : Z)
| OtherRequestError (name : string).

Inductive exn : Type :=
| ValueError (msg : string)
| KeyError (key : string)
| IndexError (msg : string)
| OverflowError (msg : string)
| FileNotFoundError (msg : string)
| RequestException (e : request_error)
| OtherException (name : string).

Inductive result (A : Type) : Type :=
| Ok (a : A)
| Raise (e : exn).
Arguments Ok {A} a.
Arguments Raise {A} e.

Definition rbind {A B} (r : result A) (k : A -> result B) : result B :=
  match r with
  | Ok a => k a
  | Raise e => Raise e
  end.

Declare Scope result_scope.
Delimit Scope result_scope with result.
Notation "'let?' x ':=' r 'in' k" := (rbind r (fun x => k))
  (at level 10, x name, r at level 100, k at level 200) : result_scope.
Local Open Scope result_scope.

(** [except requests.RequestException] against [except Exception]: every
    value of [exn] is an instance of [Exception]; only one constructor is
    a [RequestException]. *)
Definition is_RequestException (e : exn) : bool :=
  match e with
  | RequestException _ => true
  | _ => false
  end.

(* ================================================================= *)
(** ** The pretrained artifacts and the two scorers *)

Section Pipeline.

(** What [vectorizer.transform([description])] returns: opaque here. *)
Context {FeatureVector : Type}.

(** The three unpickled objects.  Each method is a function of its
    argument (the models are never refitted) and may raise. *)
Record Vectorizer : Type := {
  transform : string -> result FeatureVector
}.

Record Classifier : Type := {
  (* clf.predict(X)[0] *)
  predict : FeatureVector -> result Z;
  (* clf.predict_proba(X)[0], one probability per class *)
  predict_proba : FeatureVector -> result (list float)
}.

Record AnomalyModel : Type := {
  (* anomaly_clf.predict(X)[0]: -1 = anomalous, 1 = normal *)
  anomaly_predict : FeatureVector -> result Z;
  (* anomaly_clf.decision_function(X)[0] *)
  decision_function : FeatureVector -> result float
}.

(** The module globals [clf], [vectorizer], [anomaly_clf]; [None] is
    Python's [None], and a loaded artifact is a fitted estimator, which
    [not] takes as true. *)
Record Globals : Type := {
  clf : option Classifier;
  vectorizer : option Vectorizer;
  anomaly_clf : option AnomalyModel
}.

Record RiskResult : Type := {
  risk : string;
  confidence : float;
  prediction_class : Z
}.

Record AnomalyResult : Type := {
  anomalous : bool;
  anomaly_score : float;
  threshold_info : string
}.

(** The [IndexError] numpy raises for [probabilities[1]] on a row of
    [size] entries; the index is out of bounds for a row of none or of
    one. *)
Definition index_1_out_of_bounds (size : nat) : exn :=
  IndexError
    ("index 1 is out of bounds for axis 0 with size " ++
     match size with O => "0" | S _ => "1" end).

(** The three-level mapping of [predict_risk], lines 103-111. *)
Definition risk_mapping (high_risk_probability : float) : string * float :=
  if fge high_risk_probability f0_70 then
    ("HIGH", high_risk_probability)
  else if fge high_risk_probability f0_40 then
    ("MEDIUM", high_risk_probability)
  else
    ("LOW", fsub one high_risk_probability).

Definition predict_risk (g : Globals) (description : string)
  : result RiskResult :=
  match clf g, vectorizer g with
  | Some clf, Some vectorizer =>
      let? X_transformed := transform vectorizer description in
      let? prediction_class := predict clf X_transformed in
      let? probabilities := predict_proba clf X_transformed in
      match nth_error probabilities 1 with
      | None => Raise (index_1_out_of_bounds (List.length probabilities))
      | Some high_risk_probability =>
          let '(risk_level, confidence) :=
            risk_mapping high_risk_probability in
          Ok {| risk := risk_level;
                confidence := confidence;
                prediction_class := prediction_class |}
      end
  | _, _ => Raise (ValueError "Models not loaded. Cannot perform prediction.")
  end.

Definition detect_anomaly (g : Globals) (description : string)
  : result AnomalyResult :=
  match anomaly_clf g, vectorizer g with
  | Some anomaly_clf, Some vectorizer =>
      let? X_transformed := transform vectorizer description in
      let? anomaly_prediction := anomaly_predict anomaly_clf X_transformed in
      let? anomaly_score := decision_function anomaly_clf X_transformed in
      let is_anomalous := anomaly_prediction =? -1 in
      let threshold_info :=
        if is_anomalous then "outside historical CVE patterns"
        else "within normal patterns" in
      Ok {| anomalous := is_anomalous;
            anomaly_score := anomaly_score;
            threshold_info := threshold_info |}
  | _, _ => Raise (ValueError "Anomaly model or vectorizer not loaded.")
  end.

(* ================================================================= *)
(** ** Loading the artifacts: module import and the startup check *)

(** What is on disk under one of the three model paths: nothing, a file
    [joblib.load] cannot unpickle (it raises [e]), or a pickled object. *)
Inductive pickle_file (A : Type) : Type :=
| Missing
| Unloadable (e : exn)
| Pickled (a : A).
Arguments Missing {A}.
Arguments Unloadable {A} e.
Arguments Pickled {A} a.

Record FileSystem : Type := {
  rf_model_pkl : pickle_file Classifier;
  tfidf_vectorizer_pkl : pickle_file Vectorizer;
  anomaly_model_pkl : pickle_file AnomalyModel
}.

Definition MODEL_PATH : string := "rf_model.pkl".
Definition VECTORIZER_PATH : string := "tfidf_vectorizer.pkl".
Definition ANOMALY_MODEL_PATH : string := "anomaly_model.pkl".

Definition joblib_load {A} (path : string) (f : pickle_file A) : result A :=
  match f with
  | Missing => Raise (FileNotFoundError path)
  | Unloadable e => Raise e
  | Pickled a => Ok a
  end.

Definition file_present {A} (f : pickle_file A) : bool :=
  match f with
  | Missing => false
  | _ => true
  end.

(** [os.path.exists] on the paths the code asks about. *)
Definition os_path_exists (fs : FileSystem) (path : string) : bool :=
  if String.eqb path MODEL_PATH then file_present (rf_model_pkl fs)
  else if String.eqb path VECTORIZER_PATH then
    file_present (tfidf_vectorizer_pkl fs)
  else if String.eqb path ANOMALY_MODEL_PATH then
    file_present (anomaly_model_pkl fs)
  else false.

Inductive log_level : Type := INFO | WARNING | ERROR.

(** One constructor per logging call of the source; the arguments are the
    values the f-string interpolates. *)
Inductive log_message : Type :=
| MsgModelsLoaded
| MsgModelFileNotFound (e : exn)
| MsgErrorLoadingModels (e : exn)
| MsgNoApiKey
| MsgFetching (start_date end_date : Z)
| MsgNoEnglishDescription (cve_id : string)
| MsgFetched (n : nat)
| MsgFetchError (e : exn)
| MsgStarting
| MsgFailedToFetch (e : exn)
| MsgNoCves
| MsgProcessing (idx total : nat) (cve_id : string)
| MsgScored (risk : string) (confidence : float) (anomalous : bool)
| MsgProcessingError (cve_id : string) (e : exn)
| MsgCompleted (n total : nat)
| MsgApiKeyNotSet
| MsgLatestCvesError (e : exn).

Record log_record : Type := Log {
  levelname : log_level;
  message : log_message
}.

Definition no_globals : Globals :=
  {| clf := None; vectorizer := None; anomaly_clf := None |}.

(** Lines 48-58: the three loads run in one [try]; [FileNotFoundError] and
    every other exception are caught, logged, and leave all three globals
    [None].  The import itself never raises. *)
Definition load_models (fs : FileSystem) : Globals * list log_record :=
  let loaded :=
    let? clf := joblib_load MODEL_PATH (rf_model_pkl fs) in
    let? vectorizer := joblib_load VECTORIZER_PATH (tfidf_vectorizer_pkl fs) in
    let? anomaly_clf := joblib_load ANOMALY_MODEL_PATH (anomaly_model_pkl fs) in
    Ok {| clf := Some clf;
          vectorizer := Some vectorizer;
          anomaly_clf := Some anomaly_clf |} in
  match loaded with
  | Ok g => (g, [Log INFO MsgModelsLoaded])
  | Raise (FileNotFoundError m) =>
      (no_globals, [Log ERROR (MsgModelFileNotFound (FileNotFoundError m))])
  | Raise e => (no_globals, [Log ERROR (MsgErrorLoadingModels e)])
  end.

Definition required_files : list string :=
  ["rf_model.pkl"; "tfidf_vectorizer.pkl"; "anomaly_model.pkl"].

(** [startup_event] of app.py: it looks for the three files by name and
    raises when one is absent. *)
Definition startup_event (fs : FileSystem) : result unit :=
  let missing_files :=
    filter (fun f => negb (os_path_exists fs f)) required_files in
  match missing_files with
  | [] => Ok tt
  | _ :: _ => Raise (FileNotFoundError "Required model files not found")
  end.

(* ================================================================= *)
(** ** The feed: time window, request, response *)

(** A naive [datetime]: microseconds since 0001-01-01T00:00:00, between
    [datetime.min] and [datetime.max]. *)
Definition datetime := Z.

Definition us_per_day : Z := 86400 * 1000000.
Definition datetime_max : datetime := 3652059 * us_per_day - 1.

(** [timedelta(days=d)], in microseconds. *)
Definition timedelta_days (d : Z) : result Z :=
  if (-999999999 <=? d) && (d <=? 999999999) then Ok (d * us_per_day)
  else Raise (OverflowError "days; must have magnitude <= 999999999").

(** [t - delta] on datetimes. *)
Definition datetime_sub (t : datetime) (delta : Z) : result datetime :=
  let r := t - delta in
  if (0 <=? r) && (r <=? datetime_max) then Ok r
  else Raise (OverflowError "date value out of range").

(** [strftime("%Y-%m-%dT%H:%M:%S.000")] keeps the whole seconds of its
    argument; [.date()] keeps the day.  The strings are represented by
    these numbers. *)
Definition strftime_seconds (t : datetime) : Z := t / 1000000.
Definition date (t : datetime) : Z := t / us_per_day.

Definition NVD_API_URL : string :=
  "https://services.nvd.nist.gov/rest/json/cves/2.0".

(** The arguments of the one [requests.get] call. *)
Record Request : Type := {
  url : string;
  pubStartDate : Z;
  pubEndDate : Z;
  resultsPerPage : Z;
  apiKey_header : option string;
  timeout : Z
}.

(** The JSON document of the feed, at the shape of the NVD 2.0 schema.  A
    key the code reads with [.get] may be absent ([None]); so may the
    ["value"] the code reads with [d["value"]]. *)
Record Description : Type := {
  lang : option string;
  value : option string
}.

Record Cve : Type := {
  id : option string;
  descriptions : option (list Description)
}.

Record Vulnerability : Type := {
  cve : option Cve
}.

Record FeedData : Type := {
  vulnerabilities : option (list Vulnerability)
}.

Record Response : Type := {
  status_code : Z;
  (* response.json(): the parsed body, or the exception it raises *)
  json : result FeedData
}.

(** What [requests.get] does: it raises a [RequestException] (connection
    error, timeout) or returns a response. *)
Inductive get_outcome : Type :=
| GetRaises (e : request_error)
| GetReturns (r : Response).

(** [response.raise_for_status()]: 4xx and 5xx raise [HTTPError]. *)
Definition raise_for_status (r : Response) : result unit :=
  if (400 <=? status_code r) && (status_code r <? 600)
  then Raise (RequestException (HTTPError (status_code r)))
  else Ok tt.

(* ================================================================= *)
(** ** Effects *)

(** What the process reads from outside. *)
Record Env : Type := {
  utcnow : datetime;
  NVD_API_KEY : option string;
  nvd : Request -> get_outcome
}.

(** What the process changes outside: the log and the requests sent. *)
Record World : Type := {
  logged : list log_record;
  requests_sent : list Request
}.

Definition M (A : Type) : Type := Env -> World -> result A * World.

Definition ret {A} (a : A) : M A := fun _ w => (Ok a, w).

Definition bind {A B} (c : M A) (k : A -> M B) : M B :=
  fun env w =>
    match c env w with
    | (Ok a, w') => k a env w'
    | (Raise e, w') => (Raise e, w')
    end.

Definition raise {A} (e : exn) : M A := fun _ w => (Raise e, w).

Definition lift {A} (r : result A) : M A := fun _ w => (r, w).

Definition ask : M Env := fun env w => (Ok env, w).

(** [try: body except Exception as e: handler e]. *)
Definition try_except {A} (body : M A) (handler : exn -> M A) : M A :=
  fun env w =>
    match body env w with
    | (Ok a, w') => (Ok a, w')
    | (Raise e, w') => handler e env w'
    end.

Definition logger (l : log_level) (m : log_message) : M unit :=
  fun _ w =>
    (Ok tt, {| logged := logged w ++ [Log l m];
               requests_sent := requests_sent w |}).

Definition requests_get (req : Request) : M Response :=
  fun env w =>
    let w' := {| logged := logged w;
                 requests_sent := requests_sent w ++ [req] |} in
    match nvd env req with
    | GetRaises e => (Raise (RequestException e), w')
    | GetReturns r => (Ok r, w')
    end.

Declare Scope monad_scope.
Delimit Scope monad_scope with monad.
Notation "x <- c ;; k" := (bind c (fun x => k))
  (at level 61, c at next level, right associativity) : monad_scope.
Notation "c ;;; k" := (bind c (fun _ => k))
  (at level 61, right associativity) : monad_scope.
Local Open Scope monad_scope.

(** Python truthiness of an optional string: [None] and the empty string
    are false. *)
Definition truthy (s : option string) : bool :=
  match s with
  | Some s => negb (String.eqb s EmptyString)
  | None => false
  end.

(* ================================================================= *)
(** ** fetch_cves_from_nvd *)

Record CveRecord : Type := {
  cve_id : string;
  description : string
}.

(** Lines 195-198: the key of the environment replaces an absent
    argument; a warning when that one is missing or empty too. *)
Definition resolve_api_key (api_key : option string) : M (option string) :=
  match api_key with
  | None =>
      env <- ask ;;
      let api_key := NVD_API_KEY env in
      if truthy api_key then ret api_key
      else logger WARNING MsgNoApiKey ;;; ret api_key
  | Some k => ret (Some k)
  end.

(** Lines 201-202: [start_date = end_date - timedelta(days=days_back)]. *)
Definition window_start (end_date : datetime) (days_back : Z)
  : result datetime :=
  let? delta := timedelta_days days_back in
  datetime_sub end_date delta.

(** Lines 205-214 and 219-224: parameters, header and timeout. *)
Definition nvd_request (start_date end_date : datetime) (max_results : Z)
    (api_key : option string) : Request :=
  {| url := NVD_API_URL;
     pubStartDate := strftime_seconds start_date;
     pubEndDate := strftime_seconds end_date;
     resultsPerPage := max_results;
     apiKey_header := if truthy api_key then api_key else None;
     timeout := 30 |}.

Definition lang_is_en (d : Description) : bool :=
  match lang d with
  | Some l => String.eqb l "en"
  | None => false
  end.

(** Lines 238-241:
    [next((d["value"] for d in descriptions if d.get("lang") == "en"), None)].
    The generator stops at the first entry tagged "en"; indexing it with
    ["value"] raises [KeyError] when the key is absent. *)
Fixpoint english_value (descriptions : list Description)
  : result (option string) :=
  match descriptions with
  | [] => Ok None
  | d :: rest =>
      if lang_is_en d then
        match value d with
        | Some v => Ok (Some v)
        | None => Raise (KeyError "value")
        end
      else english_value rest
  end.

Definition empty_cve : Cve := {| id := None; descriptions := None |}.

(** Lines 232-249, the loop over [cve_items]; [extracted_cves] is the list
    the loop appends to. *)
Fixpoint extract_cves (cve_items : list Vulnerability)
    (extracted_cves : list CveRecord) : M (list CveRecord) :=
  match cve_items with
  | [] => ret extracted_cves
  | item :: rest =>
      let cve_obj := match cve item with Some c => c | None => empty_cve end in
      let cve_id := match id cve_obj with Some i => i | None => "Unknown" end in
      let descriptions :=
        match descriptions cve_obj with Some l => l | None => [] end in
      desc_text <- lift (english_value descriptions) ;;
      if truthy desc_text then
        let text :=
          match desc_text with Some t => t | None => EmptyString end in
        extract_cves rest
          (extracted_cves ++ [{| cve_id := cve_id; description := text |}])
      else
        logger WARNING (MsgNoEnglishDescription cve_id) ;;;
        extract_cves rest extracted_cves
  end.

Definition fetch_cves_from_nvd (days_back max_results : Z)
    (api_key : option string) : M (list CveRecord) :=
  api_key <- resolve_api_key api_key ;;
  env <- ask ;;
  let end_date := utcnow env in
  start_date <- lift (window_start end_date days_back) ;;
  let req := nvd_request start_date end_date max_results api_key in
  logger INFO (MsgFetching (date start_date) (date end_date)) ;;;
  try_except
    (response <- requests_get req ;;
     lift (raise_for_status response) ;;;
     data <- lift (json response) ;;
     let cve_items :=
       match vulnerabilities data with Some l => l | None => [] end in
     extracted_cves <- extract_cves cve_items [] ;;
     logger INFO (MsgFetched (List.length extracted_cves)) ;;;
     ret extracted_cves)
    (fun e =>
       if is_RequestException e then
         logger ERROR (MsgFetchError e) ;;; raise e
       else raise e).

(* ================================================================= *)
(** ** process_new_cves *)

Record ScoredRecord : Type := {
  scored_cve_id : string;
  scored_risk : string;
  scored_confidence : float;
  scored_anomalous : bool
}.

(** Lines 312-345, the loop over [enumerate(cves, 1)]; [results] is the
    list the loop appends to.  Each record runs in its own [try]: an
    exception is logged and the loop continues. *)
Fixpoint process_each (g : Globals) (total : nat) (idx : nat)
    (cves : list CveRecord) (results : list ScoredRecord)
  : M (list ScoredRecord) :=
  match cves with
  | [] => ret results
  | c :: rest =>
      let cve_id := cve_id c in
      let description := description c in
      logger INFO (MsgProcessing idx total cve_id) ;;;
      results <-
        try_except
          (risk_result <- lift (predict_risk g description) ;;
           anomaly_result <- lift (detect_anomaly g description) ;;
           let output :=
             {| scored_cve_id := cve_id;
                scored_risk := risk risk_result;
                scored_confidence := confidence risk_result;
                scored_anomalous := anomalous anomaly_result |} in
           let results := results ++ [output] in
           logger INFO (MsgScored (risk risk_result) (confidence risk_result)
                          (anomalous anomaly_result)) ;;;
           ret results)
          (fun e =>
             logger ERROR (MsgProcessingError cve_id e) ;;;
             ret results) ;;
      process_each g total (S idx) rest results
  end.

Definition process_new_cves (g : Globals) (days_back max_results : Z)
    (api_key : option string) : M (list ScoredRecord) :=
  logger INFO MsgStarting ;;;
  cves <-
    try_except
      (fetch_cves_from_nvd days_back max_results api_key)
      (fun e => logger ERROR (MsgFailedToFetch e) ;;; raise e) ;;
  match cves with
  | [] => logger WARNING MsgNoCves ;;; ret []
  | _ :: _ =>
      results <- process_each g (List.length cves) 1%nat cves [] ;;
      logger INFO (MsgCompleted (List.length results) (List.length cves)) ;;;
      ret results
  end.

(* ================================================================= *)
(** ** The route GET /predict/latest-cves of app.py *)

Record CVEPrediction : Type := {
  api_cve_id : string;
  api_risk : string;
  api_confidence : float;
  api_anomalous : bool
}.

Inductive http_response (A : Type) : Type :=
| Http200 (body : A)
(* the framework's answer to a query parameter that fails validation *)
| Http422
(* HTTPException(status_code, detail), detail built from str(e) *)
| HTTPException (status : Z) (e : exn).
Arguments Http200 {A} body.
Arguments Http422 {A}.
Arguments HTTPException {A} status e.

(** [Query(default=..., ge=..., le=...)] on an integer parameter: the
    default when the parameter is absent, a validation failure when the
    supplied value is outside [ge, le]. *)
Definition Query (default ge le : Z) (supplied : option Z) : option Z :=
  match supplied with
  | None => Some default
  | Some v => if (ge <=? v) && (v <=? le) then Some v else None
  end.

Definition to_prediction (r : ScoredRecord) : CVEPrediction :=
  {| api_cve_id := scored_cve_id r;
     api_risk := scored_risk r;
     api_confidence := scored_confidence r;
     api_anomalous := scored_anomalous r |}.

Definition predict_latest_cves (g : Globals) (days_back max_results : option Z)
  : Env -> World -> http_response (list CVEPrediction) * World :=
  fun env w =>
    match Query 3 1 30 days_back, Query 10 1 100 max_results with
    | Some days_back, Some max_results =>
        let body :=
          let api_key := NVD_API_KEY env in
          (if truthy api_key then ret tt
           else logger WARNING MsgApiKeyNotSet) ;;;
          results <- process_new_cves g days_back max_results api_key ;;
          ret (map to_prediction results) in
        match body env w with
        | (Ok r, w') => (Http200 r, w')
        | (Raise e, w') =>
            (HTTPException 502 e,
             snd (logger ERROR (MsgLatestCvesError e) env w'))
        end
    | _, _ => (Http422, w)
    end.

End Pipeline.

Arguments Vectorizer : clear implicits.
Arguments Classifier : clear implicits.
Arguments AnomalyModel : clear implicits.
Arguments Globals : clear implicits.
Arguments FileSystem : clear implicits.
Arguments Missing {A}.
Arguments Unloadable {A} e.
Arguments Pickled {A} a.
Arguments Http200 {A} body.
Arguments Http422 {A}.
Arguments HTTPException {A} status e.

(* ================================================================= *)
(** ** Vocabulary of the properties *)

(** The identifier and the descriptions the loop of the feed client reads
    off an item. *)
Definition item_cve (item : Vulnerability) : Cve :=
  match cve item with
  | Some c => c
  | None => empty_cve
  end.

Definition item_id (item : Vulnerability) : string :=
  match id (item_cve item) with
  | Some i => i
  | None => "Unknown"
  end.

Definition item_descriptions (item : Vulnerability) : list Description :=
  match descriptions (item_cve item) with
  | Some l => l
  | None => []
  end.

(** What the code reads as the English description of an item: the text
    of the first entry tagged "en", when there is such an entry and its
    text is not empty (the value of [next(...)], tested by
    [if desc_text]). *)
Definition english_description (item : Vulnerability) : option string :=
  match find lang_is_en (item_descriptions item) with
  | Some d =>
      match value d with
      | Some v => if String.eqb v EmptyString then None else Some v
      | None => None
      end
  | None => None
  end.

(** The feed schema makes ["value"] mandatory in every description; the
    code relies on it for the entry it reads. *)
Definition en_value_present (item : Vulnerability) : bool :=
  match find lang_is_en (item_descriptions item) with
  | Some d => match value d with Some _ => true | None => false end
  | None => true
  end.



(** The records of the items that have an English description, in feed
    order. *)
Definition record_of (item : Vulnerability) : list CveRecord :=
  match english_description item with
  | Some text => [{| cve_id := item_id item; description := text |}]
  | None => []
  end.

Definition scorable (items : list Vulnerability) : list CveRecord :=
  flat_map record_of items.

(** The warnings of the items that have none. *)
Definition warning_of (item : Vulnerability) : list log_record :=
  match english_description item with
  | Some _ => []
  | None => [Log WARNING (MsgNoEnglishDescription (item_id item))]
  end.

Definition feed_items (data : FeedData) : list Vulnerability :=
  match vulnerabilities data with
  | Some l => l
  | None => []
  end.

(** The key the request carries and the request [fetch_cves_from_nvd]
    sends, when its time window can be computed. *)
Definition effective_api_key (env : Env) (api_key : option string)
  : option string :=
  match api_key with
  | None => NVD_API_KEY env
  | Some k => Some k
  end.

Definition issued_request (env : Env) (days_back max_results : Z)
    (api_key : option string) : result Request :=
  let? start_date := window_start (utcnow env) days_back in
  Ok (nvd_request start_date (utcnow env) max_results
        (effective_api_key env api_key)).

Definition log_append (w : World) (l : list log_record) : World :=
  {| logged := logged w ++ l; requests_sent := requests_sent w |}.

(** The world after one more request. *)
Definition send (w : World) (req : Request) : World :=
  {| logged := logged w; requests_sent := requests_sent w ++ [req] |}.

(** The warning of [resolve_api_key]. *)
Definition key_warning (env : Env) (api_key : option string)
  : list log_record :=
  match api_key with
  | None => if truthy (NVD_API_KEY env) then [] else [Log WARNING MsgNoApiKey]
  | Some _ => []
  end.

Section Vocabulary.

Context {FeatureVector : Type}.

Definition models_loaded (g : Globals FeatureVector) : Prop :=
  clf g <> None /\ vectorizer g <> None /\ anomaly_clf g <> None.

(** Scoring one fetched record: Risk Scorer, then Anomaly Detector. *)
Definition score_record (g : Globals FeatureVector) (c : CveRecord)
  : result ScoredRecord :=
  let? risk_result := predict_risk g (description c) in
  let? anomaly_result := detect_anomaly g (description c) in
  Ok {| scored_cve_id := cve_id c;
        scored_risk := risk risk_result;
        scored_confidence := confidence risk_result;
        scored_anomalous := anomalous anomaly_result |}.

Definition entry_of (g : Globals FeatureVector) (c : CveRecord)
  : list ScoredRecord :=
  match score_record g c with
  | Ok s => [s]
  | Raise _ => []
  end.

(** The aggregate of a fetched list: the entries of the records whose
    scoring returns, in fetch order. *)
Definition aggregate (g : Globals FeatureVector) (cves : list CveRecord)
  : list ScoredRecord :=
  flat_map (entry_of g) cves.

(** What the loop of [process_new_cves] logs for one record. *)
Definition record_log (g : Globals FeatureVector) (total idx : nat)
    (c : CveRecord) : list log_record :=
  Log INFO (MsgProcessing idx total (cve_id c)) ::
  match predict_risk g (description c) with
  | Raise e => [Log ERROR (MsgProcessingError (cve_id c) e)]
  | Ok r =>
      match detect_anomaly g (description c) with
      | Raise e => [Log ERROR (MsgProcessingError (cve_id c) e)]
      | Ok a => [Log INFO (MsgScored (risk r) (confidence r) (anomalous a))]
      end
  end.

Fixpoint loop_log (g : Globals FeatureVector) (total idx : nat)
    (cves : list CveRecord) : list log_record :=
  match cves with
  | [] => []
  | c :: rest => record_log g total idx c ++ loop_log g total (S idx) rest
  end.

End Vocabulary.

(* ================================================================= *)
(** ** Sample artifacts, feeds and environments *)

(** Artifacts over texts: the vectorizer passes the text on and raises on
    one text it cannot decode; the models answer by the text. *)
Definition sample_vectorizer : Vectorizer string :=
  {| transform := fun text =>
       if String.eqb text "garbled" then
         Raise (OtherException "UnicodeDecodeError")
       else Ok text |}.

Definition sample_clf : Classifier string :=
  {| predict := fun X =>
       Ok (if String.eqb X "remote code execution" then 1 else 0);
     predict_proba := fun X =>
       if String.eqb X "remote code execution"
       then Ok [decimal 30 100; f0_70]
       else Ok [decimal 6001 10000; f0_3999] |}.

Definition sample_anomaly_clf : AnomalyModel string :=
  {| anomaly_predict := fun X =>
       Ok (if String.eqb X "remote code execution" then -1 else 1);
     decision_function := fun X =>
       if String.eqb X "remote code execution"
       then Ok (SFopp (decimal 5 100))
       else Ok (decimal 12 100) |}.

Definition sample_globals : Globals string :=
  {| clf := Some sample_clf;
     vectorizer := Some sample_vectorizer;
     anomaly_clf := Some sample_anomaly_clf |}.

Definition en (text : string) : Description :=
  {| lang := Some "en"; value := Some text |}.

Definition es (text : string) : Description :=
  {| lang := Some "es"; value := Some text |}.

Definition sample_item (i : option string) (ds : list Description)
  : Vulnerability :=
  {| cve := Some {| id := i; descriptions := Some ds |} |}.

Definition sample_feed : FeedData :=
  {| vulnerabilities := Some
       [ sample_item (Some "CVE-2026-0001")
           [es "ejecucion remota"; en "remote code execution"];
         sample_item (Some "CVE-2026-0002") [es "sin traduccion"];
         sample_item (Some "CVE-2026-0003") [en "garbled"];
         sample_item None [en "information disclosure"];
         sample_item None [en "denial of service"] ] |}.

(** 2026-01-01T00:00:00, no key in the environment, a feed that answers
    every request with [sample_feed]. *)
Definition sample_env : Env :=
  {| utcnow := 63902822400000000;
     NVD_API_KEY := None;
     nvd := fun _ => GetReturns {| status_code := 200; json := Ok sample_feed |} |}.

(** The same feed a minute later, with a key in the environment. *)
Definition later_env : Env :=
  {| utcnow := 63902822460000000;
     NVD_API_KEY := Some "k";
     nvd := fun _ => GetReturns {| status_code := 200; json := Ok sample_feed |} |}.

(** A feed that times out, and one that answers 503. *)
Definition timeout_env : Env :=
  {| utcnow := 63902822400000000;
     NVD_API_KEY := None;
     nvd := fun _ => GetRaises Timeout |}.

Definition unavailable_env : Env :=
  {| utcnow := 63902822400000000;
     NVD_API_KEY := None;
     nvd := fun _ =>
       GetReturns {| status_code := 503;
                     json := Raise (OtherException "JSONDecodeError") |} |}.

Definition fresh_world : World := {| logged := []; requests_sent := [] |}.

(** Model files: all three in place; the classifier file present but not
    unpicklable; the classifier file absent. *)
Definition sample_files : FileSystem string :=
  {| rf_model_pkl := Pickled sample_clf;
     tfidf_vectorizer_pkl := Pickled sample_vectorizer;
     anomaly_model_pkl := Pickled sample_anomaly_clf |}.

Definition corrupt_files : FileSystem string :=
  {| rf_model_pkl := Unloadable (OtherException "UnpicklingError");
     tfidf_vectorizer_pkl := Pickled sample_vectorizer;
     anomaly_model_pkl := Pickled sample_anomaly_clf |}.

Definition missing_model_files : FileSystem string :=
  {| rf_model_pkl := Missing;
     tfidf_vectorizer_pkl := Pickled sample_vectorizer;
     anomaly_model_pkl := Pickled sample_anomaly_clf |}.

(* ================================================================= *)
(** ** The other routes of app.py *)

Section Callers.

Context {FeatureVector : Type}.

Record HealthResponse : Type := {
  health_status : string;
  health_models_loaded : bool
}.

(** GET /health, lines 329-345: the three files are looked up by name. *)
Definition health_check (fs : FileSystem FeatureVector) : HealthResponse :=
  let required_files :=
    ["rf_model.pkl"; "tfidf_vectorizer.pkl"; "anomaly_model.pkl"] in
  let models_loaded := forallb (os_path_exists fs) required_files in
  {| health_status := if models_loaded then "healthy" else "unhealthy";
     health_models_loaded := models_loaded |}.

Record PredictResponse : Type := {
  resp_risk : string;
  resp_confidence : float;
  resp_anomalous : bool;
  resp_anomaly_score : float
}.

(** The error line of the route POST /predict (its trace id, a random
    uuid, is left out, as in [HTTPException]). *)
Inductive app_log_message : Type :=
| MsgPredictionError (e : exn).

(** POST /predict, lines 201-246.  The request model asks for a
    description of at least 20 characters ([min_length=20]); a shorter one
    is answered 422 by the framework and the function body does not run.
    A string is read one character per element.  (The name [predict] is
    taken by the method of the classifier.) *)
Definition predict_route (g : Globals FeatureVector) (description : string)
  : http_response PredictResponse * list (log_level * app_log_message) :=
  if (String.length description <? 20)%nat then (Http422, [])
  else
    match
      (let? risk_result := predict_risk g description in
       let? anomaly_result := detect_anomaly g description in
       Ok {| resp_risk := risk risk_result;
             resp_confidence := confidence risk_result;
             resp_anomalous := anomalous anomaly_result;
             resp_anomaly_score := anomaly_score anomaly_result |})
    with
    | Ok response => (Http200 response, [])
    | Raise e => (HTTPException 500 e, [(ERROR, MsgPredictionError e)])
    end.

(* ================================================================= *)
(** ** print_results_summary *)

Inductive risk_icon : Type := IconSiren | IconWarning | IconCheck.

(** One constructor per [print] call of [print_results_summary]; the
    arguments are the values the f-string interpolates. *)
Inductive summary_line : Type :=
| PrintNoResults
| PrintRule
| PrintTitle (n : nat)
| PrintStatistics
| PrintHighRisk (n : nat)
| PrintMediumRisk (n : nat)
| PrintLowRisk (n : nat)
| PrintAnomalous (n : nat)
| PrintDetailedResults
| PrintDashes
| PrintRow (idx : nat) (icon : risk_icon) (cve_id risk : string)
    (confidence : float) (anomaly_icon : bool) (label : string)
| PrintEndRule.

(** Lines 398-413, the loop over [enumerate(results, 1)]. *)
Fixpoint print_rows (idx : nat) (results : list ScoredRecord)
  : list summary_line :=
  match results with
  | [] => []
  | result :: rest =>
      let risk_icon :=
        if String.eqb (scored_risk result) "HIGH" then IconSiren
        else if String.eqb (scored_risk result) "MEDIUM" then IconWarning
        else IconCheck in
      PrintRow idx risk_icon (scored_cve_id result) (scored_risk result)
        (scored_confidence result) (scored_anomalous result)
        (if scored_anomalous result then "ANOMALOUS" else "NORMAL")
      :: print_rows (S idx) rest
  end.

(** Lines 369-415; the value is what is printed, in order. *)
Definition print_results_summary (results : list ScoredRecord)
  : list summary_line :=
  match results with
  | [] => [PrintNoResults]
  | _ :: _ =>
      let high_risk_count :=
        List.length
          (filter (fun r => String.eqb (scored_risk r) "HIGH") results) in
      let medium_risk_count :=
        List.length
          (filter (fun r => String.eqb (scored_risk r) "MEDIUM") results) in
      let low_risk_count :=
        List.length
          (filter (fun r => String.eqb (scored_risk r) "LOW") results) in
      let anomalous_count :=
        List.length (filter scored_anomalous results) in
      [ PrintRule; PrintTitle (List.length results); PrintRule;
        PrintStatistics;
        PrintHighRisk high_risk_count;
        PrintMediumRisk medium_risk_count;
        PrintLowRisk low_risk_count;
        PrintAnomalous anomalous_count;
        PrintDetailedResults; PrintDashes ]
      ++ print_rows 1 results ++ [PrintEndRule]
  end.

(* ================================================================= *)
(** ** production_integration.py *)

(** The dictionary [_categorize_results] returns.  It has no key
    ['days_analyzed']; [generate_report] reads that key with [.get]. *)
Record Summary : Type := {
  timestamp : datetime;
  total : nat;
  high_risk_count : nat;
  low_risk_count : nat;
  anomalous_count : nat;
  critical_anomalies_count : nat;
  high_risk_cves : list ScoredRecord;
  low_risk_cves : list ScoredRecord;
  anomalous_cves : list ScoredRecord;
  critical_anomalies : list ScoredRecord;
  all_results : list ScoredRecord;
  days_analyzed : option Z
}.

(** Lines 81-111; [now] is what [datetime.utcnow()] reads there. *)
Definition _categorize_results (now : datetime) (results : list ScoredRecord)
  : Summary :=
  let high_risk :=
    filter (fun r => String.eqb (scored_risk r) "HIGH") results in
  let low_risk :=
    filter (fun r => String.eqb (scored_risk r) "LOW") results in
  let anomalous := filter scored_anomalous results in
  let critical_anomalies :=
    filter (fun r => String.eqb (scored_risk r) "HIGH" && scored_anomalous r)
      results in
  {| timestamp := now;
     total := List.length results;
     high_risk_count := List.length high_risk;
     low_risk_count := List.length low_risk;
     anomalous_count := List.length anomalous;
     critical_anomalies_count := List.length critical_anomalies;
     high_risk_cves := high_risk;
     low_risk_cves := low_risk;
     anomalous_cves := anomalous;
     critical_anomalies := critical_anomalies;
     all_results := results;
     days_analyzed := None |}.

(** The lines of the logger of production_integration.py. *)
Inductive monitor_message : Type :=
| MsgAnalysisStarting (days_back max_results : Z)
| MsgAnalysisComplete (total high_risk_count anomalous_count : nat)
| MsgAnalysisFailed (e : exn)
| MsgOnDemandStarting
| MsgOnDemandComplete (risk : string) (anomalous : bool)
| MsgOnDemandFailed (e : exn).

(** [CVEMonitor.fetch_and_analyze], lines 44-79; [self_api_key] is
    [self.api_key], [now] the clock [_categorize_results] reads. *)
Definition fetch_and_analyze (g : Globals FeatureVector)
    (self_api_key : option string) (days_back max_results : Z)
    (now : datetime) (env : Env) (w : World)
  : result Summary * World * list (log_level * monitor_message) :=
  let starting := (INFO, MsgAnalysisStarting days_back max_results) in
  match process_new_cves g days_back max_results self_api_key env w with
  | (Ok results, w') =>
      let summary := _categorize_results now results in
      (Ok summary, w',
       [ starting;
         (INFO, MsgAnalysisComplete (total summary) (high_risk_count summary)
                  (anomalous_count summary)) ])
  | (Raise e, w') => (Raise e, w', [starting; (ERROR, MsgAnalysisFailed e)])
  end.

(** One constructor per line of the report of [generate_report]. *)
Inductive report_line : Type :=
| ReportRule
| ReportTitle
| ReportGenerated (timestamp : datetime)
| ReportPeriod (days : option Z)
| ReportBlank
| ReportSummaryHeading
| ReportDashes
| ReportTotal (n : nat)
| ReportHighRisk (n : nat)
| ReportLowRisk (n : nat)
| ReportAnomalous (n : nat)
| ReportCritical (n : nat)
| ReportCriticalHeading
| ReportCriticalRow (cve_id risk : string) (confidence : float)
| ReportHighHeading
| ReportHighRow (anomaly_flag : bool) (cve_id : string) (confidence : float)
| ReportMore (n : nat).

(** Lines 124-170 of [generate_report]: the lines of the report, before
    they are joined and written. *)
Definition report_lines (summary : Summary) : list report_line :=
  let report_lines :=
    [ ReportRule; ReportTitle; ReportRule;
      ReportGenerated (timestamp summary);
      ReportPeriod (days_analyzed summary);
      ReportBlank; ReportSummaryHeading; ReportDashes;
      ReportTotal (total summary);
      ReportHighRisk (high_risk_count summary);
      ReportLowRisk (low_risk_count summary);
      ReportAnomalous (anomalous_count summary);
      ReportCritical (critical_anomalies_count summary);
      ReportBlank ] in
  let report_lines :=
    match critical_anomalies summary with
    | [] => report_lines
    | _ :: _ =>
        report_lines ++ [ReportCriticalHeading; ReportDashes]
        ++ map (fun cve =>
                  ReportCriticalRow (scored_cve_id cve) (scored_risk cve)
                    (scored_confidence cve))
             (critical_anomalies summary)
        ++ [ReportBlank]
    end in
  let report_lines :=
    match high_risk_cves summary with
    | [] => report_lines
    | _ :: _ =>
        report_lines ++ [ReportHighHeading; ReportDashes]
        ++ map (fun cve =>
                  ReportHighRow (scored_anomalous cve) (scored_cve_id cve)
                    (scored_confidence cve))
             (firstn 10 (high_risk_cves summary))
        ++ (if (10 <? List.length (high_risk_cves summary))%nat
            then [ReportMore (List.length (high_risk_cves summary) - 10)]
            else [])
        ++ [ReportBlank]
    end in
  report_lines ++ [ReportRule].

Record AnalysisResult : Type := {
  description_preview : string;
  analysis_risk : string;
  analysis_confidence : float;
  analysis_anomalous : bool;
  analysis_anomaly_score : float;
  analysis_timestamp : datetime
}.

(** [on_demand_analysis], lines 234-272; [now] is the clock read for the
    timestamp. *)
Definition on_demand_analysis (g : Globals FeatureVector)
    (cve_description : string) (now : datetime)
  : result AnalysisResult * list (log_level * monitor_message) :=
  let starting := (INFO, MsgOnDemandStarting) in
  match
    (let? risk_result := predict_risk g cve_description in
     let? anomaly_result := detect_anomaly g cve_description in
     Ok {| description_preview :=
             (substring 0 100 cve_description ++ "...")%string;
           analysis_risk := risk risk_result;
           analysis_confidence := confidence risk_result;
           analysis_anomalous := anomalous anomaly_result;
           analysis_anomaly_score := anomaly_score anomaly_result;
           analysis_timestamp := now |})
  with
  | Ok result =>
      (Ok result,
       [ starting;
         (INFO, MsgOnDemandComplete (analysis_risk result)
                  (analysis_anomalous result)) ])
  | Raise e => (Raise e, [starting; (ERROR, MsgOnDemandFailed e)])
  end.

End Callers.

(* ================================================================= *)
(** ** check_server.py *)

(** What one [requests.get] on the root route does: it raises, or returns
    a response with a status and a body [response.json()] parses or
    not. *)
Inductive root_outcome : Type :=
| RootRaises (e : request_error)
| RootReturns (status_code : Z) (json : result string).

Inductive check_event : Type :=
| EvPrintChecking
| EvGet (attempt : nat)
| EvPrintRunning
| EvPrintBody (body : string)
| EvPrintNotReady (attempt max_attempts : nat) (e : exn)
| EvSleep (seconds : Z)
| EvPrintNotRunning.

(** Lines 17-30, the loop over [range(1, max_attempts + 1)]; [server]
    gives the outcome of each attempt, [remaining] counts the attempts
    left.  The value is what the function returns (or the exception that
    escapes it) and what it did, in order. *)
Fixpoint check_attempts (server : nat -> root_outcome)
    (max_attempts attempt remaining : nat)
  : result bool * list check_event :=
  match remaining with
  | O => (Ok false, [EvPrintNotRunning])
  | S remaining' =>
      let continue (events : list check_event) :=
        let '(r, later) :=
          check_attempts server max_attempts (S attempt) remaining' in
        (r, events ++ later) in
      let not_ready (before : list check_event) (e : exn) :=
        continue
          (before ++ [EvPrintNotReady attempt max_attempts e] ++
           (if (attempt <? max_attempts)%nat then [EvSleep 2] else [])) in
      match server attempt with
      | RootRaises e => not_ready [EvGet attempt] (RequestException e)
      | RootReturns status_code json =>
          if status_code =? 200 then
            match json with
            | Ok body =>
                (Ok true, [EvGet attempt; EvPrintRunning; EvPrintBody body])
            | Raise e =>
                if is_RequestException e then
                  not_ready [EvGet attempt; EvPrintRunning] e
                else (Raise e, [EvGet attempt; EvPrintRunning])
            end
          else continue [EvGet attempt]
      end
  end.

Definition check_server (server : nat -> root_outcome)
  : result bool * list check_event :=
  let max_attempts := 5%nat in
  let '(r, events) := check_attempts server max_attempts 1 max_attempts in
  (r, EvPrintChecking :: events).

(* ================================================================= *)
(** ** The webhook message of production_integration.py *)

(** The JSON message [webhook_integration] posts, lines 285-299: the
    numbers are the counts of the summary ([str] of each), the colour is
    ["danger"] when the count of critical anomalies is positive. *)
Record WebhookMessage : Type := {
  text_critical : nat;
  field_total : nat;
  field_high_risk : nat;
  field_anomalous : nat;
  field_critical : nat;
  color : string
}.

Definition webhook_message (summary : Summary) : WebhookMessage :=
  {| text_critical := critical_anomalies_count summary;
     field_total := total summary;
     field_high_risk := high_risk_count summary;
     field_anomalous := anomalous_count summary;
     field_critical := critical_anomalies_count summary;
     color := if (0 <? critical_anomalies_count summary)%nat
              then "danger" else "good" |}.

(* ================================================================= *)
(** ** Vocabulary of the further properties *)

(** The three tiers. *)
Definition is_tier (s : string) : Prop :=
  s = "HIGH" \/ s = "MEDIUM" \/ s = "LOW".

Definition tier_rank (tier : string) : nat :=
  if String.eqb tier "HIGH" then 2
  else if String.eqb tier "MEDIUM" then 1
  else 0.

Definition has_risk (tier : string) (r : ScoredRecord) : bool :=
  String.eqb (scored_risk r) tier.

(** 0.60 as [float.hex()] prints it. *)
Definition f0_60 : float := S754_finite false 0x13333333333333 (-53).

(** The error lines of the loop of [process_new_cves]. *)
Definition is_processing_error (l : log_record) : bool :=
  match message l with
  | MsgProcessingError _ _ => true
  | _ => false
  end.

Definition count_processing_errors (l : list log_record) : nat :=
  List.length (filter is_processing_error l).

(** [subsequence l1 l2]: [l1] is [l2] with some elements left out, the
    others in their order. *)
Inductive subsequence {A : Type} : list A -> list A -> Prop :=
| subsequence_nil : subsequence [] []
| subsequence_skip (x : A) (l1 l2 : list A) :
    subsequence l1 l2 -> subsequence l1 (x :: l2)
| subsequence_keep (x : A) (l1 l2 : list A) :
    subsequence l1 l2 -> subsequence (x :: l1) (x :: l2).


(** The requests and the pauses among the events of [check_server]. *)
Definition is_get (ev : check_event) : bool :=
  match ev with EvGet _ => true | _ => false end.

Definition is_sleep (ev : check_event) : bool :=
  match ev with EvSleep _ => true | _ => false end.

Definition gets (events : list check_event) : nat :=
  List.length (filter is_get events).

Definition sleeps (events : list check_event) : nat :=
  List.length (filter is_sleep events).

(** Every pause is directly followed by a request. *)
Fixpoint pauses_before_requests (events : list check_event) : bool :=
  match events with
  | [] => true
  | EvSleep _ :: rest =>
      match rest with
      | EvGet _ :: _ => pauses_before_requests rest
      | _ => false
      end
  | _ :: rest => pauses_before_requests rest
  end.

(** The root route answers 200 with a body that parses. *)
Definition ready (o : root_outcome) : bool :=
  match o with
  | RootReturns status_code (Ok _) => status_code =? 200
  | _ => false
  end.

(** It answers 200 with a body whose parsing raises an exception the
    [except] clause of [check_server] does not catch. *)
Definition fatal (o : root_outcome) : bool :=
  match o with
  | RootReturns status_code (Raise e) =>
      (status_code =? 200) && negb (is_RequestException e)
  | _ => false
  end.

(* ================================================================= *)
(** ** Further samples *)

(** A feed whose second item has an entry tagged "en" without the key
    ["value"], between two well-formed items. *)
Definition broken_feed : FeedData :=
  {| vulnerabilities := Some
       [ sample_item (Some "CVE-2026-0001") [en "remote code execution"];
         sample_item (Some "CVE-2026-0004")
           [{| lang := Some "en"; value := None |}];
         sample_item (Some "CVE-2026-0005") [en "denial of service"] ] |}.



(** A feed that answers 304 with the sample document as its body. *)
Definition not_modified_env : Env :=
  {| utcnow := 63902822400000000;
     NVD_API_KEY := None;
     nvd := fun _ => GetReturns {| status_code := 304; json := Ok sample_feed |} |}.

Definition broken_env : Env :=
  {| utcnow := 63902822400000000;
     NVD_API_KEY := None;
     nvd := fun _ => GetReturns {| status_code := 200; json := Ok broken_feed |} |}.

(** A feed without any English description: a translation only, an empty
    English text, no descriptions at all. *)
Definition untranslated_feed : FeedData :=
  {| vulnerabilities := Some
       [ sample_item (Some "CVE-2026-0002") [es "sin traduccion"];
         sample_item (Some "CVE-2026-0006") [en EmptyString];
         {| cve := None |} ] |}.

Definition untranslated_env : Env :=
  {| utcnow := 63902822400000000;
     NVD_API_KEY := Some "k";
     nvd := fun _ =>
       GetReturns {| status_code := 200; json := Ok untranslated_feed |} |}.

(** A server that refuses the first two connections and answers the
    third; one that never comes up. *)
Definition starting_server (attempt : nat) : root_outcome :=
  if (attempt <? 3)%nat then RootRaises ConnectionError
  else RootReturns 200 (Ok "running").

Definition down_server (attempt : nat) : root_outcome :=
  if Nat.even attempt then RootReturns 503 (Ok "unavailable")
  else RootRaises ConnectionError.

(* ================================================================= *)
(** * Properties *)

(** The literals are the decimal numbers rounded to binary64. *)
Example decimal_literals :
  decimal 70 100 = f0_70 /\ decimal 40 100 = f0_40 /\
  decimal 6999 10000 = f0_6999 /\ decimal 3999 10000 = f0_3999 /\
  decimal 6001 10000 = f0_6001 /\ decimal 1 1 = one /\ of_Z 0 = zero.
Proof. vm_compute. repeat split. Qed.

(** Values of [1.0 - x] as Python computes them ([float.hex()] of the
    result): 0.9, 0.75, 0.7, 0.61, 0.6001000000000001,
    0.6666666666666667, and 1.0 for 1e-17 and for the least subnormal. *)
Example fsub_reference_values :
  fsub one (decimal 1 10) = S754_finite false 0x1ccccccccccccd (-53) /\
  fsub one (decimal 25 100) = S754_finite false 0x18000000000000 (-53) /\
  fsub one (decimal 3 10) = f0_70 /\
  fsub one (decimal 39 100) = S754_finite false 0x13851eb851eb85 (-53) /\
  fsub one (decimal 3999 10000) = f0_6001_next /\
  fsub one (decimal 1 3) = S754_finite false 0x15555555555556 (-53) /\
  fsub one (decimal 1 100000000000000000) = one /\
  fsub one (S754_finite false 1 (-1074)) = one.
Proof. vm_compute. repeat split. Qed.

(** ** Comparisons of binary64 numbers *)

Lemma SFltb_SFleb_false (x y : float) :
  SFltb x y = true -> SFleb y x = false.
Proof.
  unfold SFltb, SFleb.
  destruct x as [sx|sx| |sx mx ex], y as [sy|sy| |sy my ey];
    cbn [SFcompare]; try discriminate;
    try (destruct sx; discriminate || reflexivity);
    try (destruct sy; discriminate || reflexivity);
    try (destruct sx, sy; discriminate || reflexivity).
  destruct sx, sy; try discriminate; try reflexivity.
  - change (Pos.compare_cont Eq mx my) with (mx ?= my)%positive.
    change (Pos.compare_cont Eq my mx) with (my ?= mx)%positive.
    rewrite (Z.compare_antisym ex ey), (Pos.compare_antisym mx my).
    destruct (ex ?= ey); cbn [CompOpp]; try discriminate; try reflexivity.
    destruct (mx ?= my)%positive; cbn [CompOpp]; discriminate || reflexivity.
  - change (Pos.compare_cont Eq mx my) with (mx ?= my)%positive.
    change (Pos.compare_cont Eq my mx) with (my ?= mx)%positive.
    rewrite (Z.compare_antisym ex ey), (Pos.compare_antisym mx my).
    destruct (ex ?= ey); cbn [CompOpp]; try discriminate; try reflexivity.
    destruct (mx ?= my)%positive; cbn [CompOpp]; discriminate || reflexivity.
Qed.

Lemma below_0_40_below_0_70 (p : float) :
  flt p f0_40 = true -> fge p f0_70 = false.
Proof.
  unfold flt, fge, SFltb, SFleb, f0_40, f0_70.
  destruct p as [s|s| |s m e]; cbn [SFcompare]; try discriminate;
    try reflexivity; try (destruct s; discriminate || reflexivity).
  destruct s; [reflexivity|].
  destruct (Z.compare_spec e (-54)); try discriminate; intros _.
  - subst e. reflexivity.
  - destruct (Z.compare_spec (-53) e); try reflexivity; lia.
Qed.

(** ** Rounding of [1.0 - p] *)

Lemma digits2_pos_bounds (m : positive) :
  2 ^ (Zpos (digits2_pos m) - 1) <= Zpos m < 2 ^ Zpos (digits2_pos m).
Proof.
  induction m as [m IH|m IH|]; cbn [digits2_pos];
    try pose proof (Pos2Z.is_pos (digits2_pos m)) as Hd.
  - rewrite Pos2Z.inj_succ, (Pos2Z.inj_xI m).
    replace (Z.succ (Zpos (digits2_pos m)) - 1)
      with (Z.succ (Zpos (digits2_pos m) - 1)) by lia.
    rewrite !Z.pow_succ_r by lia. lia.
  - rewrite Pos2Z.inj_succ, (Pos2Z.inj_xO m).
    replace (Z.succ (Zpos (digits2_pos m)) - 1)
      with (Z.succ (Zpos (digits2_pos m) - 1)) by lia.
    rewrite !Z.pow_succ_r by lia. lia.
  - cbn. lia.
Qed.

Lemma digits2_pos_unique (m : positive) (d : Z) :
  2 ^ (d - 1) <= Zpos m < 2 ^ d -> Zpos (digits2_pos m) = d.
Proof.
  intros [Hlo Hhi].
  pose proof (digits2_pos_bounds m) as [Hlo' Hhi'].
  assert (0 < d).
  { destruct (Z_lt_le_dec 0 d) as [|Hd]; [assumption|].
    assert (2 ^ d <= 2 ^ 0) by (destruct (Z.eq_dec d 0) as [->|];
      [lia | rewrite Z.pow_neg_r by lia; cbn; lia]).
    cbn in *. lia. }
  destruct (Z.lt_trichotomy (Zpos (digits2_pos m)) d) as [Hlt|[Heq|Hgt]];
    [exfalso | exact Heq | exfalso].
  - assert (2 ^ Zpos (digits2_pos m) <= 2 ^ (d - 1))
      by (apply Z.pow_le_mono_r; lia).
    lia.
  - assert (2 ^ d <= 2 ^ (Zpos (digits2_pos m) - 1))
      by (apply Z.pow_le_mono_r; lia).
    lia.
Qed.

Lemma iter_xO_value (m d : positive) :
  Zpos (Pos.iter xO m d) = Zpos m * 2 ^ Zpos d.
Proof.
  change (Pos.iter xO m d) with (shift_pos d m).
  rewrite shift_pos_correct.
  change (Zpower_pos 2 d) with (2 ^ Zpos d).
  apply Z.mul_comm.
Qed.

Lemma shr_1_half (mrs : shr_record) :
  0 <= shr_m mrs -> shr_m (shr_1 mrs) = shr_m mrs / 2.
Proof.
  destruct mrs as [m r s]. cbn [shr_m]. intros Hm.
  rewrite <- Z.div2_div.
  destruct m as [|[p|p|]|p]; try reflexivity. lia.
Qed.

Lemma iter_shr_1_value (k : positive) :
  forall mrs : shr_record,
    0 <= shr_m mrs ->
    shr_m (iter_pos shr_1 k mrs) = shr_m mrs / 2 ^ Zpos k.
Proof.
  assert (Hpow : forall j : positive, 0 < 2 ^ Zpos j)
    by (intros j; apply Z.pow_pos_nonneg; lia).
  induction k as [k IH|k IH|]; intros mrs Hm; cbn [iter_pos].
  - assert (H1 : 0 <= shr_m (shr_1 mrs))
      by (rewrite shr_1_half by assumption; apply Z.div_pos; lia).
    assert (H2 : 0 <= shr_m (iter_pos shr_1 k (shr_1 mrs)))
      by (rewrite IH by assumption; apply Z.div_pos; [lia|apply Hpow]).
    rewrite IH, IH, shr_1_half by assumption.
    rewrite !Z.div_div by (pose proof (Hpow k); lia).
    f_equal. rewrite (Pos2Z.inj_xI k).
    replace (2 * Zpos k + 1) with (1 + Zpos k + Zpos k) by lia.
    rewrite !Z.pow_add_r by lia. lia.
  - assert (H2 : 0 <= shr_m (iter_pos shr_1 k mrs))
      by (rewrite IH by assumption; apply Z.div_pos; [lia|apply Hpow]).
    rewrite IH, IH by assumption.
    rewrite Z.div_div by (pose proof (Hpow k); lia).
    f_equal. rewrite (Pos2Z.inj_xO k).
    replace (2 * Zpos k) with (Zpos k + Zpos k) by lia.
    rewrite Z.pow_add_r by lia. reflexivity.
  - rewrite shr_1_half by assumption. reflexivity.
Qed.

Lemma round_nearest_even_bounds (q : Z) (l : location) :
  q <= round_nearest_even q l <= q + 1.
Proof.
  destruct l as [|[| |]]; cbn [round_nearest_even];
    try destruct (Z.even q); lia.
Qed.

(** [1.0 - p] for a finite [p] below one half: the difference is formed
    exactly at the exponent of [p] and then rounded. *)
Lemma fsub_one_exact (m : positive) (e : Z) :
  e <= -54 -> Zpos m < 2 ^ 53 ->
  exists M k : positive,
    -53 - e = Zpos k /\
    2 ^ 52 * 2 ^ Zpos k <= Zpos M < 2 ^ 53 * 2 ^ Zpos k /\
    fsub one (S754_finite false m e) =
    binary_round_aux 53 1024 false (Zpos M) e loc_Exact.
Proof.
  intros He Hm.
  destruct (-53 - e) as [|k|k] eqn:Hk; [exfalso; lia| |exfalso; lia].
  assert (HT2 : 2 <= 2 ^ Zpos k).
  { change 2 with (2 ^ 1) at 1. apply Z.pow_le_mono_r; lia. }
  unfold fsub, one, prec, emax, SFsub. rewrite Z.min_r by lia.
  unfold shl_align. rewrite Z.sub_diag.
  destruct (e - -52) as [|d|d] eqn:Hd; [exfalso; lia|exfalso; lia|].
  cbn [fst cond_Zopp].
  pose proof (iter_xO_value 4503599627370496 d) as HA.
  set (A := Pos.iter xO _ d) in *.
  assert (HA' : Zpos A = 2 ^ 53 * 2 ^ Zpos k).
  { rewrite HA. replace (Zpos d) with (1 + Zpos k) by lia.
    rewrite Z.pow_add_r by lia. change (2 ^ 1) with 2.
    change (2 ^ 53) with (4503599627370496 * 2). lia. }
  change (2 ^ 53) with 9007199254740992 in *.
  change (2 ^ 52) with 4503599627370496 in *.
  destruct (Zpos A - Zpos m) as [|M|M] eqn:HM; [exfalso; lia| |exfalso; lia].
  exists M, k. split; [reflexivity|]. split; [lia|].
  assert (Hfexp : fexp 53 1024 (Zpos (digits2_pos M) + e) = -53).
  { replace (Zpos (digits2_pos M)) with (- e).
    - replace (- e + e) with 0 by lia. reflexivity.
    - symmetry. apply digits2_pos_unique.
      replace (- e - 1) with (52 + Zpos k) by lia.
      replace (- e) with (53 + Zpos k) by lia.
      rewrite !Z.pow_add_r by lia.
      change (2 ^ 52) with 4503599627370496.
      change (2 ^ 53) with 9007199254740992. lia. }
  cbn [binary_normalize]. unfold binary_round.
  rewrite Hfexp. unfold shl_align. rewrite Hk. reflexivity.
Qed.

(** Rounding a value of [[1/2, 1)] to 53 bits gives a number of exponent
    -53, or 1.0 itself. *)
Lemma round_below_one (M k : positive) (e : Z) :
  -53 - e = Zpos k ->
  2 ^ 52 * 2 ^ Zpos k <= Zpos M < 2 ^ 53 * 2 ^ Zpos k ->
  binary_round_aux 53 1024 false (Zpos M) e loc_Exact = one \/
  exists q : positive,
    binary_round_aux 53 1024 false (Zpos M) e loc_Exact =
    S754_finite false q (-53).
Proof.
  intros Hk [Hlo Hhi].
  assert (HT : 0 < 2 ^ Zpos k) by (apply Z.pow_pos_nonneg; lia).
  assert (Hfirst : shr_fexp 53 1024 (Zpos M) e loc_Exact =
            (iter_pos shr_1 k (Build_shr_record (Zpos M) false false), -53)).
  { unfold shr_fexp. cbn [Zdigits2].
    replace (Zpos (digits2_pos M)) with (- e).
    - replace (- e + e) with 0 by lia.
      change (fexp 53 1024 0) with (-53). rewrite Hk.
      cbn [shr_record_of_loc shr]. f_equal. lia.
    - symmetry. apply digits2_pos_unique.
      replace (- e - 1) with (52 + Zpos k) by lia.
      replace (- e) with (53 + Zpos k) by lia.
      rewrite !Z.pow_add_r by lia. lia. }
  unfold binary_round_aux. rewrite Hfirst.
  set (mrs' := iter_pos shr_1 k _).
  assert (Hq : shr_m mrs' = Zpos M / 2 ^ Zpos k)
    by (apply (iter_shr_1_value k (Build_shr_record (Zpos M) false false));
        cbn; lia).
  assert (Hq_lo : 2 ^ 52 <= shr_m mrs')
    by (rewrite Hq; apply Z.div_le_lower_bound; lia).
  assert (Hq_hi : shr_m mrs' < 2 ^ 53)
    by (rewrite Hq; apply Z.div_lt_upper_bound; lia).
  pose proof (round_nearest_even_bounds (shr_m mrs')
                (loc_of_shr_record mrs')) as Hround.
  set (q' := round_nearest_even _ _) in *.
  change (2 ^ 52) with 4503599627370496 in *.
  change (2 ^ 53) with 9007199254740992 in *.
  destruct q' as [|Q|Q]; [exfalso; lia| |exfalso; lia].
  destruct (Z.eq_dec (Zpos Q) 9007199254740992) as [Heq|Hne].
  - left. injection Heq as ->. reflexivity.
  - right. exists Q.
    assert (Hdig : Zpos (digits2_pos Q) = 53).
    { apply digits2_pos_unique.
      change (2 ^ (53 - 1)) with 4503599627370496.
      change (2 ^ 53) with 9007199254740992. lia. }
    unfold shr_fexp. cbn [Zdigits2]. rewrite Hdig. reflexivity.
Qed.

Lemma one_minus_below_half (m : positive) (e : Z) :
  e <= -54 -> Zpos m < 2 ^ 53 ->
  fsub one (S754_finite false m e) = one \/
  exists q : positive,
    fsub one (S754_finite false m e) = S754_finite false q (-53).
Proof.
  intros He Hm.
  destruct (fsub_one_exact m e He Hm) as (M & k & Hk & HM & ->).
  exact (round_below_one M k e Hk HM).
Qed.

(** ** The monad and the loops *)

Lemma log_append_nil (w : World) : log_append w [] = w.
Proof. destruct w; unfold log_append; simpl; now rewrite app_nil_r. Qed.

Lemma log_append_app (w : World) (l1 l2 : list log_record) :
  log_append (log_append w l1) l2 = log_append w (l1 ++ l2).
Proof. unfold log_append; simpl; now rewrite app_assoc. Qed.

Lemma logger_run (l : log_level) (m : log_message) (env : Env) (w : World) :
  logger l m env w = (Ok tt, log_append w [Log l m]).
Proof. reflexivity. Qed.

Lemma english_value_find (ds : list Description) :
  english_value ds =
  match find lang_is_en ds with
  | Some d =>
      match value d with
      | Some v => Ok (Some v)
      | None => Raise (KeyError "value")
      end
  | None => Ok None
  end.
Proof.
  induction ds as [|d ds IH]; simpl; [reflexivity|].
  destruct (lang_is_en d); [reflexivity|exact IH].
Qed.

(** The loop of the feed client on a schema-conforming list of items: it
    appends the scorable records, logs the warnings, and does not raise. *)
Lemma extract_cves_run (items : list Vulnerability) :
  forallb en_value_present items = true ->
  forall (acc : list CveRecord) (env : Env) (w : World),
    extract_cves items acc env w =
    (Ok (acc ++ scorable items), log_append w (flat_map warning_of items)).
Proof.
  induction items as [|item items IH]; intros Hwf acc env w.
  - simpl. now rewrite app_nil_r, log_append_nil.
  - simpl in Hwf. apply andb_true_iff in Hwf as [Hitem Hrest].
    cbn [extract_cves]. unfold bind at 1, lift at 1.
    rewrite english_value_find.
    unfold scorable, en_value_present in *.
    cbn [flat_map]. unfold record_of at 1, warning_of at 1.
    unfold english_description, item_descriptions, item_id, item_cve in *.
    destruct (find lang_is_en _) as [d|].
    + destruct (value d) as [v|]; [|discriminate].
      cbn [truthy]. destruct (String.eqb v EmptyString) eqn:Ev; cbn [negb].
      * unfold bind at 1. rewrite logger_run.
        rewrite (IH Hrest). now rewrite log_append_app.
      * rewrite (IH Hrest). cbn [app]. now rewrite <- app_assoc.
    + cbn [truthy]. unfold bind at 1. rewrite logger_run.
      rewrite (IH Hrest). now rewrite log_append_app.
Qed.

Lemma extract_cves_app (l1 : list Vulnerability) :
  forallb en_value_present l1 = true ->
  forall (l2 : list Vulnerability) (acc : list CveRecord) (env : Env)
         (w : World),
    extract_cves (l1 ++ l2) acc env w =
    extract_cves l2 (acc ++ scorable l1) env
      (log_append w (flat_map warning_of l1)).
Proof.
  induction l1 as [|item items IH]; intros Hwf l2 acc env w.
  - simpl. now rewrite app_nil_r, log_append_nil.
  - simpl in Hwf. apply andb_true_iff in Hwf as [Hitem Hrest].
    cbn [app extract_cves]. unfold bind at 1, lift at 1.
    rewrite english_value_find.
    unfold scorable, en_value_present in *.
    cbn [flat_map]. unfold record_of at 1, warning_of at 1.
    unfold english_description, item_descriptions, item_id, item_cve in *.
    destruct (find lang_is_en _) as [d|].
    + destruct (value d) as [v|]; [|discriminate].
      cbn [truthy]. destruct (String.eqb v EmptyString) eqn:Ev; cbn [negb].
      * unfold bind at 1. rewrite logger_run.
        rewrite (IH Hrest). now rewrite log_append_app.
      * rewrite (IH Hrest). cbn [app]. now rewrite <- app_assoc.
    + cbn [truthy]. unfold bind at 1. rewrite logger_run.
      rewrite (IH Hrest). now rewrite log_append_app.
Qed.

Lemma extract_cves_key_error (item : Vulnerability)
    (rest : list Vulnerability) (acc : list CveRecord) (env : Env)
    (w : World) :
  en_value_present item = false ->
  extract_cves (item :: rest) acc env w = (Raise (KeyError "value"), w).
Proof.
  unfold en_value_present, item_descriptions, item_cve. intros H.
  cbn [extract_cves]. unfold bind at 1, lift at 1.
  rewrite english_value_find.
  destruct (find lang_is_en _) as [d|]; [|discriminate H].
  destruct (value d); [discriminate H|reflexivity].
Qed.


Lemma process_each_run {FV : Type} (g : Globals FV) (total : nat)
    (cves : list CveRecord) :
  forall (idx : nat) (results : list ScoredRecord) (env : Env) (w : World),
    process_each g total idx cves results env w =
    (Ok (results ++ aggregate g cves),
     log_append w (loop_log g total idx cves)).
Proof.
  induction cves as [|c cves IH]; intros idx results env w.
  - simpl. now rewrite app_nil_r, log_append_nil.
  - cbn [process_each loop_log]. unfold aggregate. cbn [flat_map].
    unfold bind at 1. rewrite logger_run.
    unfold bind at 1, try_except, record_log, entry_of, score_record.
    unfold bind at 1, lift at 1.
    destruct (predict_risk g (description c)) as [r|e]; cbn [rbind].
    + unfold bind at 1, lift at 1.
      destruct (detect_anomaly g (description c)) as [a|e]; cbn [rbind].
      * unfold bind at 1. rewrite logger_run. unfold ret at 1.
        rewrite IH, !log_append_app. cbn [app].
        now rewrite <- app_assoc.
      * unfold bind at 1. rewrite logger_run. unfold ret at 1.
        rewrite IH, !log_append_app. reflexivity.
    + unfold bind at 1. rewrite logger_run. unfold ret at 1.
      rewrite IH, !log_append_app. reflexivity.
Qed.

Lemma resolve_api_key_run (api_key : option string) (env : Env) (w : World) :
  resolve_api_key api_key env w =
  (Ok (effective_api_key env api_key), log_append w (key_warning env api_key)).
Proof.
  destruct api_key as [k|]; simpl.
  - unfold ret. now rewrite log_append_nil.
  - unfold bind, ask. destruct (truthy (NVD_API_KEY env)).
    + unfold ret. now rewrite log_append_nil.
    + reflexivity.
Qed.

(** [fetch_cves_from_nvd], one case per way it can end. *)
Lemma fetch_unfold (days_back max_results : Z) (api_key : option string)
    (env : Env) (w : World) :
  fetch_cves_from_nvd days_back max_results api_key env w =
  let w0 := log_append w (key_warning env api_key) in
  match window_start (utcnow env) days_back with
  | Raise e => (Raise e, w0)
  | Ok start_date =>
      let req := nvd_request start_date (utcnow env) max_results
                   (effective_api_key env api_key) in
      let w1 :=
        send (log_append w0
                [Log INFO (MsgFetching (date start_date) (date (utcnow env)))])
             req in
      let failed e :=
        (Raise e,
         if is_RequestException e
         then log_append w1 [Log ERROR (MsgFetchError e)] else w1) in
      match nvd env req with
      | GetRaises e => failed (RequestException e)
      | GetReturns r =>
          match raise_for_status r with
          | Raise e => failed e
          | Ok _ =>
              match json r with
              | Raise e => failed e
              | Ok data =>
                  match extract_cves (feed_items data) [] env w1 with
                  | (Ok extracted, w2) =>
                      (Ok extracted,
                       log_append w2 [Log INFO (MsgFetched (List.length extracted))])
                  | (Raise e, w2) =>
                      (Raise e,
                       if is_RequestException e
                       then log_append w2 [Log ERROR (MsgFetchError e)] else w2)
                  end
              end
          end
      end
  end.
Proof.
  unfold fetch_cves_from_nvd.
  unfold bind at 1. rewrite resolve_api_key_run.
  unfold bind at 1, ask at 1.
  unfold bind at 1, lift at 1.
  destruct (window_start (utcnow env) days_back) as [start_date|e];
    [|reflexivity].
  unfold bind at 1. rewrite logger_run.
  unfold try_except, bind at 1, requests_get.
  cbv zeta. unfold send, feed_items.
  destruct (nvd env _) as [e|r].
  - cbn [is_RequestException]. unfold bind, raise. rewrite logger_run.
    reflexivity.
  - unfold bind at 1, lift at 1.
    destruct (raise_for_status r) as [[]|e].
    + unfold bind at 1, lift at 1.
      destruct (json r) as [data|e].
      * unfold bind at 1.
        destruct (extract_cves _ _ _ _) as [[extracted|e] w2].
        -- unfold bind, ret. rewrite logger_run. reflexivity.
        -- destruct (is_RequestException e); [|reflexivity].
           unfold bind, raise. rewrite logger_run. reflexivity.
      * destruct (is_RequestException e); [|reflexivity].
        unfold bind, raise. rewrite logger_run. reflexivity.
    + destruct (is_RequestException e); [|reflexivity].
      unfold bind, raise. rewrite logger_run. reflexivity.
Qed.

Lemma process_new_cves_unfold {FV : Type} (g : Globals FV)
    (days_back max_results : Z) (api_key : option string)
    (env : Env) (w : World) :
  process_new_cves g days_back max_results api_key env w =
  match fetch_cves_from_nvd days_back max_results api_key env
          (log_append w [Log INFO MsgStarting]) with
  | (Raise e, w1) => (Raise e, log_append w1 [Log ERROR (MsgFailedToFetch e)])
  | (Ok [], w1) => (Ok [], log_append w1 [Log WARNING MsgNoCves])
  | (Ok cves, w1) =>
      (Ok (aggregate g cves),
       log_append w1
         (loop_log g (List.length cves) 1 cves ++
          [Log INFO (MsgCompleted (List.length (aggregate g cves))
                       (List.length cves))]))
  end.
Proof.
  unfold process_new_cves.
  unfold bind at 1. rewrite logger_run.
  unfold bind at 1, try_except.
  destruct (fetch_cves_from_nvd _ _ _ _ _) as [[cves|e] w1].
  - destruct cves as [|c cves].
    + unfold bind, ret. rewrite logger_run. reflexivity.
    + unfold bind at 1. rewrite process_each_run.
      unfold bind, ret. rewrite logger_run, log_append_app. reflexivity.
  - unfold bind, raise. rewrite logger_run. reflexivity.
Qed.

Lemma issued_request_inv (env : Env) (days_back max_results : Z)
    (api_key : option string) (req : Request) :
  issued_request env days_back max_results api_key = Ok req ->
  exists start_date : datetime,
    window_start (utcnow env) days_back = Ok start_date /\
    req = nvd_request start_date (utcnow env) max_results
            (effective_api_key env api_key).
Proof.
  unfold issued_request.
  destruct (window_start _ _) as [start_date|e]; cbn [rbind]; intros H.
  - injection H as <-. now exists start_date.
  - discriminate H.
Qed.

(** The value [extract_cves] and [fetch_cves_from_nvd] return depends on
    the answer of the feed alone: not on the clock, the key, or what was
    logged or sent before. *)
Lemma extract_cves_result (items : list Vulnerability) :
  forall (acc : list CveRecord) (env env' : Env) (w w' : World),
    fst (extract_cves items acc env w) = fst (extract_cves items acc env' w').
Proof.
  induction items as [|item items IH]; intros acc env env' w w';
    [reflexivity|].
  cbn [extract_cves]. unfold bind at 1 3, lift at 1 2.
  destruct (english_value _) as [desc_text|e]; [|reflexivity].
  destruct (truthy desc_text); [apply IH|].
  unfold bind. rewrite !logger_run. apply IH.
Qed.

Lemma fetch_result_same_answer (days_back max_results : Z)
    (key1 key2 : option string) (env1 env2 : Env) (w1 w2 : World)
    (req1 req2 : Request) :
  issued_request env1 days_back max_results key1 = Ok req1 ->
  issued_request env2 days_back max_results key2 = Ok req2 ->
  nvd env1 req1 = nvd env2 req2 ->
  fst (fetch_cves_from_nvd days_back max_results key1 env1 w1) =
  fst (fetch_cves_from_nvd days_back max_results key2 env2 w2).
Proof.
  intros H1 H2 Hsame.
  apply issued_request_inv in H1 as (s1 & Hs1 & ->).
  apply issued_request_inv in H2 as (s2 & Hs2 & ->).
  rewrite !fetch_unfold, Hs1, Hs2. cbv zeta. rewrite Hsame.
  destruct (nvd env2 _) as [e|r]; [reflexivity|].
  destruct (raise_for_status r) as [[]|e]; [|reflexivity].
  destruct (json r) as [data|e]; [|reflexivity].
  match goal with
  | |- fst (match extract_cves ?i ?a ?e1 ?u1 with _ => _ end) =
       fst (match extract_cves ?i ?a ?e2 ?u2 with _ => _ end) =>
      pose proof (extract_cves_result i a e1 e2 u1 u2) as H;
      destruct (extract_cves i a e1 u1) as [[x1|x1] v1];
      destruct (extract_cves i a e2 u2) as [[x2|x2] v2];
      simpl in H; try discriminate H; simpl; congruence
  end.
Qed.

Lemma fetch_result (days_back max_results : Z) (api_key : option string)
    (env : Env) (w w' : World) :
  fst (fetch_cves_from_nvd days_back max_results api_key env w) =
  fst (fetch_cves_from_nvd days_back max_results api_key env w').
Proof.
  destruct (issued_request env days_back max_results api_key) as [req|e] eqn:E.
  - now apply (fetch_result_same_answer _ _ _ _ _ _ _ _ req req).
  - unfold issued_request in E. rewrite !fetch_unfold.
    destruct (window_start _ _); [discriminate E|reflexivity].
Qed.

(** What [process_new_cves] returns, from what the fetch returns. *)
Lemma process_result {FV : Type} (g : Globals FV)
    (days_back max_results : Z) (api_key : option string)
    (env : Env) (w : World) :
  fst (process_new_cves g days_back max_results api_key env w) =
  match fst (fetch_cves_from_nvd days_back max_results api_key env w) with
  | Ok cves => Ok (aggregate g cves)
  | Raise e => Raise e
  end.
Proof.
  rewrite process_new_cves_unfold.
  rewrite (fetch_result _ _ _ _ w (log_append w [Log INFO MsgStarting])).
  destruct (fetch_cves_from_nvd _ _ _ _ _) as [[[|c cves]|e] w1]; reflexivity.
Qed.

Lemma aggregate_app {FV : Type} (g : Globals FV) (l1 l2 : list CveRecord) :
  aggregate g (l1 ++ l2) = aggregate g l1 ++ aggregate g l2.
Proof. unfold aggregate. apply flat_map_app. Qed.

Lemma aggregate_cons {FV : Type} (g : Globals FV) (c : CveRecord)
    (l : list CveRecord) :
  aggregate g (c :: l) = entry_of g c ++ aggregate g l.
Proof. reflexivity. Qed.

Lemma aggregate_all_scored {FV : Type} (g : Globals FV) (l : list CveRecord) :
  Forall (fun c => exists s, score_record g c = Ok s) l ->
  Forall2 (fun c s => score_record g c = Ok s) l (aggregate g l).
Proof.
  induction 1 as [|c l [s Hs] _ IH]; [constructor|].
  unfold aggregate. cbn [flat_map]. unfold entry_of at 1. rewrite Hs.
  cbn [app]. constructor; assumption.
Qed.

Lemma loop_log_app {FV : Type} (g : Globals FV) (total : nat)
    (l1 l2 : list CveRecord) :
  forall idx : nat,
    loop_log g total idx (l1 ++ l2) =
    loop_log g total idx l1 ++ loop_log g total (idx + List.length l1) l2.
Proof.
  induction l1 as [|c l1 IH]; intros idx; cbn [app loop_log List.length].
  - now rewrite Nat.add_0_r.
  - rewrite IH, <- app_assoc.
    replace (idx + S (List.length l1))%nat with (S idx + List.length l1)%nat
      by lia.
    reflexivity.
Qed.

Lemma record_log_error {FV : Type} (g : Globals FV) (total idx : nat)
    (c : CveRecord) (e : exn) :
  score_record g c = Raise e ->
  In (Log ERROR (MsgProcessingError (cve_id c) e)) (record_log g total idx c).
Proof.
  unfold score_record, record_log. intros H. right.
  destruct (predict_risk g (description c)) as [r|e1]; cbn [rbind] in H.
  - destruct (detect_anomaly g (description c)) as [a|e2]; cbn [rbind] in H.
    + discriminate H.
    + injection H as ->. now left.
  - injection H as ->. now left.
Qed.

(** ** The model on the sample feed *)

Example process_sample_feed :
  fst (process_new_cves sample_globals 7 20 None sample_env fresh_world) =
  Ok [ {| scored_cve_id := "CVE-2026-0001"; scored_risk := "HIGH";
          scored_confidence := f0_70; scored_anomalous := true |};
       {| scored_cve_id := "Unknown"; scored_risk := "LOW";
          scored_confidence := f0_6001_next; scored_anomalous := false |};
       {| scored_cve_id := "Unknown"; scored_risk := "LOW";
          scored_confidence := f0_6001_next; scored_anomalous := false |} ].
Proof. vm_compute. reflexivity. Qed.

Example process_sample_log :
  logged
    (snd (process_new_cves sample_globals 7 20 None sample_env fresh_world)) =
  [ Log INFO MsgStarting;
    Log WARNING MsgNoApiKey;
    Log INFO (MsgFetching 739609 739616);
    Log WARNING (MsgNoEnglishDescription "CVE-2026-0002");
    Log INFO (MsgFetched 4);
    Log INFO (MsgProcessing 1 4 "CVE-2026-0001");
    Log INFO (MsgScored "HIGH" f0_70 true);
    Log INFO (MsgProcessing 2 4 "CVE-2026-0003");
    Log ERROR (MsgProcessingError "CVE-2026-0003"
                 (OtherException "UnicodeDecodeError"));
    Log INFO (MsgProcessing 3 4 "Unknown");
    Log INFO (MsgScored "LOW" f0_6001_next false);
    Log INFO (MsgProcessing 4 4 "Unknown");
    Log INFO (MsgScored "LOW" f0_6001_next false);
    Log INFO (MsgCompleted 3 4) ].
Proof. vm_compute. reflexivity. Qed.

Example process_unavailable_feed :
  process_new_cves sample_globals 7 20 (Some "key") unavailable_env
    fresh_world =
  (Raise (RequestException (HTTPError 503)),
   {| logged :=
        [ Log INFO MsgStarting;
          Log INFO (MsgFetching 739609 739616);
          Log ERROR (MsgFetchError (RequestException (HTTPError 503)));
          Log ERROR (MsgFailedToFetch (RequestException (HTTPError 503))) ];
      requests_sent :=
        [ {| url := NVD_API_URL;
             pubStartDate := 63902217600; pubEndDate := 63902822400;
             resultsPerPage := 20; apiKey_header := Some "key";
             timeout := 30 |} ] |}).
Proof. vm_compute. reflexivity. Qed.

Example window_out_of_range :
  fst (fetch_cves_from_nvd 1000000000 20 None sample_env fresh_world) =
    Raise (OverflowError "days; must have magnitude <= 999999999") /\
  fst (fetch_cves_from_nvd 999999999 20 None sample_env fresh_world) =
    Raise (OverflowError "date value out of range").
Proof. split; vm_compute; reflexivity. Qed.

Example startup_with_a_missing_file :
  startup_event missing_model_files =
    Raise (FileNotFoundError "Required model files not found") /\
  startup_event sample_files = Ok tt /\
  fst (load_models sample_files) = sample_globals.
Proof. repeat split. Qed.

(** ** The risk scorer *)

Lemma predict_risk_run {FV : Type} (g : Globals FV) (description : string)
    (c : Classifier FV) (v : Vectorizer FV) (X : FV) (cls : Z)
    (probabilities : list float) (p : float) :
  clf g = Some c ->
  vectorizer g = Some v ->
  transform v description = Ok X ->
  predict c X = Ok cls ->
  predict_proba c X = Ok probabilities ->
  nth_error probabilities 1 = Some p ->
  predict_risk g description =
  Ok {| risk := fst (risk_mapping p);
        confidence := snd (risk_mapping p);
        prediction_class := cls |}.
Proof.
  intros Hc Hv HX Hcls Hprobs Hp. unfold predict_risk.
  rewrite Hc, Hv, HX. cbn [rbind]. rewrite Hcls. cbn [rbind].
  rewrite Hprobs. cbn [rbind]. rewrite Hp.
  destruct (risk_mapping p). reflexivity.
Qed.

(** C1, as the code has it.  When the classifier answers the description
    with the probability [p], [predict_risk] returns the tier and the
    confidence that [risk_mapping] gives for [p], a function of [p] alone:
    HIGH with confidence [p] when [p >= 0.70], MEDIUM with confidence [p]
    when [0.40 <= p < 0.70], LOW with confidence [1.0 - p] when
    [p < 0.40].  So 0.70 gives HIGH, 0.6999 and 0.40 give MEDIUM, and
    0.3999 gives LOW with confidence [1.0 - 0.3999], which in binary64 is
    0.6001000000000001, the number next above 0.6001. *)
Theorem C1_three_tier_mapping {FV : Type} (g : Globals FV)
    (description : string) (c : Classifier FV) (v : Vectorizer FV) (X : FV)
    (cls : Z) (probabilities : list float) (p : float) :
  clf g = Some c ->
  vectorizer g = Some v ->
  transform v description = Ok X ->
  predict c X = Ok cls ->
  predict_proba c X = Ok probabilities ->
  nth_error probabilities 1 = Some p ->
  exists r : RiskResult,
    predict_risk g description = Ok r /\
    (risk r, confidence r) = risk_mapping p /\
    (fge p f0_70 = true -> risk r = "HIGH" /\ confidence r = p) /\
    (fge p f0_40 = true -> flt p f0_70 = true ->
     risk r = "MEDIUM" /\ confidence r = p) /\
    (flt p f0_40 = true -> risk r = "LOW" /\ confidence r = fsub one p) /\
    risk_mapping f0_70 = ("HIGH", f0_70) /\
    risk_mapping f0_6999 = ("MEDIUM", f0_6999) /\
    risk_mapping f0_40 = ("MEDIUM", f0_40) /\
    risk_mapping f0_3999 = ("LOW", fsub one f0_3999) /\
    fsub one f0_3999 = f0_6001_next.
Proof.
  intros Hc Hv HX Hcls Hprobs Hp.
  rewrite (predict_risk_run g description c v X cls probabilities p)
    by assumption.
  eexists. split; [reflexivity|]. cbn [risk confidence].
  split; [now destruct (risk_mapping p)|].
  unfold risk_mapping.
  split; [intros ->; now split|].
  split; [intros H40 H70; apply SFltb_SFleb_false in H70; unfold fge;
          rewrite H70; fold (fge p f0_40); rewrite H40; now split|].
  split; [intros H40; rewrite (below_0_40_below_0_70 p H40);
          apply SFltb_SFleb_false in H40; unfold fge; rewrite H40;
          now split|].
  repeat split; vm_compute; reflexivity.
Qed.

Lemma C1_three_tier_mapping_witness :
  exists r : RiskResult,
    predict_risk sample_globals "information disclosure" = Ok r /\
    (risk r, confidence r) = risk_mapping f0_3999 /\
    (fge f0_3999 f0_70 = true -> risk r = "HIGH" /\ confidence r = f0_3999) /\
    (fge f0_3999 f0_40 = true -> flt f0_3999 f0_70 = true ->
     risk r = "MEDIUM" /\ confidence r = f0_3999) /\
    (flt f0_3999 f0_40 = true ->
     risk r = "LOW" /\ confidence r = fsub one f0_3999) /\
    risk_mapping f0_70 = ("HIGH", f0_70) /\
    risk_mapping f0_6999 = ("MEDIUM", f0_6999) /\
    risk_mapping f0_40 = ("MEDIUM", f0_40) /\
    risk_mapping f0_3999 = ("LOW", fsub one f0_3999) /\
    fsub one f0_3999 = f0_6001_next.
Proof.
  apply (C1_three_tier_mapping sample_globals "information disclosure"
           sample_clf sample_vectorizer "information disclosure" 0
           [decimal 6001 10000; f0_3999] f0_3999);
    reflexivity.
Defined.

(** C1, as the specification states it, fails in its last instance: at the
    probability 0.3999 the confidence [1.0 - 0.3999] is not the float
    0.6001 (Python's [==] answers False); it is the next float above. *)
Lemma C1_counterexample :
  predict_proba sample_clf "information disclosure" =
    Ok [decimal 6001 10000; decimal 3999 10000] /\
  exists r : RiskResult,
    predict_risk sample_globals "information disclosure" = Ok r /\
    risk r = "LOW" /\
    confidence r = fsub one (decimal 3999 10000) /\
    confidence r <> decimal 6001 10000 /\
    feq (confidence r) (decimal 6001 10000) = false /\
    confidence r = f0_6001_next.
Proof.
  split; [vm_compute; reflexivity|].
  eexists. split; [vm_compute; reflexivity|]. cbn [risk confidence].
  repeat split; try (vm_compute; reflexivity).
  vm_compute. discriminate.
Qed.

Lemma valid_mantissa_bound (m : positive) (e : Z) :
  bounded prec emax m e = true -> Zpos m < 2 ^ 53.
Proof.
  unfold bounded, canonical_mantissa, fexp, SpecFloat.emin, prec, emax.
  intros H. apply andb_true_iff in H as [H _]. apply Z.eqb_eq in H.
  pose proof (digits2_pos_bounds m) as [_ Hhi].
  assert (Hd : Zpos (digits2_pos m) <= 53) by lia.
  apply (Z.lt_le_trans _ _ _ Hhi). apply Z.pow_le_mono_r; lia.
Qed.

(** The LOW branch: for a binary64 [p] with [0 <= p] and not
    [p >= 0.40], the rounded difference [1.0 - p] is in [[0, 1]]. *)
Lemma low_confidence_range (p : float) :
  is_float64 p ->
  fle zero p = true ->
  fge p f0_40 = false ->
  fle zero (fsub one p) = true /\ fle (fsub one p) one = true.
Proof.
  unfold is_float64, fle, fge, SFleb, zero, f0_40.
  destruct p as [s|s| |s m e]; cbn [SFcompare valid_binary].
  - intros _ _ _. destruct s; split; reflexivity.
  - destruct s; discriminate.
  - discriminate.
  - intros Hvalid Hpos Hlow. destruct s; [discriminate Hpos|].
    assert (He : e <= -54).
    { destruct (Z.compare_spec (-54) e); try lia; discriminate Hlow. }
    destruct (one_minus_below_half m e He (valid_mantissa_bound m e Hvalid))
      as [-> | [q ->]]; split; reflexivity.
Qed.

(** C4. When the classifier answers with a binary64 probability [p] in
    [[0, 1]], the confidence [predict_risk] returns is in [[0, 1]]: it is
    [p] for HIGH and MEDIUM, and the rounded difference [1.0 - p] for
    LOW. *)
Theorem C4_confidence_range {FV : Type} (g : Globals FV)
    (description : string) (c : Classifier FV) (v : Vectorizer FV) (X : FV)
    (cls : Z) (probabilities : list float) (p : float) :
  clf g = Some c ->
  vectorizer g = Some v ->
  transform v description = Ok X ->
  predict c X = Ok cls ->
  predict_proba c X = Ok probabilities ->
  nth_error probabilities 1 = Some p ->
  is_float64 p ->
  fle zero p = true ->
  fle p one = true ->
  exists r : RiskResult,
    predict_risk g description = Ok r /\
    fle zero (confidence r) = true /\
    fle (confidence r) one = true /\
    (risk r = "HIGH" \/ risk r = "MEDIUM" \/ risk r = "LOW") /\
    (risk r = "HIGH" \/ risk r = "MEDIUM" -> confidence r = p) /\
    (risk r = "LOW" -> confidence r = fsub one p).
Proof.
  intros Hc Hv HX Hcls Hprobs Hp Hfloat H0 H1.
  rewrite (predict_risk_run g description c v X cls probabilities p)
    by assumption.
  eexists. split; [reflexivity|]. cbn [risk confidence].
  unfold risk_mapping.
  destruct (fge p f0_70) eqn:H70; [|destruct (fge p f0_40) eqn:H40];
    cbn [fst snd].
  - repeat split; try assumption; try now left.
    intros H; discriminate H.
  - repeat split; try assumption; try (right; now left).
    intros H; discriminate H.
  - destruct (low_confidence_range p Hfloat H0 H40) as [L0 L1].
    repeat split; try assumption; try (right; now right).
    intros [H|H]; discriminate H.
Qed.

Lemma C4_confidence_range_witness :
  exists r : RiskResult,
    predict_risk sample_globals "information disclosure" = Ok r /\
    fle zero (confidence r) = true /\
    fle (confidence r) one = true /\
    (risk r = "HIGH" \/ risk r = "MEDIUM" \/ risk r = "LOW") /\
    (risk r = "HIGH" \/ risk r = "MEDIUM" -> confidence r = f0_3999) /\
    (risk r = "LOW" -> confidence r = fsub one f0_3999).
Proof.
  apply (C4_confidence_range sample_globals "information disclosure"
           sample_clf sample_vectorizer "information disclosure" 0
           [decimal 6001 10000; f0_3999] f0_3999);
    reflexivity.
Defined.

(** ** The anomaly detector *)

(** C3. When the novelty model answers a description with the label
    [label] and the decision value [score], [detect_anomaly] returns
    [anomalous] true exactly when [label] is -1, [anomaly_score] equal to
    [score], and as status the one of two fixed strings that [anomalous]
    selects; the classifier has no part in it: the result is the same
    whatever [clf] holds. *)
Theorem C3_detect_anomaly {FV : Type} (g : Globals FV) (description : string)
    (a : AnomalyModel FV) (v : Vectorizer FV) (X : FV)
    (label : Z) (score : float) (any_clf : option (Classifier FV)) :
  anomaly_clf g = Some a ->
  vectorizer g = Some v ->
  transform v description = Ok X ->
  anomaly_predict a X = Ok label ->
  decision_function a X = Ok score ->
  exists r : AnomalyResult,
    detect_anomaly g description = Ok r /\
    (anomalous r = true <-> label = -1) /\
    anomaly_score r = score /\
    threshold_info r =
      (if anomalous r then "outside historical CVE patterns"
       else "within normal patterns") /\
    detect_anomaly
      {| clf := any_clf; vectorizer := vectorizer g;
         anomaly_clf := anomaly_clf g |} description = Ok r.
Proof.
  intros Ha Hv HX Hlabel Hscore.
  unfold detect_anomaly. cbn [vectorizer anomaly_clf].
  rewrite Ha, Hv, HX. cbn [rbind]. rewrite Hlabel. cbn [rbind].
  rewrite Hscore. cbn [rbind].
  eexists. split; [reflexivity|].
  cbn [anomalous anomaly_score threshold_info].
  repeat split; try reflexivity.
  - apply Z.eqb_eq.
  - apply Z.eqb_eq.
Qed.

Lemma C3_detect_anomaly_witness :
  exists r : AnomalyResult,
    detect_anomaly sample_globals "remote code execution" = Ok r /\
    (anomalous r = true <-> -1 = -1) /\
    anomaly_score r = SFopp (decimal 5 100) /\
    threshold_info r =
      (if anomalous r then "outside historical CVE patterns"
       else "within normal patterns") /\
    detect_anomaly
      {| clf := None; vectorizer := vectorizer sample_globals;
         anomaly_clf := anomaly_clf sample_globals |}
      "remote code execution" = Ok r.
Proof.
  apply (C3_detect_anomaly sample_globals "remote code execution"
           sample_anomaly_clf sample_vectorizer "remote code execution"
           (-1) (SFopp (decimal 5 100)) None);
    reflexivity.
Defined.

(** ** The feed client *)

(** A failed call: the exception, the one request, the error line. *)
Lemma fetch_run_failed (days_back max_results : Z) (api_key : option string)
    (env : Env) (w : World) (req : Request) (e : request_error) :
  issued_request env days_back max_results api_key = Ok req ->
  (nvd env req = GetRaises e \/
   exists r : Response,
     nvd env req = GetReturns r /\
     400 <= status_code r < 600 /\ e = HTTPError (status_code r)) ->
  exists w' : World,
    fetch_cves_from_nvd days_back max_results api_key env w =
      (Raise (RequestException e), w') /\
    requests_sent w' = requests_sent w ++ [req] /\
    In (Log ERROR (MsgFetchError (RequestException e))) (logged w').
Proof.
  intros Hreq Hfail.
  apply issued_request_inv in Hreq as (start_date & Hstart & ->).
  rewrite fetch_unfold, Hstart. cbv zeta.
  destruct Hfail as [Hget | (r & Hget & Hstatus & ->)]; rewrite Hget.
  - cbn [is_RequestException]. eexists. split; [reflexivity|].
    cbn [requests_sent logged log_append send].
    split; [reflexivity|]. apply in_or_app. right. now left.
  - unfold raise_for_status.
    replace ((400 <=? status_code r) && (status_code r <? 600)) with true
      by (symmetry; apply andb_true_iff; split;
          [apply Z.leb_le | apply Z.ltb_lt]; lia).
    cbn [is_RequestException]. eexists. split; [reflexivity|].
    cbn [requests_sent logged log_append send].
    split; [reflexivity|]. apply in_or_app. right. now left.
Qed.

(** A call the feed answers with a schema-conforming document. *)
Lemma fetch_run_ok (days_back max_results : Z) (api_key : option string)
    (env : Env) (w : World) (req : Request) (r : Response) (data : FeedData) :
  issued_request env days_back max_results api_key = Ok req ->
  nvd env req = GetReturns r ->
  raise_for_status r = Ok tt ->
  json r = Ok data ->
  forallb en_value_present (feed_items data) = true ->
  exists w' : World,
    fetch_cves_from_nvd days_back max_results api_key env w =
      (Ok (scorable (feed_items data)), w') /\
    requests_sent w' = requests_sent w ++ [req] /\
    forall item : Vulnerability,
      In item (feed_items data) -> incl (warning_of item) (logged w').
Proof.
  intros Hreq Hget Hstatus Hjson Hwf.
  apply issued_request_inv in Hreq as (start_date & Hstart & ->).
  rewrite fetch_unfold, Hstart. cbv zeta.
  rewrite Hget, Hstatus, Hjson, (extract_cves_run _ Hwf). cbn [app].
  eexists. split; [reflexivity|].
  cbn [requests_sent logged log_append send].
  split; [reflexivity|].
  intros item Hin x Hx.
  apply in_or_app. left. apply in_or_app. right.
  apply in_flat_map. now exists item.
Qed.




(** C5, as the code has it.  When the one request of the feed client
    raises (connection error, timeout) or is answered with an error
    status (4xx, 5xx, the statuses [raise_for_status] raises on),
    [fetch_cves_from_nvd] raises the [RequestException] and returns no
    records, and [process_new_cves] raises the same exception instead of
    returning records; one request has been sent. *)
Theorem C5_upstream_unavailable {FV : Type} (g : Globals FV)
    (days_back max_results : Z) (api_key : option string)
    (env : Env) (w : World) (req : Request) (e : request_error) :
  issued_request env days_back max_results api_key = Ok req ->
  (nvd env req = GetRaises e \/
   exists r : Response,
     nvd env req = GetReturns r /\
     400 <= status_code r < 600 /\ e = HTTPError (status_code r)) ->
  let fetched := fetch_cves_from_nvd days_back max_results api_key env w in
  let processed :=
    process_new_cves g days_back max_results api_key env w in
  fst fetched = Raise (RequestException e) /\
  requests_sent (snd fetched) = requests_sent w ++ [req] /\
  fst processed = Raise (RequestException e) /\
  requests_sent (snd processed) = requests_sent w ++ [req].
Proof.
  intros Hreq Hfail fetched processed. subst fetched processed.
  destruct (fetch_run_failed _ _ _ _ w _ _ Hreq Hfail) as (w1 & E1 & S1 & _).
  destruct (fetch_run_failed _ _ _ _ (log_append w [Log INFO MsgStarting])
              _ _ Hreq Hfail) as (w2 & E2 & S2 & _).
  rewrite process_new_cves_unfold, E1, E2. cbn [fst snd].
  repeat split; try assumption.
Qed.

Lemma C5_upstream_unavailable_witness :
  let req :=
    {| url := NVD_API_URL;
       pubStartDate := 63902217600; pubEndDate := 63902822400;
       resultsPerPage := 20; apiKey_header := None; timeout := 30 |} in
  let fetched := fetch_cves_from_nvd 7 20 None timeout_env fresh_world in
  let processed :=
    process_new_cves sample_globals 7 20 None timeout_env fresh_world in
  fst fetched = Raise (RequestException Timeout) /\
  requests_sent (snd fetched) = [req] /\
  fst processed = Raise (RequestException Timeout) /\
  requests_sent (snd processed) = [req].
Proof.
  intros req.
  apply (C5_upstream_unavailable sample_globals 7 20 None timeout_env
           fresh_world req Timeout).
  - vm_compute; reflexivity.
  - left. reflexivity.
Defined.

(** C5, as the specification states it, fails.  A status outside 2xx is
    not a success status, but [raise_for_status] raises on 4xx and 5xx
    only: a feed that answers 304 with a document is read as any other,
    the fetch returns the records and the batch the scored entries. *)
Lemma C5_counterexample :
  let req :=
    {| url := NVD_API_URL;
       pubStartDate := 63902217600; pubEndDate := 63902822400;
       resultsPerPage := 20; apiKey_header := None; timeout := 30 |} in
  let r := {| status_code := 304; json := Ok sample_feed |} in
  issued_request not_modified_env 7 20 None = Ok req /\
  nvd not_modified_env req = GetReturns r /\
  ~ (200 <= status_code r < 300) /\
  fst (fetch_cves_from_nvd 7 20 None not_modified_env fresh_world) =
    Ok [ {| cve_id := "CVE-2026-0001"; description := "remote code execution" |};
         {| cve_id := "CVE-2026-0003"; description := "garbled" |};
         {| cve_id := "Unknown"; description := "information disclosure" |};
         {| cve_id := "Unknown"; description := "denial of service" |} ] /\
  fst (process_new_cves sample_globals 7 20 None not_modified_env fresh_world) =
    Ok [ {| scored_cve_id := "CVE-2026-0001"; scored_risk := "HIGH";
            scored_confidence := f0_70; scored_anomalous := true |};
         {| scored_cve_id := "Unknown"; scored_risk := "LOW";
            scored_confidence := f0_6001_next; scored_anomalous := false |};
         {| scored_cve_id := "Unknown"; scored_risk := "LOW";
            scored_confidence := f0_6001_next; scored_anomalous := false |} ].
Proof.
  intros req r.
  split; [vm_compute; reflexivity|]. split; [reflexivity|].
  split; [cbn; lia|]. split; vm_compute; reflexivity.
Qed.

Lemma process_run_ok {FV : Type} (g : Globals FV)
    (days_back max_results : Z) (api_key : option string)
    (env : Env) (w : World) (req : Request) (r : Response) (data : FeedData) :
  issued_request env days_back max_results api_key = Ok req ->
  nvd env req = GetReturns r ->
  raise_for_status r = Ok tt ->
  json r = Ok data ->
  forallb en_value_present (feed_items data) = true ->
  fst (process_new_cves g days_back max_results api_key env w) =
    Ok (aggregate g (scorable (feed_items data))).
Proof.
  intros Hreq Hget Hstatus Hjson Hwf.
  destruct (fetch_run_ok _ _ _ _ (log_append w [Log INFO MsgStarting])
              _ _ _ Hreq Hget Hstatus Hjson Hwf) as (w2 & E2 & _ & _).
  rewrite process_new_cves_unfold, E2.
  destruct (scorable (feed_items data)); reflexivity.
Qed.


Lemma score_record_id {FV : Type} (g : Globals FV) (c : CveRecord)
    (s : ScoredRecord) :
  score_record g c = Ok s -> scored_cve_id s = cve_id c.
Proof.
  unfold score_record.
  destruct (predict_risk g (description c)); cbn [rbind]; [|discriminate].
  destruct (detect_anomaly g (description c)); cbn [rbind]; [|discriminate].
  intros H. injection H as <-. reflexivity.
Qed.






(** ** Partial failure of a batch *)

(** C2. When the fetch returns N records and the scoring of exactly one of
    them raises, [process_new_cves] returns N-1 entries: the entries of the
    other records, each what scoring that record gives, in the order of the
    fetch; the identifier and the exception of the failed record are
    logged as an error. *)
Theorem C2_partial_failure {FV : Type} (g : Globals FV)
    (days_back max_results : Z) (api_key : option string)
    (env : Env) (w : World)
    (before after : list CveRecord) (failing : CveRecord) (e : exn) :
  fst (fetch_cves_from_nvd days_back max_results api_key env w) =
    Ok (before ++ failing :: after) ->
  score_record g failing = Raise e ->
  Forall (fun c => exists s, score_record g c = Ok s) (before ++ after) ->
  exists (entries : list ScoredRecord) (w' : World),
    process_new_cves g days_back max_results api_key env w = (Ok entries, w') /\
    S (List.length entries) = List.length (before ++ failing :: after) /\
    Forall2 (fun c s => score_record g c = Ok s) (before ++ after) entries /\
    In (Log ERROR (MsgProcessingError (cve_id failing) e)) (logged w').
Proof.
  intros Hfetch Hfail Hothers.
  rewrite process_new_cves_unfold.
  rewrite (fetch_result _ _ _ _ w (log_append w [Log INFO MsgStarting]))
    in Hfetch.
  destruct (fetch_cves_from_nvd _ _ _ _ _) as [[cves|e'] w1];
    cbn [fst] in Hfetch; [|discriminate Hfetch].
  injection Hfetch as ->.
  assert (Hagg : aggregate g (before ++ failing :: after) =
                 aggregate g (before ++ after)).
  { rewrite !aggregate_app. f_equal. unfold aggregate at 1.
    cbn [flat_map]. unfold entry_of at 1. now rewrite Hfail. }
  pose proof (aggregate_all_scored g _ Hothers) as Hall.
  destruct (before ++ failing :: after) as [|c0 l0] eqn:Hl.
  { destruct before; discriminate Hl. }
  rewrite <- Hl in *. clear Hl c0 l0.
  eexists _, _. split; [reflexivity|]. rewrite Hagg.
  split; [|split; [exact Hall|]].
  - rewrite <- (Forall2_length Hall), !length_app. cbn [List.length]. lia.
  - cbn [logged log_append]. apply in_or_app. right.
    apply in_or_app. left.
    rewrite loop_log_app. apply in_or_app. right.
    cbn [loop_log]. apply in_or_app. left.
    now apply record_log_error.
Qed.

Lemma C2_partial_failure_witness :
  let fetched :=
    [ {| cve_id := "CVE-2026-0001"; description := "remote code execution" |};
      {| cve_id := "CVE-2026-0003"; description := "garbled" |};
      {| cve_id := "Unknown"; description := "information disclosure" |};
      {| cve_id := "Unknown"; description := "denial of service" |} ] in
  fst (fetch_cves_from_nvd 7 20 None sample_env fresh_world) = Ok fetched /\
  exists (entries : list ScoredRecord) (w' : World),
    process_new_cves sample_globals 7 20 None sample_env fresh_world =
      (Ok entries, w') /\
    S (List.length entries) = List.length fetched /\
    Forall2 (fun c s => score_record sample_globals c = Ok s)
      [ {| cve_id := "CVE-2026-0001"; description := "remote code execution" |};
        {| cve_id := "Unknown"; description := "information disclosure" |};
        {| cve_id := "Unknown"; description := "denial of service" |} ]
      entries /\
    In (Log ERROR (MsgProcessingError "CVE-2026-0003"
                     (OtherException "UnicodeDecodeError"))) (logged w').
Proof.
  split; [vm_compute; reflexivity|].
  apply (C2_partial_failure sample_globals 7 20 None sample_env fresh_world
           [ {| cve_id := "CVE-2026-0001";
                description := "remote code execution" |} ]
           [ {| cve_id := "Unknown"; description := "information disclosure" |};
             {| cve_id := "Unknown"; description := "denial of service" |} ]
           {| cve_id := "CVE-2026-0003"; description := "garbled" |}
           (OtherException "UnicodeDecodeError")).
  - vm_compute; reflexivity.
  - vm_compute; reflexivity.
  - repeat constructor; eexists; vm_compute; reflexivity.
Defined.

(** ** Determinism of the batch *)

(** C9. Two runs of [process_new_cves] with the same artifacts and the
    same window parameters, whose requests the feed answers alike, return
    the same thing: the same identifiers with the same tiers, confidences
    and anomaly flags in the same order, or the same exception; the
    clock, the key and the state of the log make no difference. *)
Theorem C9_batch_determinism {FV : Type} (g : Globals FV)
    (days_back max_results : Z) (key1 key2 : option string)
    (env1 env2 : Env) (w1 w2 : World) (req1 req2 : Request) :
  issued_request env1 days_back max_results key1 = Ok req1 ->
  issued_request env2 days_back max_results key2 = Ok req2 ->
  nvd env1 req1 = nvd env2 req2 ->
  fst (process_new_cves g days_back max_results key1 env1 w1) =
  fst (process_new_cves g days_back max_results key2 env2 w2).
Proof.
  intros H1 H2 Hsame. rewrite !process_result.
  now rewrite (fetch_result_same_answer _ _ _ _ _ _ w1 w2 _ _ H1 H2 Hsame).
Qed.

Lemma C9_batch_determinism_witness :
  fst (process_new_cves sample_globals 7 20 None sample_env fresh_world) =
  fst (process_new_cves sample_globals 7 20 (Some "other key") later_env
         {| logged := [Log INFO MsgStarting]; requests_sent := [] |}).
Proof.
  apply (C9_batch_determinism sample_globals 7 20 None (Some "other key")
           sample_env later_env fresh_world _
           {| url := NVD_API_URL;
              pubStartDate := 63902217600; pubEndDate := 63902822400;
              resultsPerPage := 20; apiKey_header := None; timeout := 30 |}
           {| url := NVD_API_URL;
              pubStartDate := 63902217660; pubEndDate := 63902822460;
              resultsPerPage := 20; apiKey_header := Some "other key";
              timeout := 30 |});
    vm_compute; reflexivity.
Defined.

(** ** Validation of the window parameters *)

Lemma extract_cves_requests (items : list Vulnerability) :
  forall (acc : list CveRecord) (env : Env) (w : World),
    requests_sent (snd (extract_cves items acc env w)) = requests_sent w.
Proof.
  induction items as [|item items IH]; intros acc env w; [reflexivity|].
  cbn [extract_cves]. unfold bind at 1, lift at 1.
  destruct (english_value _) as [desc_text|e]; [|reflexivity].
  destruct (truthy desc_text); [apply IH|].
  unfold bind. rewrite logger_run, IH. reflexivity.
Qed.

(** Whatever the feed answers, a call whose window can be computed sends
    exactly one request. *)
Lemma fetch_sends_one (days_back max_results : Z) (api_key : option string)
    (env : Env) (w : World) (req : Request) :
  issued_request env days_back max_results api_key = Ok req ->
  requests_sent (snd (fetch_cves_from_nvd days_back max_results api_key env w))
  = requests_sent w ++ [req].
Proof.
  intros Hreq. apply issued_request_inv in Hreq as (start_date & Hstart & ->).
  rewrite fetch_unfold, Hstart. cbv zeta.
  destruct (nvd env _) as [e|r].
  { cbn [is_RequestException snd]. reflexivity. }
  destruct (raise_for_status r) as [[]|e].
  2:{ destruct (is_RequestException e); reflexivity. }
  destruct (json r) as [data|e].
  2:{ destruct (is_RequestException e); reflexivity. }
  match goal with
  | |- context [extract_cves ?i ?a ?e ?u] =>
      pose proof (extract_cves_requests i a e u) as H;
      destruct (extract_cves i a e u) as [[x|x] v]; cbn [snd] in *
  end.
  - cbn [log_append requests_sent]. exact H.
  - destruct (is_RequestException x); cbn [log_append requests_sent]; exact H.
Qed.

Lemma process_sends_one {FV : Type} (g : Globals FV)
    (days_back max_results : Z) (api_key : option string)
    (env : Env) (w : World) (req : Request) :
  issued_request env days_back max_results api_key = Ok req ->
  requests_sent
    (snd (process_new_cves g days_back max_results api_key env w))
  = requests_sent w ++ [req].
Proof.
  intros Hreq. rewrite process_new_cves_unfold.
  pose proof (fetch_sends_one _ _ _ _ (log_append w [Log INFO MsgStarting])
                _ Hreq) as H.
  destruct (fetch_cves_from_nvd _ _ _ _ _) as [[[|c cves]|e] w1];
    cbn [snd log_append requests_sent] in *; exact H.
Qed.





(** ** Loading the artifacts *)

Ltac load_failed :=
  cbn [fst snd]; split; [reflexivity|];
  split;
  [ eexists; split;
    [ first [ left; reflexivity | right; left; reflexivity
            | right; right; reflexivity ]
    | first [ left; reflexivity | right; reflexivity ] ]
  | split; reflexivity ].

(** C7, as the code has it.  Importing the module never fails.  When
    one of the three files cannot be loaded, the exception of the load
    that failed is logged in one error line, all three globals are [None]
    and every call of [predict_risk] and of [detect_anomaly] raises its
    [ValueError]: the failure shows per call.  When the three files are
    loaded, the log is the one success line, the globals hold the three
    objects and an exception of [predict_risk] or [detect_anomaly] is one
    a method of the artifacts raised, or the [IndexError] of a
    probability row with fewer than two entries: never that of the
    guard. *)
Theorem C7_artifact_loading {FV : Type} (fs : FileSystem FV)
    (description : string) :
  let g := fst (load_models fs) in
  let log := snd (load_models fs) in
  match rf_model_pkl fs, tfidf_vectorizer_pkl fs, anomaly_model_pkl fs with
  | Pickled c, Pickled v, Pickled a =>
      g = {| clf := Some c; vectorizer := Some v; anomaly_clf := Some a |} /\
      log = [Log INFO MsgModelsLoaded] /\
      (forall e : exn,
          predict_risk g description = Raise e ->
          transform v description = Raise e \/
          exists X : FV,
            transform v description = Ok X /\
            (predict c X = Raise e \/
             predict_proba c X = Raise e \/
             exists probabilities : list float,
               predict_proba c X = Ok probabilities /\
               nth_error probabilities 1 = None /\
               e = index_1_out_of_bounds (List.length probabilities))) /\
      (forall e : exn,
          detect_anomaly g description = Raise e ->
          transform v description = Raise e \/
          exists X : FV,
            transform v description = Ok X /\
            (anomaly_predict a X = Raise e \/
             decision_function a X = Raise e))
  | _, _, _ =>
      g = no_globals /\
      (exists e : exn,
          (joblib_load MODEL_PATH (rf_model_pkl fs) = Raise e \/
           joblib_load VECTORIZER_PATH (tfidf_vectorizer_pkl fs) = Raise e \/
           joblib_load ANOMALY_MODEL_PATH (anomaly_model_pkl fs) = Raise e) /\
          (log = [Log ERROR (MsgModelFileNotFound e)] \/
           log = [Log ERROR (MsgErrorLoadingModels e)])) /\
      predict_risk g description =
        Raise (ValueError "Models not loaded. Cannot perform prediction.") /\
      detect_anomaly g description =
        Raise (ValueError "Anomaly model or vectorizer not loaded.")
  end.
Proof.
  intros g log. subst g log. unfold load_models.
  destruct (rf_model_pkl fs) as [|e1|c]; cbn [joblib_load rbind];
    [load_failed | destruct e1; load_failed | ].
  destruct (tfidf_vectorizer_pkl fs) as [|e2|v]; cbn [joblib_load rbind];
    [load_failed | destruct e2; load_failed | ].
  destruct (anomaly_model_pkl fs) as [|e3|a]; cbn [joblib_load rbind];
    [load_failed | destruct e3; load_failed | ].
  cbn [fst snd]. split; [reflexivity|]. split; [reflexivity|].
  split; intros e.
  - unfold predict_risk. cbn [clf vectorizer].
    destruct (transform v description) as [X|e0]; cbn [rbind].
    2:{ intros H. injection H as ->. now left. }
    intros H. right. exists X. split; [reflexivity|].
    destruct (predict c X) as [cls|e0]; cbn [rbind] in H.
    2:{ injection H as ->. now left. }
    destruct (predict_proba c X) as [probabilities|e0]; cbn [rbind] in H.
    2:{ injection H as ->. right. now left. }
    destruct (nth_error probabilities 1) as [p|] eqn:Ep.
    { destruct (risk_mapping p). discriminate H. }
    injection H as <-. right. right. now exists probabilities.
  - unfold detect_anomaly. cbn [anomaly_clf vectorizer].
    destruct (transform v description) as [X|e0]; cbn [rbind].
    2:{ intros H. injection H as ->. now left. }
    intros H. right. exists X. split; [reflexivity|].
    destruct (anomaly_predict a X) as [label|e0]; cbn [rbind] in H.
    2:{ injection H as ->. now left. }
    destruct (decision_function a X) as [score|e0]; cbn [rbind] in H.
    2:{ injection H as ->. now right. }
    discriminate H.
Qed.

Lemma C7_artifact_loading_witness :
  fst (load_models corrupt_files) = no_globals /\
  (exists e : exn,
      (joblib_load MODEL_PATH (rf_model_pkl corrupt_files) = Raise e \/
       joblib_load VECTORIZER_PATH (tfidf_vectorizer_pkl corrupt_files)
         = Raise e \/
       joblib_load ANOMALY_MODEL_PATH (anomaly_model_pkl corrupt_files)
         = Raise e) /\
      (snd (load_models corrupt_files) = [Log ERROR (MsgModelFileNotFound e)] \/
       snd (load_models corrupt_files) =
         [Log ERROR (MsgErrorLoadingModels e)])) /\
  predict_risk (fst (load_models corrupt_files)) "remote code execution" =
    Raise (ValueError "Models not loaded. Cannot perform prediction.") /\
  detect_anomaly (fst (load_models corrupt_files)) "remote code execution" =
    Raise (ValueError "Anomaly model or vectorizer not loaded.").
Proof.
  exact (C7_artifact_loading corrupt_files "remote code execution").
Defined.

(** C7, as the specification states it, fails.  With a classifier file that is
    present but cannot be unpickled the import leaves the globals [None],
    the startup check of the server passes, and the failure comes back on
    every call: [predict_risk] and [detect_anomaly] raise, and the batch
    skips every record and returns an empty list.  With the file absent
    the import does the same (only the server's startup check raises). *)
Lemma C7_counterexample :
  fst (load_models corrupt_files) = no_globals /\
  startup_event corrupt_files = Ok tt /\
  predict_risk (fst (load_models corrupt_files)) "remote code execution" =
    Raise (ValueError "Models not loaded. Cannot perform prediction.") /\
  detect_anomaly (fst (load_models corrupt_files)) "remote code execution" =
    Raise (ValueError "Anomaly model or vectorizer not loaded.") /\
  fst (process_new_cves (fst (load_models corrupt_files)) 7 20 None
         sample_env fresh_world) = Ok [] /\
  fst (load_models missing_model_files) = no_globals /\
  predict_risk (fst (load_models missing_model_files)) "remote code execution" =
    Raise (ValueError "Models not loaded. Cannot perform prediction.").
Proof. repeat split; vm_compute; reflexivity. Qed.

(* ================================================================= *)
(** * Further properties *)

(** ** Order of binary64 numbers *)

Ltac compare_cases :=
  repeat match goal with
  | H : context [Pos.compare_cont Eq ?a ?b] |- _ =>
      change (Pos.compare_cont Eq a b) with (Pos.compare a b) in H
  | |- context [Pos.compare_cont Eq ?a ?b] =>
      change (Pos.compare_cont Eq a b) with (Pos.compare a b)
  end;
  repeat match goal with
  | H : context [Z.compare ?a ?b] |- _ => destruct (Z.compare_spec a b)
  | |- context [Z.compare ?a ?b] => destruct (Z.compare_spec a b)
  | H : context [Pos.compare ?a ?b] |- _ => destruct (Pos.compare_spec a b)
  | |- context [Pos.compare ?a ?b] => destruct (Pos.compare_spec a b)
  end;
  subst; cbn [CompOpp] in *; try discriminate; try reflexivity; try lia.

Lemma SFleb_trans (x y z : float) :
  SFleb x y = true -> SFleb y z = true -> SFleb x z = true.
Proof.
  unfold SFleb.
  destruct x as [sx|sx| |sx mx ex], y as [sy|sy| |sy my ey],
    z as [sz|sz| |sz mz ez]; cbn [SFcompare];
    try discriminate; try reflexivity;
    try (destruct sx; try discriminate; try reflexivity);
    try (destruct sy; try discriminate; try reflexivity);
    try (destruct sz; try discriminate; try reflexivity);
    intros H1 H2; compare_cases.
Qed.

Lemma SFleb_false_SFltb (x y : float) :
  SFleb x x = true -> SFleb y y = true ->
  SFleb x y = false -> SFltb y x = true.
Proof.
  unfold SFleb, SFltb.
  destruct x as [sx|sx| |sx mx ex], y as [sy|sy| |sy my ey];
    cbn [SFcompare];
    try discriminate; try reflexivity;
    try (destruct sx; try discriminate; try reflexivity);
    try (destruct sy; try discriminate; try reflexivity);
    intros _ _ H; compare_cases.
Qed.

Lemma SFleb_refl_of_le (x y : float) :
  SFleb x y = true -> SFleb x x = true /\ SFleb y y = true.
Proof.
  unfold SFleb.
  destruct x as [sx|sx| |sx mx ex], y as [sy|sy| |sy my ey];
    cbn [SFcompare]; try discriminate;
    try (destruct sx); try (destruct sy); intros _; split;
    try reflexivity; compare_cases.
Qed.

(** ** The floor of [1.0 - p] *)

Example decimal_0_60 : decimal 60 100 = f0_60.
Proof. vm_compute. reflexivity. Qed.

Lemma fsub_one_value (m : positive) (e : Z) :
  e <= -54 -> Zpos m < 2 ^ 53 ->
  exists M k : positive,
    -53 - e = Zpos k /\
    Zpos M = 2 ^ 53 * 2 ^ Zpos k - Zpos m /\
    fsub one (S754_finite false m e) =
    binary_round_aux 53 1024 false (Zpos M) e loc_Exact.
Proof.
  intros He Hm.
  destruct (-53 - e) as [|k|k] eqn:Hk; [exfalso; lia| |exfalso; lia].
  assert (HT2 : 2 <= 2 ^ Zpos k).
  { change 2 with (2 ^ 1) at 1. apply Z.pow_le_mono_r; lia. }
  unfold fsub, one, prec, emax, SFsub. rewrite Z.min_r by lia.
  unfold shl_align. rewrite Z.sub_diag.
  destruct (e - -52) as [|d|d] eqn:Hd; [exfalso; lia|exfalso; lia|].
  cbn [fst cond_Zopp].
  pose proof (iter_xO_value 4503599627370496 d) as HA.
  set (A := Pos.iter xO _ d) in *.
  assert (HA' : Zpos A = 2 ^ 53 * 2 ^ Zpos k).
  { rewrite HA. replace (Zpos d) with (1 + Zpos k) by lia.
    rewrite Z.pow_add_r by lia. change (2 ^ 1) with 2.
    change (2 ^ 53) with (4503599627370496 * 2). lia. }
  change (2 ^ 53) with 9007199254740992 in *.
  destruct (Zpos A - Zpos m) as [|M|M] eqn:HM; [exfalso; lia| |exfalso; lia].
  exists M, k. split; [reflexivity|]. split; [lia|].
  assert (Hfexp : fexp 53 1024 (Zpos (digits2_pos M) + e) = -53).
  { replace (Zpos (digits2_pos M)) with (- e).
    - replace (- e + e) with 0 by lia. reflexivity.
    - symmetry. apply digits2_pos_unique.
      replace (- e - 1) with (52 + Zpos k) by lia.
      replace (- e) with (53 + Zpos k) by lia.
      rewrite !Z.pow_add_r by lia.
      change (2 ^ 52) with 4503599627370496.
      change (2 ^ 53) with 9007199254740992. lia. }
  cbn [binary_normalize]. unfold binary_round.
  rewrite Hfexp. unfold shl_align. rewrite Hk. reflexivity.
Qed.

Lemma round_below_one_floor (M k : positive) (e : Z) :
  -53 - e = Zpos k ->
  2 ^ 52 * 2 ^ Zpos k <= Zpos M < 2 ^ 53 * 2 ^ Zpos k ->
  binary_round_aux 53 1024 false (Zpos M) e loc_Exact = one \/
  exists q : positive,
    binary_round_aux 53 1024 false (Zpos M) e loc_Exact =
    S754_finite false q (-53) /\
    Zpos M / 2 ^ Zpos k <= Zpos q.
Proof.
  intros Hk [Hlo Hhi].
  assert (HT : 0 < 2 ^ Zpos k) by (apply Z.pow_pos_nonneg; lia).
  assert (Hfirst : shr_fexp 53 1024 (Zpos M) e loc_Exact =
            (iter_pos shr_1 k (Build_shr_record (Zpos M) false false), -53)).
  { unfold shr_fexp. cbn [Zdigits2].
    replace (Zpos (digits2_pos M)) with (- e).
    - replace (- e + e) with 0 by lia.
      change (fexp 53 1024 0) with (-53). rewrite Hk.
      cbn [shr_record_of_loc shr]. f_equal. lia.
    - symmetry. apply digits2_pos_unique.
      replace (- e - 1) with (52 + Zpos k) by lia.
      replace (- e) with (53 + Zpos k) by lia.
      rewrite !Z.pow_add_r by lia. lia. }
  unfold binary_round_aux. rewrite Hfirst.
  set (mrs' := iter_pos shr_1 k _).
  assert (Hq : shr_m mrs' = Zpos M / 2 ^ Zpos k)
    by (apply (iter_shr_1_value k (Build_shr_record (Zpos M) false false));
        cbn; lia).
  assert (Hq_lo : 2 ^ 52 <= shr_m mrs')
    by (rewrite Hq; apply Z.div_le_lower_bound; lia).
  assert (Hq_hi : shr_m mrs' < 2 ^ 53)
    by (rewrite Hq; apply Z.div_lt_upper_bound; lia).
  pose proof (round_nearest_even_bounds (shr_m mrs')
                (loc_of_shr_record mrs')) as Hround.
  set (q' := round_nearest_even _ _) in *.
  change (2 ^ 52) with 4503599627370496 in *.
  change (2 ^ 53) with 9007199254740992 in *.
  destruct q' as [|Q|Q]; [exfalso; lia| |exfalso; lia].
  destruct (Z.eq_dec (Zpos Q) 9007199254740992) as [Heq|Hne].
  - left. injection Heq as ->. reflexivity.
  - right. exists Q.
    assert (Hdig : Zpos (digits2_pos Q) = 53).
    { apply digits2_pos_unique.
      change (2 ^ (53 - 1)) with 4503599627370496.
      change (2 ^ 53) with 9007199254740992. lia. }
    split; [|lia].
    unfold shr_fexp. cbn [Zdigits2]. rewrite Hdig. reflexivity.
Qed.

Lemma below_0_40_cases (s : bool) (m : positive) (e : Z) :
  fle zero (S754_finite s m e) = true ->
  fge (S754_finite s m e) f0_40 = false ->
  s = false /\ (e < -54 \/ e = -54 /\ Zpos m < 7205759403792794).
Proof.
  unfold fle, fge, SFleb, zero, f0_40. cbn [SFcompare].
  destruct s; [discriminate|]. intros _ Hlow. split; [reflexivity|].
  destruct (Z.compare_spec (-54) e) as [Heq| |].
  2:{ discriminate Hlow. }
  2:{ left. lia. }
  subst e. right. split; [reflexivity|].
  change (Pos.compare_cont Eq 7205759403792794 m)
    with (Pos.compare 7205759403792794 m) in Hlow.
  destruct (Pos.compare_spec 7205759403792794 m) as [| |Hlt];
    [discriminate Hlow|discriminate Hlow|]. exact Hlt.
Qed.

Lemma low_confidence_floor (p : float) :
  is_float64 p ->
  fle zero p = true ->
  fge p f0_40 = false ->
  fge (fsub one p) f0_60 = true.
Proof.
  intros Hvalid Hpos Hlow.
  destruct p as [s|s| |s m e].
  - destruct s; reflexivity.
  - destruct s; discriminate.
  - discriminate.
  - destruct (below_0_40_cases s m e Hpos Hlow) as [-> He].
    pose proof (valid_mantissa_bound m e Hvalid) as Hm.
    destruct (fsub_one_value m e ltac:(lia) Hm) as (M & k & Hk & HM & ->).
    assert (HT2 : 2 <= 2 ^ Zpos k).
    { change 2 with (2 ^ 1) at 1. apply Z.pow_le_mono_r; lia. }
    assert (HT4 : e < -54 -> 4 <= 2 ^ Zpos k).
    { intros. change 4 with (2 ^ 2). apply Z.pow_le_mono_r; lia. }
    change (2 ^ 53) with 9007199254740992 in *.
    assert (Hfloor : 5404319552844595 <= Zpos M / 2 ^ Zpos k).
    { apply Z.div_le_lower_bound; [lia|].
      destruct He as [He|[He Hm40]].
      - specialize (HT4 He). lia.
      - replace (Zpos k) with 1 in * by lia. change (2 ^ 1) with 2 in *. lia. }
    destruct (round_below_one_floor M k e Hk) as [-> | (q & -> & Hq)].
    + change (2 ^ 52) with 4503599627370496.
      change (2 ^ 53) with 9007199254740992. lia.
    + reflexivity.
    + unfold fge, SFleb, f0_60. cbn [SFcompare]. cbn [Z.compare].
      change (Pos.compare_cont Eq 5404319552844595 q)
        with (Pos.compare 5404319552844595 q).
      destruct (Pos.compare_spec 5404319552844595 q) as [| |Hlt];
        try reflexivity.
      assert (Hlt' : Zpos q < 5404319552844595) by exact Hlt.
      clear Hlt. lia.
Qed.

(** ** Tiers and confidence *)

(** X1. When the classifier answers with a binary64 probability [p >= 0],
    the confidence [predict_risk] returns is never below 0.40: it is at
    least 0.70 for HIGH, in [[0.40, 0.70)] for MEDIUM, and at least 0.60
    for LOW, where it is the rounded difference [1.0 - p] with
    [p < 0.40]. *)
Theorem confidence_floor {FV : Type} (g : Globals FV)
    (description : string) (c : Classifier FV) (v : Vectorizer FV) (X : FV)
    (cls : Z) (probabilities : list float) (p : float) :
  clf g = Some c ->
  vectorizer g = Some v ->
  transform v description = Ok X ->
  predict c X = Ok cls ->
  predict_proba c X = Ok probabilities ->
  nth_error probabilities 1 = Some p ->
  is_float64 p ->
  fle zero p = true ->
  exists r : RiskResult,
    predict_risk g description = Ok r /\
    fge (confidence r) f0_40 = true /\
    (risk r = "HIGH" -> fge (confidence r) f0_70 = true) /\
    (risk r = "MEDIUM" ->
     fge (confidence r) f0_40 = true /\ flt (confidence r) f0_70 = true) /\
    (risk r = "LOW" -> fge (confidence r) f0_60 = true).
Proof.
  intros Hc Hv HX Hcls Hprobs Hp Hfloat H0.
  rewrite (predict_risk_run g description c v X cls probabilities p)
    by assumption.
  eexists. split; [reflexivity|]. cbn [risk confidence].
  unfold risk_mapping.
  destruct (fge p f0_70) eqn:H70; [|destruct (fge p f0_40) eqn:H40];
    cbn [fst snd].
  - split; [exact (SFleb_trans f0_40 f0_70 p eq_refl H70)|].
    repeat split; intros; try discriminate; assumption.
  - split; [assumption|].
    repeat split; intros; try discriminate; try assumption.
    apply SFleb_false_SFltb; [reflexivity| |exact H70].
    exact (proj2 (SFleb_refl_of_le _ _ H0)).
  - pose proof (low_confidence_floor p Hfloat H0 H40) as H60.
    split; [exact (SFleb_trans f0_40 f0_60 _ eq_refl H60)|].
    repeat split; intros; try discriminate; assumption.
Qed.

Lemma confidence_floor_witness :
  exists r : RiskResult,
    predict_risk sample_globals "information disclosure" = Ok r /\
    fge (confidence r) f0_40 = true /\
    (risk r = "HIGH" -> fge (confidence r) f0_70 = true) /\
    (risk r = "MEDIUM" ->
     fge (confidence r) f0_40 = true /\ flt (confidence r) f0_70 = true) /\
    (risk r = "LOW" -> fge (confidence r) f0_60 = true).
Proof.
  apply (confidence_floor sample_globals "information disclosure"
           sample_clf sample_vectorizer "information disclosure" 0
           [decimal 6001 10000; f0_3999] f0_3999);
    reflexivity.
Defined.

(** X2. The three-level mapping of [predict_risk] is monotone: a larger
    probability of the HIGH class never gives a lower tier (LOW below
    MEDIUM below HIGH). *)
Theorem tier_is_monotone (p q : float) :
  fle p q = true ->
  (tier_rank (fst (risk_mapping p)) <= tier_rank (fst (risk_mapping q)))%nat.
Proof.
  intros Hpq. unfold risk_mapping.
  destruct (fge p f0_70) eqn:Hp70.
  - replace (fge q f0_70) with true
      by (symmetry; exact (SFleb_trans _ _ _ Hp70 Hpq)).
    cbn. lia.
  - destruct (fge p f0_40) eqn:Hp40.
    + replace (fge q f0_40) with true
        by (symmetry; exact (SFleb_trans _ _ _ Hp40 Hpq)).
      destruct (fge q f0_70); cbn; lia.
    + cbn [fst]. change (tier_rank "LOW") with 0%nat. lia.
Qed.

Lemma tier_is_monotone_witness :
  (tier_rank (fst (risk_mapping f0_3999)) <=
   tier_rank (fst (risk_mapping f0_70)))%nat.
Proof. apply (tier_is_monotone f0_3999 f0_70). reflexivity. Defined.

(** X3. The request [fetch_cves_from_nvd] sends asks for the window that
    ends at the current second and spans exactly [days_back] days, with
    [resultsPerPage = max_results]; [days_back] is whatever [timedelta]
    accepts, so zero gives an empty window and a negative value a window
    that ends before it starts. *)
Theorem window_spans_days_back (env : Env) (days_back max_results : Z)
    (api_key : option string) (req : Request) :
  issued_request env days_back max_results api_key = Ok req ->
  pubEndDate req = utcnow env / 1000000 /\
  pubEndDate req - pubStartDate req = 86400 * days_back /\
  resultsPerPage req = max_results /\
  -999999999 <= days_back <= 999999999.
Proof.
  unfold issued_request, window_start, timedelta_days, datetime_sub.
  destruct ((-999999999 <=? days_back) && (days_back <=? 999999999)) eqn:Hd;
    cbn [rbind]; [|discriminate].
  destruct ((0 <=? _) && (_ <=? datetime_max)); [|discriminate].
  intros H. injection H as <-. cbn [pubEndDate pubStartDate resultsPerPage
    nvd_request]. unfold strftime_seconds, us_per_day.
  apply andb_true_iff in Hd as [?%Z.leb_le ?%Z.leb_le].
  replace (utcnow env - days_back * (86400 * 1000000))
    with (utcnow env + (- (days_back * 86400)) * 1000000) by lia.
  rewrite Z.div_add by lia. repeat split; lia.
Qed.

Lemma window_spans_days_back_witness :
  let req :=
    {| url := NVD_API_URL;
       pubStartDate := 63902217600; pubEndDate := 63902822400;
       resultsPerPage := 20; apiKey_header := None; timeout := 30 |} in
  pubEndDate req = utcnow sample_env / 1000000 /\
  pubEndDate req - pubStartDate req = 86400 * 7 /\
  resultsPerPage req = 20 /\
  -999999999 <= 7 <= 999999999.
Proof.
  intros req. apply (window_spans_days_back sample_env 7 20 None req).
  vm_compute; reflexivity.
Defined.

(** ** The tier of every entry *)

Lemma predict_risk_tier {FV : Type} (g : Globals FV) (description : string)
    (r : RiskResult) :
  predict_risk g description = Ok r -> is_tier (risk r).
Proof.
  unfold predict_risk, is_tier.
  destruct (clf g) as [c|]; [|discriminate].
  destruct (vectorizer g) as [v|]; [|discriminate].
  destruct (transform v description) as [X|]; cbn [rbind]; [|discriminate].
  destruct (predict c X) as [cls|]; cbn [rbind]; [|discriminate].
  destruct (predict_proba c X) as [probs|]; cbn [rbind]; [|discriminate].
  destruct (nth_error probs 1) as [p|]; [|discriminate].
  unfold risk_mapping.
  destruct (fge p f0_70); [|destruct (fge p f0_40)];
    intros H; injection H as <-; cbn [risk]; auto.
Qed.

Lemma score_record_tier {FV : Type} (g : Globals FV) (c : CveRecord)
    (s : ScoredRecord) :
  score_record g c = Ok s -> is_tier (scored_risk s).
Proof.
  unfold score_record.
  destruct (predict_risk g (description c)) as [r|] eqn:Hr; cbn [rbind];
    [|discriminate].
  destruct (detect_anomaly g (description c)); cbn [rbind]; [|discriminate].
  intros H. injection H as <-. cbn [scored_risk].
  exact (predict_risk_tier g _ r Hr).
Qed.

Lemma aggregate_tiers {FV : Type} (g : Globals FV) (cves : list CveRecord) :
  Forall (fun s => is_tier (scored_risk s)) (aggregate g cves).
Proof.
  induction cves as [|c cves IH]; [constructor|].
  rewrite aggregate_cons. apply Forall_app. split; [|exact IH].
  unfold entry_of. destruct (score_record g c) as [s|] eqn:Hs; constructor.
  - exact (score_record_tier g c s Hs).
  - constructor.
Qed.

(** X4. Every entry [process_new_cves] returns carries one of the three
    tiers HIGH, MEDIUM, LOW, whatever the artifacts answer. *)
Theorem batch_entries_have_a_tier {FV : Type} (g : Globals FV)
    (days_back max_results : Z) (api_key : option string)
    (env : Env) (w : World) (entries : list ScoredRecord) :
  fst (process_new_cves g days_back max_results api_key env w) = Ok entries ->
  Forall (fun s => is_tier (scored_risk s)) entries.
Proof.
  rewrite process_result.
  destruct (fst (fetch_cves_from_nvd _ _ _ _ _)) as [cves|]; [|discriminate].
  intros H. injection H as <-. apply aggregate_tiers.
Qed.

Lemma batch_entries_have_a_tier_witness :
  Forall (fun s => is_tier (scored_risk s))
    [ {| scored_cve_id := "CVE-2026-0001"; scored_risk := "HIGH";
         scored_confidence := f0_70; scored_anomalous := true |};
      {| scored_cve_id := "Unknown"; scored_risk := "LOW";
         scored_confidence := f0_6001_next; scored_anomalous := false |};
      {| scored_cve_id := "Unknown"; scored_risk := "LOW";
         scored_confidence := f0_6001_next; scored_anomalous := false |} ].
Proof.
  apply (batch_entries_have_a_tier sample_globals 7 20 None sample_env
           fresh_world).
  vm_compute; reflexivity.
Defined.

(** ** The feed client on a document that breaks the schema *)

(** X5. When the feed answers with a document in which the first entry
    tagged "en" of some item has no key ["value"], [process_new_cves]
    raises [KeyError] and returns nothing, also for the items before that
    one, whose warnings are already logged; the exception is not a
    [RequestException], so the feed client logs no error line of its own:
    the log ends with the line of [process_new_cves]. *)
Theorem missing_value_aborts_the_batch {FV : Type} (g : Globals FV)
    (days_back max_results : Z) (api_key : option string)
    (env : Env) (w : World) (start_date : datetime) (r : Response)
    (data : FeedData) (before after : list Vulnerability)
    (item : Vulnerability) :
  window_start (utcnow env) days_back = Ok start_date ->
  let req := nvd_request start_date (utcnow env) max_results
               (effective_api_key env api_key) in
  nvd env req = GetReturns r ->
  raise_for_status r = Ok tt ->
  json r = Ok data ->
  feed_items data = before ++ item :: after ->
  forallb en_value_present before = true ->
  en_value_present item = false ->
  process_new_cves g days_back max_results api_key env w =
  (Raise (KeyError "value"),
   {| logged :=
        logged w ++
        [Log INFO MsgStarting] ++ key_warning env api_key ++
        [Log INFO (MsgFetching (date start_date) (date (utcnow env)))] ++
        flat_map warning_of before ++
        [Log ERROR (MsgFailedToFetch (KeyError "value"))];
      requests_sent := requests_sent w ++ [req] |}).
Proof.
  intros Hstart req Hget Hstatus Hjson Hitems Hbefore Hitem.
  rewrite process_new_cves_unfold, fetch_unfold, Hstart. cbv zeta.
  fold req. rewrite Hget, Hstatus, Hjson, Hitems.
  rewrite (extract_cves_app before Hbefore),
    (extract_cves_key_error item after _ _ _ Hitem).
  cbn [is_RequestException]. unfold log_append, send.
  cbn [logged requests_sent]. rewrite <- !app_assoc. reflexivity.
Qed.

Lemma missing_value_aborts_the_batch_witness :
  process_new_cves sample_globals 7 20 None broken_env fresh_world =
  (Raise (KeyError "value"),
   {| logged :=
        [ Log INFO MsgStarting; Log WARNING MsgNoApiKey;
          Log INFO (MsgFetching 739609 739616);
          Log ERROR (MsgFailedToFetch (KeyError "value")) ];
      requests_sent :=
        [ {| url := NVD_API_URL;
       pubStartDate := 63902217600; pubEndDate := 63902822400;
       resultsPerPage := 20; apiKey_header := None; timeout := 30 |} ] |}).
Proof.
  exact (missing_value_aborts_the_batch sample_globals 7 20 None broken_env
           fresh_world 63902217600000000
           {| status_code := 200; json := Ok broken_feed |} broken_feed
           [sample_item (Some "CVE-2026-0001") [en "remote code execution"]]
           [sample_item (Some "CVE-2026-0005") [en "denial of service"]]
           (sample_item (Some "CVE-2026-0004")
              [{| lang := Some "en"; value := None |}])
           eq_refl eq_refl eq_refl eq_refl eq_refl eq_refl eq_refl).
Defined.

Lemma extract_cves_logged (items : list Vulnerability) :
  forall (acc : list CveRecord) (env : Env) (w : World),
  exists l : list log_record,
    logged (snd (extract_cves items acc env w)) = logged w ++ l /\
    count_processing_errors l = 0%nat.
Proof.
  induction items as [|item items IH]; intros acc env w.
  - exists []. cbn. now rewrite app_nil_r.
  - cbn [extract_cves]. unfold bind at 1, lift at 1.
    destruct (english_value _) as [desc_text|e].
    2:{ exists []. cbn. now rewrite app_nil_r. }
    destruct (truthy desc_text); [apply IH|].
    unfold bind. rewrite logger_run.
    match goal with
    | |- context [extract_cves ?i ?a ?e ?u] =>
        destruct (IH a e u) as (l & Hl & Hc)
    end.
    eexists (_ :: l). rewrite Hl. cbn [log_append logged].
    rewrite <- app_assoc. split; [reflexivity|].
    exact Hc.
Qed.

Lemma count_processing_errors_app (l1 l2 : list log_record) :
  count_processing_errors (l1 ++ l2) =
  (count_processing_errors l1 + count_processing_errors l2)%nat.
Proof.
  unfold count_processing_errors. now rewrite filter_app, length_app.
Qed.

Lemma fetch_logged (days_back max_results : Z) (api_key : option string)
    (env : Env) (w : World) :
  exists l : list log_record,
    logged (snd (fetch_cves_from_nvd days_back max_results api_key env w)) =
      logged w ++ l /\
    count_processing_errors l = 0%nat.
Proof.
  rewrite fetch_unfold. cbv zeta.
  assert (Hkey : count_processing_errors (key_warning env api_key) = 0%nat).
  { unfold key_warning. destruct api_key; [reflexivity|].
    destruct (truthy _); reflexivity. }
  destruct (window_start _ _) as [start_date|e].
  2:{ eexists. split; [reflexivity|exact Hkey]. }
  destruct (nvd env _) as [e|r].
  { cbn [is_RequestException snd log_append send logged].
    eexists. rewrite <- !app_assoc. split; [reflexivity|].
    rewrite !count_processing_errors_app, Hkey. reflexivity. }
  destruct (raise_for_status r) as [[]|e].
  2:{ destruct (is_RequestException e);
        cbn [snd log_append send logged]; eexists; rewrite <- !app_assoc;
        (split; [reflexivity|]);
        rewrite !count_processing_errors_app, Hkey; reflexivity. }
  destruct (json r) as [data|e].
  2:{ destruct (is_RequestException e);
        cbn [snd log_append send logged]; eexists; rewrite <- !app_assoc;
        (split; [reflexivity|]);
        rewrite !count_processing_errors_app, Hkey; reflexivity. }
  match goal with
  | |- context [extract_cves ?i ?a ?e ?u] =>
      destruct (extract_cves_logged i a e u) as (l & Hl & Hc);
      destruct (extract_cves i a e u) as [[x|x] v]; cbn [snd] in *
  end.
  - cbn [log_append logged]. rewrite Hl. cbn [log_append send logged].
    eexists. rewrite <- !app_assoc. split; [reflexivity|].
    rewrite !count_processing_errors_app, Hkey, Hc. reflexivity.
  - destruct (is_RequestException x); cbn [log_append logged]; rewrite Hl;
      cbn [log_append send logged]; eexists; rewrite <- !app_assoc;
      (split; [reflexivity|]);
      rewrite !count_processing_errors_app, Hkey, Hc; reflexivity.
Qed.

Lemma loop_log_errors {FV : Type} (g : Globals FV) (total : nat)
    (cves : list CveRecord) :
  forall idx : nat,
    (count_processing_errors (loop_log g total idx cves) +
     List.length (aggregate g cves) = List.length cves)%nat.
Proof.
  induction cves as [|c cves IH]; intros idx; [reflexivity|].
  cbn [loop_log]. rewrite aggregate_cons, length_app,
    count_processing_errors_app. specialize (IH (S idx)).
  cbn [List.length].
  assert (count_processing_errors (record_log g total idx c) +
          List.length (entry_of g c) = 1)%nat; [|lia].
  unfold record_log, entry_of, score_record.
  destruct (predict_risk g (description c)); cbn [rbind]; [|reflexivity].
  destruct (detect_anomaly g (description c)); reflexivity.
Qed.

(** X6. Whenever the fetch returns, [process_new_cves] returns too, it only
    appends to the log, and every fetched record is accounted for: the
    number of entries returned plus the number of processing-error lines
    logged is the number of records fetched, which is what the closing
    line reports. *)
Theorem every_record_is_scored_or_logged {FV : Type} (g : Globals FV)
    (days_back max_results : Z) (api_key : option string)
    (env : Env) (w : World) (cves : list CveRecord) :
  fst (fetch_cves_from_nvd days_back max_results api_key env w) = Ok cves ->
  exists (entries : list ScoredRecord) (w' : World) (l : list log_record),
    process_new_cves g days_back max_results api_key env w = (Ok entries, w') /\
    logged w' = logged w ++ l /\
    (List.length entries + count_processing_errors l = List.length cves)%nat /\
    (cves <> [] ->
     In (Log INFO (MsgCompleted (List.length entries) (List.length cves))) l).
Proof.
  intros Hfetch.
  rewrite (fetch_result _ _ _ _ w (log_append w [Log INFO MsgStarting]))
    in Hfetch.
  rewrite process_new_cves_unfold.
  destruct (fetch_logged days_back max_results api_key env
              (log_append w [Log INFO MsgStarting])) as (l & Hl & Hc).
  destruct (fetch_cves_from_nvd _ _ _ _ _) as [[cves'|e] w1];
    cbn [fst snd] in *; [|discriminate Hfetch].
  injection Hfetch as ->. cbn [log_append logged] in Hl.
  rewrite <- app_assoc in Hl.
  destruct cves as [|c cves].
  - do 3 eexists. split; [reflexivity|]. cbn [log_append logged].
    rewrite Hl, <- app_assoc. split; [reflexivity|].
    rewrite !count_processing_errors_app, Hc.
    split; [reflexivity|]. intros H. now elim H.
  - do 3 eexists. split; [reflexivity|]. cbn [log_append logged].
    rewrite Hl, <- app_assoc. split; [reflexivity|].
    rewrite !count_processing_errors_app, Hc.
    pose proof (loop_log_errors g (List.length (c :: cves)) (c :: cves) 1).
    split.
    + change (count_processing_errors [Log INFO MsgStarting]) with 0%nat.
      change (count_processing_errors [Log INFO (MsgCompleted _ _)])
        with 0%nat.
      lia.
    + intros _. rewrite !in_app_iff. cbn [In]. auto 10.
Qed.

Lemma every_record_is_scored_or_logged_witness :
  let cves :=
    [ {| cve_id := "CVE-2026-0001"; description := "remote code execution" |};
      {| cve_id := "CVE-2026-0003"; description := "garbled" |};
      {| cve_id := "Unknown"; description := "information disclosure" |};
      {| cve_id := "Unknown"; description := "denial of service" |} ] in
  exists (entries : list ScoredRecord) (w' : World) (l : list log_record),
    process_new_cves sample_globals 7 20 None sample_env fresh_world =
      (Ok entries, w') /\
    logged w' = logged fresh_world ++ l /\
    (List.length entries + count_processing_errors l = List.length cves)%nat /\
    (cves <> [] ->
     In (Log INFO (MsgCompleted (List.length entries) (List.length cves))) l).
Proof.
  intros cves.
  apply (every_record_is_scored_or_logged sample_globals 7 20 None sample_env
           fresh_world cves).
  vm_compute; reflexivity.
Defined.

(** ** Batches with nothing to score *)

Lemma no_english_description_no_record (items : list Vulnerability) :
  (forall item, In item items -> english_description item = None) ->
  scorable items = [].
Proof.
  induction items as [|item items IH]; intros H; [reflexivity|].
  unfold scorable. cbn [flat_map]. unfold record_of at 1.
  rewrite (H item) by now left.
  apply IH. intros i Hi. apply H. now right.
Qed.

(** X7. When no item of the answer has an English description (a
    translation only, an empty English text, no descriptions, or no items
    at all), [process_new_cves] returns the empty list without consulting
    the artifacts: one warning per item, the count 0, and the warning that
    nothing was fetched. *)
Theorem nothing_to_score {FV : Type} (g : Globals FV)
    (days_back max_results : Z) (api_key : option string)
    (env : Env) (w : World) (start_date : datetime) (r : Response)
    (data : FeedData) :
  window_start (utcnow env) days_back = Ok start_date ->
  let req := nvd_request start_date (utcnow env) max_results
               (effective_api_key env api_key) in
  nvd env req = GetReturns r ->
  raise_for_status r = Ok tt ->
  json r = Ok data ->
  forallb en_value_present (feed_items data) = true ->
  (forall item, In item (feed_items data) ->
                english_description item = None) ->
  process_new_cves g days_back max_results api_key env w =
  (Ok [],
   {| logged :=
        logged w ++
        [Log INFO MsgStarting] ++ key_warning env api_key ++
        [Log INFO (MsgFetching (date start_date) (date (utcnow env)))] ++
        flat_map warning_of (feed_items data) ++
        [Log INFO (MsgFetched 0); Log WARNING MsgNoCves];
      requests_sent := requests_sent w ++ [req] |}).
Proof.
  intros Hstart req Hget Hstatus Hjson Hwf Hnone.
  rewrite process_new_cves_unfold, fetch_unfold, Hstart. cbv zeta.
  fold req. rewrite Hget, Hstatus, Hjson, (extract_cves_run _ Hwf).
  rewrite (no_english_description_no_record _ Hnone).
  cbn [app List.length]. unfold log_append, send.
  cbn [logged requests_sent]. rewrite <- !app_assoc. reflexivity.
Qed.

Lemma nothing_to_score_witness :
  process_new_cves sample_globals 7 20 None untranslated_env fresh_world =
  (Ok [],
   {| logged :=
        [ Log INFO MsgStarting;
          Log INFO (MsgFetching 739609 739616);
          Log WARNING (MsgNoEnglishDescription "CVE-2026-0002");
          Log WARNING (MsgNoEnglishDescription "CVE-2026-0006");
          Log WARNING (MsgNoEnglishDescription "Unknown");
          Log INFO (MsgFetched 0); Log WARNING MsgNoCves ];
      requests_sent :=
        [ {| url := NVD_API_URL;
             pubStartDate := 63902217600; pubEndDate := 63902822400;
             resultsPerPage := 20; apiKey_header := Some "k";
             timeout := 30 |} ] |}).
Proof.
  apply (nothing_to_score sample_globals 7 20 None untranslated_env
           fresh_world 63902217600000000
           {| status_code := 200; json := Ok untranslated_feed |}
           untranslated_feed);
    try reflexivity.
  intros item [<-|[<-|[<-|[]]]]; reflexivity.
Defined.

Lemma score_record_unloaded {FV : Type} (g : Globals FV) (c : CveRecord) :
  clf g = None \/ vectorizer g = None \/ anomaly_clf g = None ->
  exists e : exn, score_record g c = Raise e.
Proof.
  unfold score_record, predict_risk, detect_anomaly.
  intros [H|[H|H]]; rewrite H.
  - eexists. reflexivity.
  - destruct (clf g); eexists; reflexivity.
  - destruct (clf g) as [m|]; [|eexists; reflexivity].
    destruct (vectorizer g) as [v|]; [|eexists; reflexivity].
    match goal with
    | |- exists e, rbind ?x _ = _ => destruct x; cbn [rbind]
    end; eexists; reflexivity.
Qed.

Lemma loop_log_in {FV : Type} (g : Globals FV) (total : nat)
    (cves : list CveRecord) (c : CveRecord) :
  In c cves ->
  forall idx : nat,
  exists i : nat, incl (record_log g total i c) (loop_log g total idx cves).
Proof.
  induction cves as [|c' cves IH]; intros Hin idx; [contradiction|].
  cbn [loop_log]. destruct Hin as [->|Hin].
  - exists idx. apply incl_appl, incl_refl.
  - destruct (IH Hin (S idx)) as (i & Hi). exists i.
    apply incl_appr. exact Hi.
Qed.

(** X8. With one of the three artifacts not loaded, a batch whose fetch
    returns does not raise: [process_new_cves] returns the empty list, as
    for an empty feed, and logs a processing error for every fetched
    record. *)
Theorem unloaded_models_score_nothing {FV : Type} (g : Globals FV)
    (days_back max_results : Z) (api_key : option string)
    (env : Env) (w : World) (cves : list CveRecord) :
  clf g = None \/ vectorizer g = None \/ anomaly_clf g = None ->
  fst (fetch_cves_from_nvd days_back max_results api_key env w) = Ok cves ->
  let processed := process_new_cves g days_back max_results api_key env w in
  fst processed = Ok [] /\
  forall c : CveRecord,
    In c cves ->
    exists e : exn,
      In (Log ERROR (MsgProcessingError (cve_id c) e)) (logged (snd processed)).
Proof.
  intros Hnone Hfetch processed. subst processed.
  assert (Hagg : aggregate g cves = []).
  { clear Hfetch. induction cves as [|c cves IH]; [reflexivity|].
    rewrite aggregate_cons, IH, app_nil_r. unfold entry_of.
    destruct (score_record_unloaded g c Hnone) as (e & ->). reflexivity. }
  split.
  { rewrite process_result, Hfetch, Hagg. reflexivity. }
  intros c Hin.
  destruct (score_record_unloaded g c Hnone) as (e & He). exists e.
  rewrite (fetch_result _ _ _ _ w (log_append w [Log INFO MsgStarting]))
    in Hfetch.
  rewrite process_new_cves_unfold.
  destruct (fetch_cves_from_nvd _ _ _ _ _) as [[cves'|e'] w1];
    cbn [fst] in Hfetch; [|discriminate Hfetch].
  injection Hfetch as ->.
  destruct cves as [|c0 cves]; [contradiction|].
  cbn [snd log_append logged].
  destruct (loop_log_in g (List.length (c0 :: cves)) (c0 :: cves) c Hin 1%nat)
    as (i & Hi).
  apply in_or_app. right. apply in_or_app. left. apply Hi.
  now apply record_log_error.
Qed.

Lemma unloaded_models_score_nothing_witness :
  let cves :=
    [ {| cve_id := "CVE-2026-0001"; description := "remote code execution" |};
      {| cve_id := "CVE-2026-0003"; description := "garbled" |};
      {| cve_id := "Unknown"; description := "information disclosure" |};
      {| cve_id := "Unknown"; description := "denial of service" |} ] in
  let processed :=
    process_new_cves (@no_globals string) 7 20 None sample_env fresh_world in
  fst processed = Ok [] /\
  forall c : CveRecord,
    In c cves ->
    exists e : exn,
      In (Log ERROR (MsgProcessingError (cve_id c) e)) (logged (snd processed)).
Proof.
  intros cves.
  apply (unloaded_models_score_nothing (@no_globals string) 7 20 None
           sample_env fresh_world cves).
  - left. reflexivity.
  - vm_compute; reflexivity.
Defined.

Lemma process_logged {FV : Type} (g : Globals FV)
    (days_back max_results : Z) (api_key : option string)
    (env : Env) (w : World) :
  exists l : list log_record,
    logged (snd (process_new_cves g days_back max_results api_key env w)) =
    logged w ++ Log INFO MsgStarting :: l.
Proof.
  rewrite process_new_cves_unfold.
  destruct (fetch_logged days_back max_results api_key env
              (log_append w [Log INFO MsgStarting])) as (l & Hl & _).
  cbn [log_append logged] in Hl. rewrite <- app_assoc in Hl.
  destruct (fetch_cves_from_nvd _ _ _ _ _) as [[[|c cves]|e] w1];
    cbn [snd log_append logged] in *; rewrite Hl, <- app_assoc;
    eexists; cbn [app]; reflexivity.
Qed.

(** X9. In every case [process_new_cves] sends exactly one request when
    the time window can be computed and none otherwise, never a retry; it
    only appends to the log, and the first line it appends is the
    starting line. *)
Theorem one_request_per_batch {FV : Type} (g : Globals FV)
    (days_back max_results : Z) (api_key : option string)
    (env : Env) (w : World) :
  let processed := process_new_cves g days_back max_results api_key env w in
  requests_sent (snd processed) =
    requests_sent w ++
    match issued_request env days_back max_results api_key with
    | Ok req => [req]
    | Raise _ => []
    end /\
  exists l : list log_record,
    logged (snd processed) = logged w ++ Log INFO MsgStarting :: l.
Proof.
  intros processed. subst processed. split; [|apply process_logged].
  destruct (issued_request env days_back max_results api_key) as [req|e] eqn:E.
  - now apply process_sends_one.
  - unfold issued_request in E.
    rewrite process_new_cves_unfold, fetch_unfold.
    destruct (window_start _ _); [discriminate E|].
    cbn. now rewrite app_nil_r.
Qed.

(** X10. A [days_back] that reaches before the first day of the calendar,
    or (negative) past its last day, makes [process_new_cves] raise
    [OverflowError] before any request is sent. *)
Theorem window_overflow {FV : Type} (g : Globals FV)
    (days_back max_results : Z) (api_key : option string)
    (env : Env) (w : World) :
  days_back < date (utcnow env) - 3652058 \/ date (utcnow env) < days_back ->
  let processed := process_new_cves g days_back max_results api_key env w in
  (exists msg : string, fst processed = Raise (OverflowError msg)) /\
  requests_sent (snd processed) = requests_sent w.
Proof.
  intros Hdays processed. subst processed.
  rewrite process_new_cves_unfold, fetch_unfold.
  assert (Hw : exists msg, window_start (utcnow env) days_back =
                           Raise (OverflowError msg)).
  { unfold window_start, timedelta_days.
    destruct ((-999999999 <=? days_back) && (days_back <=? 999999999));
      cbn [rbind]; [|eexists; reflexivity].
    unfold datetime_sub.
    destruct ((0 <=? _) && (_ <=? datetime_max)) eqn:E;
      [|eexists; reflexivity].
    exfalso. apply andb_true_iff in E as [H1%Z.leb_le H2%Z.leb_le].
    unfold date, datetime_max in *.
    assert (Hu : 0 < us_per_day) by (unfold us_per_day; lia).
    pose proof (Z.mul_div_le (utcnow env) us_per_day Hu).
    pose proof (Z.mul_succ_div_gt (utcnow env) us_per_day Hu).
    set (q := utcnow env / us_per_day) in *. nia. }
  destruct Hw as (msg & ->). cbn. split; [now exists msg|reflexivity].
Qed.

Lemma window_overflow_witness :
  let processed :=
    process_new_cves sample_globals 800000 20 None sample_env fresh_world in
  (exists msg : string, fst processed = Raise (OverflowError msg)) /\
  requests_sent (snd processed) = requests_sent fresh_world.
Proof.
  apply (window_overflow sample_globals 800000 20 None sample_env fresh_world).
  right. vm_compute; reflexivity.
Defined.

(** ** The route and the order of the entries *)

Lemma process_result_world {FV : Type} (g : Globals FV)
    (days_back max_results : Z) (api_key : option string)
    (env : Env) (w w' : World) :
  fst (process_new_cves g days_back max_results api_key env w) =
  fst (process_new_cves g days_back max_results api_key env w').
Proof.
  rewrite !process_result.
  now rewrite (fetch_result _ _ _ _ w w').
Qed.

(** X11. For parameters the route GET /predict/latest-cves accepts (absent
    ones take the defaults 3 and 10), the answer mirrors
    [process_new_cves] called with the key of the environment: 200 with
    the entries in the same order when it returns, 502 with its exception
    and an error line when it raises. *)
Theorem latest_cves_route_mirrors_the_batch {FV : Type} (g : Globals FV)
    (days_back max_results : option Z) (d m : Z) (env : Env) (w : World) :
  Query 3 1 30 days_back = Some d ->
  Query 10 1 100 max_results = Some m ->
  let answered := predict_latest_cves g days_back max_results env w in
  match fst (process_new_cves g d m (NVD_API_KEY env) env w) with
  | Ok entries => fst answered = Http200 (map to_prediction entries)
  | Raise e =>
      fst answered = HTTPException 502 e /\
      In (Log ERROR (MsgLatestCvesError e)) (logged (snd answered))
  end.
Proof.
  intros Hd Hm answered. subst answered.
  unfold predict_latest_cves. rewrite Hd, Hm.
  destruct (truthy (NVD_API_KEY env)).
  - unfold bind, ret.
    destruct (process_new_cves g d m (NVD_API_KEY env) env w)
      as [[entries|e] w1]; cbn [fst snd]; [reflexivity|].
    split; [reflexivity|]. rewrite logger_run. cbn [snd log_append logged].
    apply in_or_app. right. now left.
  - rewrite (process_result_world g d m (NVD_API_KEY env) env w
               (log_append w [Log WARNING MsgApiKeyNotSet])).
    unfold bind, ret.
    change (logger WARNING MsgApiKeyNotSet env w)
      with (Ok tt, log_append w [Log WARNING MsgApiKeyNotSet]).
    cbv beta iota.
    destruct (process_new_cves g d m (NVD_API_KEY env) env _)
      as [[entries|e] w1]; cbn [fst snd]; [reflexivity|].
    split; [reflexivity|]. rewrite logger_run. cbn [snd log_append logged].
    apply in_or_app. right. now left.
Qed.

Lemma latest_cves_route_mirrors_the_batch_witness :
  let answered :=
    predict_latest_cves sample_globals None (Some 5) sample_env fresh_world in
  match fst (process_new_cves sample_globals 3 5 (NVD_API_KEY sample_env)
               sample_env fresh_world) with
  | Ok entries => fst answered = Http200 (map to_prediction entries)
  | Raise e =>
      fst answered = HTTPException 502 e /\
      In (Log ERROR (MsgLatestCvesError e)) (logged (snd answered))
  end.
Proof.
  apply (latest_cves_route_mirrors_the_batch sample_globals None (Some 5) 3 5
           sample_env fresh_world);
    reflexivity.
Defined.

Lemma subsequence_trans {A : Type} (l1 l2 l3 : list A) :
  subsequence l1 l2 -> subsequence l2 l3 -> subsequence l1 l3.
Proof.
  intros H12 H23. revert l1 H12.
  induction H23 as [|x l2 l3 _ IH|x l2 l3 _ IH]; intros l1 H12.
  - exact H12.
  - apply subsequence_skip. now apply IH.
  - inversion H12; subst.
    + apply subsequence_skip. now apply IH.
    + apply subsequence_keep. now apply IH.
Qed.

Lemma subsequence_flat_map {A B C : Type} (f : A -> list B)
    (ka : A -> C) (kb : B -> C) :
  (forall a : A, f a = [] \/ exists b : B, f a = [b] /\ kb b = ka a) ->
  forall l : list A, subsequence (map kb (flat_map f l)) (map ka l).
Proof.
  intros Hf. induction l as [|a l IH]; [constructor|].
  cbn [flat_map map]. destruct (Hf a) as [->|(b & -> & <-)]; cbn [app map].
  - now apply subsequence_skip.
  - now apply subsequence_keep.
Qed.

Lemma subsequence_length {A : Type} (l1 l2 : list A) :
  subsequence l1 l2 -> (List.length l1 <= List.length l2)%nat.
Proof. induction 1; cbn [List.length]; lia. Qed.

(** X12. On a document the feed answers with, the identifiers of the
    entries [process_new_cves] returns are a subsequence of the
    identifiers of the items of the feed: no entry is invented, none is
    duplicated or reordered, and there are at most as many entries as
    items. *)
Theorem entries_follow_the_feed {FV : Type} (g : Globals FV)
    (days_back max_results : Z) (api_key : option string)
    (env : Env) (w : World) (req : Request) (r : Response) (data : FeedData) :
  issued_request env days_back max_results api_key = Ok req ->
  nvd env req = GetReturns r ->
  raise_for_status r = Ok tt ->
  json r = Ok data ->
  forallb en_value_present (feed_items data) = true ->
  exists entries : list ScoredRecord,
    fst (process_new_cves g days_back max_results api_key env w) = Ok entries /\
    subsequence (map scored_cve_id entries) (map item_id (feed_items data)) /\
    (List.length entries <= List.length (feed_items data))%nat.
Proof.
  intros Hreq Hget Hstatus Hjson Hwf.
  eexists. split.
  { exact (process_run_ok g _ _ _ _ w _ _ _ Hreq Hget Hstatus Hjson Hwf). }
  assert (Hsub : subsequence
            (map scored_cve_id (aggregate g (scorable (feed_items data))))
            (map item_id (feed_items data))).
  { apply (subsequence_trans _ (map cve_id (scorable (feed_items data)))).
    - apply subsequence_flat_map. intros c. unfold entry_of.
      destruct (score_record g c) as [s|e] eqn:Hs; [right|now left].
      exists s. split; [reflexivity|]. exact (score_record_id g c s Hs).
    - apply subsequence_flat_map. intros item. unfold record_of.
      destruct (english_description item); [right|now left].
      eexists. split; reflexivity. }
  split; [exact Hsub|].
  apply subsequence_length in Hsub. now rewrite !length_map in Hsub.
Qed.

Lemma entries_follow_the_feed_witness :
  exists entries : list ScoredRecord,
    fst (process_new_cves sample_globals 7 20 None sample_env fresh_world)
      = Ok entries /\
    subsequence (map scored_cve_id entries)
      (map item_id (feed_items sample_feed)) /\
    (List.length entries <= List.length (feed_items sample_feed))%nat.
Proof.
  apply (entries_follow_the_feed sample_globals 7 20 None sample_env
           fresh_world
           {| url := NVD_API_URL;
       pubStartDate := 63902217600; pubEndDate := 63902822400;
       resultsPerPage := 20; apiKey_header := None; timeout := 30 |}
           {| status_code := 200; json := Ok sample_feed |} sample_feed);
    reflexivity.
Defined.

(** X13. A key passed to [fetch_cves_from_nvd] takes precedence over the
    key of the environment, also when it is the empty string: the
    environment is not consulted, the warning about a missing key is not
    logged, and the request carries the [apiKey] header exactly when the
    key passed is not empty. *)
Theorem explicit_key_overrides_environment (days_back max_results : Z)
    (key : string) (env : Env) (w : World) (start_date : datetime) :
  window_start (utcnow env) days_back = Ok start_date ->
  let fetched :=
    fetch_cves_from_nvd days_back max_results (Some key) env w in
  requests_sent (snd fetched) =
    requests_sent w ++
    [ {| url := NVD_API_URL;
         pubStartDate := strftime_seconds start_date;
         pubEndDate := strftime_seconds (utcnow env);
         resultsPerPage := max_results;
         apiKey_header := if String.eqb key EmptyString then None else Some key;
         timeout := 30 |} ] /\
  exists l : list log_record,
    logged (snd fetched) =
    logged w ++
    Log INFO (MsgFetching (date start_date) (date (utcnow env))) :: l /\
    ~ In (Log WARNING MsgNoApiKey) l.
Proof.
  intros Hstart fetched. subst fetched. split.
  - rewrite (fetch_sends_one days_back max_results (Some key) env w
               (nvd_request start_date (utcnow env) max_results (Some key))).
    + unfold nvd_request, truthy. destruct (String.eqb key EmptyString);
        reflexivity.
    + unfold issued_request. rewrite Hstart. reflexivity.
  - rewrite fetch_unfold, Hstart. cbv zeta.
    cbn [key_warning effective_api_key]. rewrite log_append_nil.
    set (req := nvd_request _ _ _ _).
    set (w1 := send _ req).
    assert (Hw1 : logged w1 = logged w ++
              [Log INFO (MsgFetching (date start_date) (date (utcnow env)))])
      by reflexivity.
    assert (Hfail : forall e : exn,
      exists l : list log_record,
        logged (snd (Raise (A:=list CveRecord) e,
                     if is_RequestException e
                     then log_append w1 [Log ERROR (MsgFetchError e)]
                     else w1)) =
        logged w ++
        Log INFO (MsgFetching (date start_date) (date (utcnow env))) :: l /\
        ~ In (Log WARNING MsgNoApiKey) l).
    { intros e. destruct (is_RequestException e); cbn [snd log_append logged];
        rewrite Hw1.
      - rewrite <- app_assoc. eexists. split; [reflexivity|].
        intros [H|[]]. discriminate H.
      - exists []. split; [reflexivity|]. intros []. }
    destruct (nvd env req) as [e|r]; [apply Hfail|].
    destruct (raise_for_status r) as [[]|e]; [|apply Hfail].
    destruct (json r) as [data|e]; [|apply Hfail].
    assert (Hext : forall items acc env w,
      exists l, logged (snd (extract_cves items acc env w)) = logged w ++ l /\
                ~ In (Log WARNING MsgNoApiKey) l).
    { clear. induction items as [|item items IH]; intros acc env w.
      - exists []. cbn. rewrite app_nil_r. split; [reflexivity|]. intros [].
      - cbn [extract_cves]. unfold bind at 1, lift at 1.
        destruct (english_value _) as [desc_text|e].
        2:{ exists []. cbn. rewrite app_nil_r. split; [reflexivity|].
            intros []. }
        destruct (truthy desc_text); [apply IH|].
        unfold bind. rewrite logger_run.
        match goal with
        | |- context [extract_cves ?i ?a ?e ?u] =>
            destruct (IH a e u) as (l & Hl & Hc)
        end.
        eexists (_ :: l). rewrite Hl. cbn [log_append logged].
        rewrite <- app_assoc. split; [reflexivity|].
        intros [H|H]; [discriminate H|exact (Hc H)]. }
    destruct (Hext (feed_items data) [] env w1) as (l & Hl & Hc).
    destruct (extract_cves _ _ _ _) as [[x|x] w2]; cbn [snd] in *.
    + cbn [log_append logged]. rewrite Hl, Hw1, <- !app_assoc.
      eexists. split; [reflexivity|]. rewrite in_app_iff.
      intros [H|[H|[]]]; [exact (Hc H)|discriminate H].
    + destruct (is_RequestException x); cbn [log_append logged];
        rewrite Hl, Hw1, <- !app_assoc; eexists; (split; [reflexivity|]).
      * rewrite in_app_iff. intros [H|[H|[]]]; [exact (Hc H)|discriminate H].
      * exact Hc.
Qed.

Lemma explicit_key_overrides_environment_witness :
  let fetched :=
    fetch_cves_from_nvd 7 20 (Some EmptyString) later_env fresh_world in
  requests_sent (snd fetched) =
    requests_sent fresh_world ++
    [ {| url := NVD_API_URL;
         pubStartDate := strftime_seconds 63902217660000000;
         pubEndDate := strftime_seconds (utcnow later_env);
         resultsPerPage := 20;
         apiKey_header :=
           if String.eqb EmptyString EmptyString then None
           else Some EmptyString;
         timeout := 30 |} ] /\
  exists l : list log_record,
    logged (snd fetched) =
    logged fresh_world ++
    Log INFO (MsgFetching (date 63902217660000000) (date (utcnow later_env)))
    :: l /\
    ~ In (Log WARNING MsgNoApiKey) l.
Proof.
  apply (explicit_key_overrides_environment 7 20 EmptyString later_env
           fresh_world 63902217660000000).
  reflexivity.
Defined.

(** ** Health, loading and POST /predict *)

(** X14. GET /health and the startup check agree: the route reports
    ["healthy"] exactly when [startup_event] does not raise, which is when
    the three model files exist; neither looks at whether the files could
    be loaded. *)
Theorem health_agrees_with_startup {FV : Type} (fs : FileSystem FV) :
  let all_present :=
    file_present (rf_model_pkl fs) && file_present (tfidf_vectorizer_pkl fs)
    && file_present (anomaly_model_pkl fs) in
  health_models_loaded (health_check fs) = all_present /\
  (health_status (health_check fs) = "healthy" <-> all_present = true) /\
  (startup_event fs = Ok tt <-> all_present = true).
Proof.
  unfold health_check, startup_event, required_files.
  cbn [forallb filter]. unfold os_path_exists. cbn [String.eqb Ascii.eqb
    Bool.eqb MODEL_PATH VECTORIZER_PATH ANOMALY_MODEL_PATH].
  cbn.
  destruct (file_present (rf_model_pkl fs)),
    (file_present (tfidf_vectorizer_pkl fs)),
    (file_present (anomaly_model_pkl fs)); cbn;
    repeat split; intros; try reflexivity; try discriminate.
Qed.

Lemma load_all_or_nothing {FV : Type} (fs : FileSystem FV) :
  (exists c v a,
      rf_model_pkl fs = Pickled c /\ tfidf_vectorizer_pkl fs = Pickled v /\
      anomaly_model_pkl fs = Pickled a /\
      load_models fs =
      ({| clf := Some c; vectorizer := Some v; anomaly_clf := Some a |},
       [Log INFO MsgModelsLoaded])) \/
  fst (load_models fs) = no_globals.
Proof.
  unfold load_models.
  destruct (rf_model_pkl fs) as [|e1|c]; cbn [joblib_load rbind];
    [now right | destruct e1; now right | ].
  destruct (tfidf_vectorizer_pkl fs) as [|e2|v]; cbn [joblib_load rbind];
    [now right | destruct e2; now right | ].
  destruct (anomaly_model_pkl fs) as [|e3|a]; cbn [joblib_load rbind];
    [now right | destruct e3; now right | ].
  left. exists c, v, a. repeat split.
Qed.

(** X15. When the import has loaded the three artifacts, its log is the
    one success line, the startup check passes and GET /health reports
    ["healthy"]. *)
Theorem loaded_models_are_healthy {FV : Type} (fs : FileSystem FV) :
  models_loaded (fst (load_models fs)) ->
  snd (load_models fs) = [Log INFO MsgModelsLoaded] /\
  startup_event fs = Ok tt /\
  health_check fs =
    {| health_status := "healthy"; health_models_loaded := true |}.
Proof.
  intros Hloaded.
  destruct (load_all_or_nothing fs) as [(c & v & a & Hc & Hv & Ha & Hl)|Hno].
  - rewrite Hl. split; [reflexivity|].
    unfold startup_event, health_check, required_files.
    cbn [forallb filter]. unfold os_path_exists. rewrite Hc, Hv, Ha.
    split; reflexivity.
  - rewrite Hno in Hloaded. destruct Hloaded as [H _]. now elim H.
Qed.

Lemma loaded_models_are_healthy_witness :
  snd (load_models sample_files) = [Log INFO MsgModelsLoaded] /\
  startup_event sample_files = Ok tt /\
  health_check sample_files =
    {| health_status := "healthy"; health_models_loaded := true |}.
Proof.
  apply (loaded_models_are_healthy sample_files).
  repeat split; intros H; vm_compute in H; discriminate H.
Defined.

Lemma predict_risk_unloaded {FV : Type} (description : string) :
  predict_risk (@no_globals FV) description =
  Raise (ValueError "Models not loaded. Cannot perform prediction.").
Proof. reflexivity. Qed.

Lemma aggregate_unloaded {FV : Type} (cves : list CveRecord) :
  aggregate (@no_globals FV) cves = [].
Proof.
  induction cves as [|c cves IH]; [reflexivity|].
  rewrite aggregate_cons, IH. reflexivity.
Qed.

Lemma predict_latest_cves_result {FV : Type} (g : Globals FV)
    (days_back max_results : option Z) (env : Env) (w : World) :
  fst (predict_latest_cves g days_back max_results env w) =
  match Query 3 1 30 days_back, Query 10 1 100 max_results with
  | Some d, Some m =>
      match fst (process_new_cves g d m (NVD_API_KEY env) env w) with
      | Ok entries => Http200 (map to_prediction entries)
      | Raise e => HTTPException 502 e
      end
  | _, _ => Http422
  end.
Proof.
  unfold predict_latest_cves.
  destruct (Query 3 1 30 days_back) as [d|]; [|reflexivity].
  destruct (Query 10 1 100 max_results) as [m|]; [|reflexivity].
  destruct (truthy (NVD_API_KEY env)).
  - unfold bind, ret.
    destruct (process_new_cves g d m (NVD_API_KEY env) env w)
      as [[entries|e] w1]; reflexivity.
  - rewrite (process_result_world g d m (NVD_API_KEY env) env w
               (log_append w [Log WARNING MsgApiKeyNotSet])).
    unfold bind, ret.
    change (logger WARNING MsgApiKeyNotSet env w)
      with (Ok tt, log_append w [Log WARNING MsgApiKeyNotSet]).
    cbv beta iota.
    destruct (process_new_cves g d m (NVD_API_KEY env) env _)
      as [[entries|e] w1]; reflexivity.
Qed.

(** X16. After an import that did not load the artifacts the server serves
    no prediction: POST /predict answers 422 to a short description and
    500 with the [ValueError] of [predict_risk] to every other one, and
    every 200 answer of GET /predict/latest-cves is the empty list. *)
Theorem failed_load_serves_no_prediction {FV : Type} (fs : FileSystem FV) :
  ~ models_loaded (fst (load_models fs)) ->
  let g := fst (load_models fs) in
  (forall description : string,
      predict_route g description =
      if (String.length description <? 20)%nat then (Http422, [])
      else
        let e := ValueError "Models not loaded. Cannot perform prediction." in
        (HTTPException 500 e, [(ERROR, MsgPredictionError e)])) /\
  (forall (days_back max_results : option Z) (env : Env) (w : World)
          (body : list CVEPrediction),
      fst (predict_latest_cves g days_back max_results env w) = Http200 body ->
      body = []).
Proof.
  intros Hnot g. subst g.
  destruct (load_all_or_nothing fs) as [(c & v & a & _ & _ & _ & Hl)|Hno].
  { elim Hnot. rewrite Hl. repeat split; discriminate. }
  rewrite Hno. split.
  - intros description. unfold predict_route.
    rewrite predict_risk_unloaded. reflexivity.
  - intros days_back max_results env w body.
    rewrite predict_latest_cves_result.
    destruct (Query 3 1 30 days_back) as [d|]; [|discriminate].
    destruct (Query 10 1 100 max_results) as [m|]; [|discriminate].
    rewrite process_result.
    destruct (fst (fetch_cves_from_nvd _ _ _ _ _)) as [cves|e];
      [|discriminate].
    rewrite aggregate_unloaded. intros H. injection H as <-. reflexivity.
Qed.

Lemma failed_load_serves_no_prediction_witness :
  let g := fst (load_models corrupt_files) in
  (forall description : string,
      predict_route g description =
      if (String.length description <? 20)%nat then (Http422, [])
      else
        let e := ValueError "Models not loaded. Cannot perform prediction." in
        (HTTPException 500 e, [(ERROR, MsgPredictionError e)])) /\
  (forall (days_back max_results : option Z) (env : Env) (w : World)
          (body : list CVEPrediction),
      fst (predict_latest_cves g days_back max_results env w) = Http200 body ->
      body = []).
Proof.
  apply (failed_load_serves_no_prediction corrupt_files).
  intros [H _]. apply H. reflexivity.
Defined.

(** X17. On a description of at least 20 characters POST /predict and
    [on_demand_analysis] agree: the route answers 200 with the tier,
    confidence, anomaly flag and anomaly score [on_demand_analysis]
    returns, and 500 with the exception it raises. *)
Theorem predict_route_agrees_with_on_demand {FV : Type} (g : Globals FV)
    (description : string) (now : datetime) :
  (20 <= String.length description)%nat ->
  match fst (on_demand_analysis g description now) with
  | Ok a =>
      fst (predict_route g description) =
      Http200 {| resp_risk := analysis_risk a;
                 resp_confidence := analysis_confidence a;
                 resp_anomalous := analysis_anomalous a;
                 resp_anomaly_score := analysis_anomaly_score a |}
  | Raise e => fst (predict_route g description) = HTTPException 500 e
  end.
Proof.
  intros Hlen. unfold predict_route, on_demand_analysis.
  replace (String.length description <? 20)%nat with false
    by (symmetry; apply Nat.ltb_ge; exact Hlen).
  destruct (predict_risk g description) as [r|e]; cbn [rbind];
    [|reflexivity].
  destruct (detect_anomaly g description) as [a|e]; reflexivity.
Qed.

Lemma predict_route_agrees_with_on_demand_witness :
  match fst (on_demand_analysis sample_globals "remote code execution" 0) with
  | Ok a =>
      fst (predict_route sample_globals "remote code execution") =
      Http200 {| resp_risk := analysis_risk a;
                 resp_confidence := analysis_confidence a;
                 resp_anomalous := analysis_anomalous a;
                 resp_anomaly_score := analysis_anomaly_score a |}
  | Raise e =>
      fst (predict_route sample_globals "remote code execution") =
      HTTPException 500 e
  end.
Proof.
  apply (predict_route_agrees_with_on_demand sample_globals
           "remote code execution" 0).
  vm_compute. lia.
Defined.

(** X18. A 200 answer of POST /predict is given only to a description of
    at least 20 characters on which both scorers return; it carries their
    values, its tier is one of HIGH, MEDIUM, LOW, and nothing is
    logged. *)
Theorem predict_route_ok {FV : Type} (g : Globals FV)
    (description : string) (response : PredictResponse) :
  fst (predict_route g description) = Http200 response ->
  (20 <= String.length description)%nat /\
  is_tier (resp_risk response) /\
  snd (predict_route g description) = [] /\
  exists (r : RiskResult) (a : AnomalyResult),
    predict_risk g description = Ok r /\
    detect_anomaly g description = Ok a /\
    response = {| resp_risk := risk r; resp_confidence := confidence r;
                  resp_anomalous := anomalous a;
                  resp_anomaly_score := anomaly_score a |}.
Proof.
  unfold predict_route.
  destruct (String.length description <? 20)%nat eqn:Hlen; [discriminate|].
  apply Nat.ltb_ge in Hlen.
  destruct (predict_risk g description) as [r|e] eqn:Hr; cbn [rbind];
    [|discriminate].
  destruct (detect_anomaly g description) as [a|e]; cbn [rbind];
    [|discriminate].
  cbn [fst snd]. intros H. injection H as <-. cbn [resp_risk].
  split; [exact Hlen|]. split; [exact (predict_risk_tier g _ r Hr)|].
  split; [reflexivity|]. now exists r, a.
Qed.

Lemma predict_route_ok_witness :
  let response :=
    {| resp_risk := "HIGH"; resp_confidence := f0_70;
       resp_anomalous := true;
       resp_anomaly_score := SFopp (decimal 5 100) |} in
  (20 <= String.length "remote code execution")%nat /\
  is_tier (resp_risk response) /\
  snd (predict_route sample_globals "remote code execution") = [] /\
  exists (r : RiskResult) (a : AnomalyResult),
    predict_risk sample_globals "remote code execution" = Ok r /\
    detect_anomaly sample_globals "remote code execution" = Ok a /\
    response = {| resp_risk := risk r; resp_confidence := confidence r;
                  resp_anomalous := anomalous a;
                  resp_anomaly_score := anomaly_score a |}.
Proof.
  intros response.
  apply (predict_route_ok sample_globals "remote code execution" response).
  vm_compute; reflexivity.
Defined.






(** ** Summaries and reports *)

(** X20. The counts of [_categorize_results]: the critical anomalies are
    the anomalous entries among the HIGH ones (and the HIGH ones among the
    anomalous), so their count is at most each of the two; HIGH and
    anomalous together exceed the total by at most the critical count;
    HIGH and LOW together are at most the total. *)
Theorem categorize_counts (now : datetime) (results : list ScoredRecord) :
  let summary := _categorize_results now results in
  (critical_anomalies_count summary <= high_risk_count summary)%nat /\
  (critical_anomalies_count summary <= anomalous_count summary)%nat /\
  (high_risk_count summary + anomalous_count summary
   <= total summary + critical_anomalies_count summary)%nat /\
  (high_risk_count summary + low_risk_count summary <= total summary)%nat /\
  critical_anomalies summary = filter scored_anomalous (high_risk_cves summary)
  /\
  critical_anomalies summary =
    filter (has_risk "HIGH") (anomalous_cves summary).
Proof.
  cbn -[String.eqb]. unfold has_risk.
  induction results as [|r results IH]; [cbn; repeat split; lia|].
  cbn [filter]. destruct IH as (H1 & H2 & H3 & H4 & H5 & H6).
  destruct (String.eqb (scored_risk r) "HIGH") eqn:Eh.
  - apply String.eqb_eq in Eh. rewrite Eh.
    change (String.eqb "HIGH" "LOW") with false.
    change (String.eqb "HIGH" "HIGH") with true.
    destruct (scored_anomalous r) eqn:Ea; cbn [andb filter List.length];
      rewrite ?Ea, ?Eh; cbn [filter andb List.length];
      change (String.eqb "HIGH" "HIGH") with true; cbn [andb filter];
      repeat split; try lia; try (f_equal; assumption); assumption.
  - destruct (String.eqb (scored_risk r) "LOW") eqn:El;
      destruct (scored_anomalous r) eqn:Ea; cbn [andb filter List.length];
      rewrite ?Ea, ?Eh; cbn [filter andb List.length];
      repeat split; try lia; try (f_equal; assumption); assumption.
Qed.

Lemma tier_partition (results : list ScoredRecord) :
  Forall (fun s => is_tier (scored_risk s)) results ->
  (List.length (filter (fun r => String.eqb (scored_risk r) "HIGH") results) +
   List.length (filter (fun r => String.eqb (scored_risk r) "MEDIUM") results) +
   List.length (filter (fun r => String.eqb (scored_risk r) "LOW") results)
   = List.length results)%nat.
Proof.
  induction 1 as [|r results Hr _ IH]; [reflexivity|].
  cbn [filter]. destruct Hr as [E | [E | E]]; rewrite E; cbn [String.eqb Ascii.eqb Bool.eqb];
    cbn [List.length]; lia.
Qed.

Lemma length_print_rows (results : list ScoredRecord) :
  forall idx : nat,
    List.length (print_rows idx results) = List.length results.
Proof.
  induction results as [|r results IH]; intros idx; [reflexivity|].
  cbn [print_rows List.length]. now rewrite IH.
Qed.

(** X21. On the entries of a batch, [print_results_summary] prints a HIGH,
    a MEDIUM and a LOW count that add up to the total in the title, which
    is the number of rows; the anomalous count is at most that. *)
Theorem printed_counts_add_up {FV : Type} (g : Globals FV)
    (days_back max_results : Z) (api_key : option string)
    (env : Env) (w : World) (results : list ScoredRecord) :
  fst (process_new_cves g days_back max_results api_key env w) = Ok results ->
  results <> [] ->
  exists high medium low anomalous : nat,
    print_results_summary results =
      [ PrintRule; PrintTitle (high + medium + low); PrintRule;
        PrintStatistics;
        PrintHighRisk high; PrintMediumRisk medium; PrintLowRisk low;
        PrintAnomalous anomalous;
        PrintDetailedResults; PrintDashes ]
      ++ print_rows 1 results ++ [PrintEndRule] /\
    List.length (print_rows 1 results) = (high + medium + low)%nat /\
    (anomalous <= high + medium + low)%nat.
Proof.
  intros Hrun Hne.
  assert (Htiers : Forall (fun s => is_tier (scored_risk s)) results).
  { rewrite process_result in Hrun.
    destruct (fst (fetch_cves_from_nvd _ _ _ _ _)) as [cves|];
      [|discriminate].
    injection Hrun as <-. apply aggregate_tiers. }
  pose proof (tier_partition results Htiers) as Hsum.
  destruct results as [|r results]; [now elim Hne|].
  set (l := r :: results) in *.
  exists (List.length (filter (fun r => String.eqb (scored_risk r) "HIGH") l)),
    (List.length (filter (fun r => String.eqb (scored_risk r) "MEDIUM") l)),
    (List.length (filter (fun r => String.eqb (scored_risk r) "LOW") l)),
    (List.length (filter scored_anomalous l)).
  rewrite Hsum, length_print_rows. split; [reflexivity|].
  split; [reflexivity|]. apply filter_length_le.
Qed.

Lemma printed_counts_add_up_witness :
  let results :=
    [ {| scored_cve_id := "CVE-2026-0001"; scored_risk := "HIGH";
         scored_confidence := f0_70; scored_anomalous := true |};
      {| scored_cve_id := "Unknown"; scored_risk := "LOW";
         scored_confidence := f0_6001_next; scored_anomalous := false |};
      {| scored_cve_id := "Unknown"; scored_risk := "LOW";
         scored_confidence := f0_6001_next; scored_anomalous := false |} ] in
  exists high medium low anomalous : nat,
    print_results_summary results =
      [ PrintRule; PrintTitle (high + medium + low); PrintRule;
        PrintStatistics;
        PrintHighRisk high; PrintMediumRisk medium; PrintLowRisk low;
        PrintAnomalous anomalous;
        PrintDetailedResults; PrintDashes ]
      ++ print_rows 1 results ++ [PrintEndRule] /\
    List.length (print_rows 1 results) = (high + medium + low)%nat /\
    (anomalous <= high + medium + low)%nat.
Proof.
  intros results.
  apply (printed_counts_add_up sample_globals 7 20 None sample_env
           fresh_world results).
  - vm_compute; reflexivity.
  - discriminate.
Defined.

(** X22. [print_results_summary] prints the rows after its ten heading
    lines, one per entry in the order of the list, numbered from 1, with
    the entry's own identifier, tier, confidence and anomaly flag; the
    siren marks HIGH, the warning sign MEDIUM, and every other tier gets
    the check mark. *)
Theorem printed_rows_follow_the_results (results : list ScoredRecord)
    (i : nat) (r : ScoredRecord) :
  nth_error results i = Some r ->
  exists (icon : risk_icon) (label : string),
    nth_error (print_results_summary results) (10 + i) =
      Some (PrintRow (S i) icon (scored_cve_id r) (scored_risk r)
              (scored_confidence r) (scored_anomalous r) label) /\
    (icon = IconSiren <-> scored_risk r = "HIGH") /\
    (icon = IconWarning <-> scored_risk r = "MEDIUM") /\
    (label = "ANOMALOUS" <-> scored_anomalous r = true).
Proof.
  intros Hnth.
  assert (Hrows : forall (l : list ScoredRecord) (k idx : nat),
    nth_error l k = Some r ->
    exists (icon : risk_icon) (label : string),
      nth_error (print_rows idx l) k =
        Some (PrintRow (idx + k) icon (scored_cve_id r) (scored_risk r)
                (scored_confidence r) (scored_anomalous r) label) /\
      (icon = IconSiren <-> scored_risk r = "HIGH") /\
      (icon = IconWarning <-> scored_risk r = "MEDIUM") /\
      (label = "ANOMALOUS" <-> scored_anomalous r = true)).
  { induction l as [|x l IH]; intros [|k] idx H; try discriminate H.
    - cbn in H. injection H as ->. cbn [print_rows nth_error].
      rewrite Nat.add_0_r. do 2 eexists. split; [reflexivity|].
      destruct (String.eqb (scored_risk r) "HIGH") eqn:Eh.
      { apply String.eqb_eq in Eh. rewrite Eh.
        destruct (scored_anomalous r); repeat split; intros;
          try reflexivity; discriminate. }
      apply String.eqb_neq in Eh.
      destruct (String.eqb (scored_risk r) "MEDIUM") eqn:Em.
      { apply String.eqb_eq in Em.
        destruct (scored_anomalous r); repeat split; intros;
          try reflexivity; try assumption; try discriminate;
          congruence. }
      apply String.eqb_neq in Em.
      destruct (scored_anomalous r); repeat split; intros;
        try reflexivity; try discriminate; congruence.
    - cbn [print_rows nth_error]. cbn in H.
      destruct (IH k (S idx) H) as (icon & label & Hk & Hrest).
      exists icon, label. split; [|exact Hrest].
      replace (idx + S k)%nat with (S idx + k)%nat by lia. exact Hk. }
  destruct results as [|x results]; [destruct i; discriminate Hnth|].
  destruct (Hrows (x :: results) i 1%nat Hnth) as (icon & label & Hk & Hrest).
  exists icon, label. split; [|exact Hrest].
  unfold print_results_summary.
  rewrite nth_error_app2 by (cbn [List.length]; lia).
  replace (10 + i - _)%nat with i by (cbn [List.length]; lia).
  rewrite nth_error_app1.
  - exact Hk.
  - rewrite length_print_rows. apply nth_error_Some. congruence.
Qed.

Lemma printed_rows_follow_the_results_witness :
  let results :=
    [ {| scored_cve_id := "CVE-2026-0001"; scored_risk := "HIGH";
         scored_confidence := f0_70; scored_anomalous := true |};
      {| scored_cve_id := "Unknown"; scored_risk := "LOW";
         scored_confidence := f0_6001_next; scored_anomalous := false |};
      {| scored_cve_id := "Unknown"; scored_risk := "LOW";
         scored_confidence := f0_6001_next; scored_anomalous := false |} ] in
  exists (icon : risk_icon) (label : string),
    nth_error (print_results_summary results) (10 + 1) =
      Some (PrintRow 2 icon "Unknown" "LOW" f0_6001_next false label) /\
    (icon = IconSiren <-> "LOW" = "HIGH") /\
    (icon = IconWarning <-> "LOW" = "MEDIUM") /\
    (label = "ANOMALOUS" <-> false = true).
Proof.
  intros results.
  apply (printed_rows_follow_the_results results 1
           {| scored_cve_id := "Unknown"; scored_risk := "LOW";
              scored_confidence := f0_6001_next;
              scored_anomalous := false |}).
  reflexivity.
Defined.

(** X23. The summary [fetch_and_analyze] returns is built from the entries
    of the batch: its HIGH and LOW counts and the number of MEDIUM
    entries, which the summary does not list, add up to its total; it is
    stamped with the clock read; and, having no ['days_analyzed'], the
    report of it gives the period as N/A. *)
Theorem summary_of_a_batch {FV : Type} (g : Globals FV)
    (self_api_key : option string) (days_back max_results : Z)
    (now : datetime) (env : Env) (w : World) (summary : Summary) :
  fst (fst (fetch_and_analyze g self_api_key days_back max_results now env w))
    = Ok summary ->
  fst (process_new_cves g days_back max_results self_api_key env w)
    = Ok (all_results summary) /\
  (high_risk_count summary +
   List.length (filter (has_risk "MEDIUM") (all_results summary)) +
   low_risk_count summary = total summary)%nat /\
  timestamp summary = now /\
  In (ReportPeriod None) (report_lines summary).
Proof.
  unfold fetch_and_analyze.
  pose proof (process_result g days_back max_results self_api_key env w) as Hp.
  destruct (process_new_cves g days_back max_results self_api_key env w)
    as [[results|e] w1]; cbn [fst] in *; [|discriminate].
  intros H. injection H as <-.
  cbn [_categorize_results all_results total high_risk_count low_risk_count
       timestamp].
  split; [reflexivity|]. split.
  - apply tier_partition.
    destruct (fst (fetch_cves_from_nvd _ _ _ _ _)) as [cves|];
      [|discriminate].
    injection Hp as ->. apply aggregate_tiers.
  - split; [reflexivity|].
    unfold report_lines. cbn [days_analyzed _categorize_results].
    set (head := [ReportRule; ReportTitle; ReportRule; _; _; _; _; _; _; _;
                  _; _; _; _]).
    assert (Hin : In (ReportPeriod None) head)
      by (right; right; right; right; left; reflexivity).
    clearbody head.
    destruct (critical_anomalies _), (high_risk_cves _);
      rewrite ?in_app_iff; auto 10.
Qed.

Lemma summary_of_a_batch_witness :
  let summary :=
    _categorize_results 63902822400000000
      [ {| scored_cve_id := "CVE-2026-0001"; scored_risk := "HIGH";
         scored_confidence := f0_70; scored_anomalous := true |};
      {| scored_cve_id := "Unknown"; scored_risk := "LOW";
         scored_confidence := f0_6001_next; scored_anomalous := false |};
      {| scored_cve_id := "Unknown"; scored_risk := "LOW";
         scored_confidence := f0_6001_next; scored_anomalous := false |} ] in
  fst (process_new_cves sample_globals 7 20 None sample_env fresh_world)
    = Ok (all_results summary) /\
  (high_risk_count summary +
   List.length (filter (has_risk "MEDIUM") (all_results summary)) +
   low_risk_count summary = total summary)%nat /\
  timestamp summary = 63902822400000000 /\
  In (ReportPeriod None) (report_lines summary).
Proof.
  intros summary.
  apply (summary_of_a_batch sample_globals None 7 20 63902822400000000
           sample_env fresh_world summary).
  vm_compute; reflexivity.
Defined.


(** ** check_server *)

Lemma gets_app (l1 l2 : list check_event) :
  gets (l1 ++ l2) = (gets l1 + gets l2)%nat.
Proof. unfold gets. now rewrite filter_app, length_app. Qed.

Lemma sleeps_app (l1 l2 : list check_event) :
  sleeps (l1 ++ l2) = (sleeps l1 + sleeps l2)%nat.
Proof. unfold sleeps. now rewrite filter_app, length_app. Qed.

Ltac count_events :=
  unfold gets, sleeps in *;
  rewrite ?filter_app, ?length_app;
  cbn [filter is_get is_sleep List.length app Nat.add].

Ltac sleeps_two :=
  cbn [app];
  repeat (apply Forall_cons;
          [let H := fresh in
           intros H; cbn in H; try reflexivity; discriminate H|]);
  try apply Forall_nil.

Lemma check_attempts_bounds (server : nat -> root_outcome)
    (max_attempts : nat) (remaining : nat) :
  forall attempt : nat,
    (attempt + remaining = S max_attempts)%nat ->
    let events :=
      snd (check_attempts server max_attempts attempt remaining) in
    (gets events <= remaining)%nat /\
    ((0 < remaining)%nat -> (1 <= gets events)%nat) /\
    (sleeps events <= Nat.pred (gets events))%nat /\
    Forall (fun ev => is_sleep ev = true -> ev = EvSleep 2) events.
Proof.
  induction remaining as [|remaining IH]; intros attempt Hsum.
  - cbn. repeat split; try lia. sleeps_two.
  - cbn [check_attempts].
    specialize (IH (S attempt) ltac:(lia)). cbv zeta in IH.
    destruct (check_attempts server max_attempts (S attempt) remaining)
      as [r later]. cbn [snd] in IH. destruct IH as (Hg & Hpos & Hs & Hall).
    assert (Hlt : (attempt <? max_attempts)%nat = (0 <? remaining)%nat).
    { destruct (Nat.ltb_spec attempt max_attempts),
        (Nat.ltb_spec 0 remaining); try reflexivity; lia. }
    assert (Hfin : forall l : list check_event,
      Forall (fun ev => is_sleep ev = true -> ev = EvSleep 2) l ->
      Forall (fun ev => is_sleep ev = true -> ev = EvSleep 2) (l ++ later)).
    { intros l Hl. apply Forall_app. split; assumption. }
    rewrite Hlt.
    destruct (Nat.ltb_spec 0 remaining) as [Hrem|Hrem];
      [specialize (Hpos Hrem)|clear Hpos];
      (destruct (server attempt) as [e|status_code [body|e]];
       [ | destruct (status_code =? 200)
         | destruct (status_code =? 200);
           [destruct (is_RequestException e)|] ]);
      cbn [snd];
      (split;
       [ count_events; lia
       | split;
         [ intros _; count_events; lia
         | split;
           [ count_events; lia
           | first [apply Hfin; sleeps_two | sleeps_two] ] ] ]).
Qed.

Lemma check_attempts_pauses (server : nat -> root_outcome)
    (max_attempts : nat) (remaining : nat) :
  forall attempt : nat,
    (attempt + remaining = S max_attempts)%nat ->
    let events :=
      snd (check_attempts server max_attempts attempt remaining) in
    pauses_before_requests events = true /\
    ((0 < remaining)%nat ->
     exists l : list check_event, events = EvGet attempt :: l).
Proof.
  induction remaining as [|remaining IH]; intros attempt Hsum.
  - cbn. split; [reflexivity|lia].
  - cbn [check_attempts].
    specialize (IH (S attempt) ltac:(lia)). cbv zeta in IH.
    destruct (check_attempts server max_attempts (S attempt) remaining)
      as [r later]. cbn [snd] in IH. destruct IH as (Hp & Hhead).
    assert (Hlt : (attempt <? max_attempts)%nat = (0 <? remaining)%nat).
    { destruct (Nat.ltb_spec attempt max_attempts),
        (Nat.ltb_spec 0 remaining); try reflexivity; lia. }
    rewrite Hlt.
    destruct (Nat.ltb_spec 0 remaining) as [Hrem|Hrem];
      [destruct (Hhead Hrem) as (l & ->)|clear Hhead];
      (destruct (server attempt) as [e|status_code [body|e]];
       [ | destruct (status_code =? 200)
         | destruct (status_code =? 200);
           [destruct (is_RequestException e)|] ]);
      cbn [snd app pauses_before_requests] in *;
      (split; [first [exact Hp | reflexivity]|intros _; eexists; reflexivity]).
Qed.

Lemma pauses_before_requests_split (events : list check_event) :
  pauses_before_requests events = true ->
  forall (l1 : list check_event) (s : Z) (l2 : list check_event),
    events = l1 ++ EvSleep s :: l2 ->
    exists (k : nat) (l3 : list check_event), l2 = EvGet k :: l3.
Proof.
  intros Hp l1. revert events Hp.
  induction l1 as [|ev l1 IH]; intros events Hp s l2 ->.
  - cbn [app pauses_before_requests] in Hp.
    destruct l2 as [|[] l3]; try discriminate Hp. now eexists _, _.
  - refine (IH (l1 ++ EvSleep s :: l2) _ s l2 eq_refl).
    cbn [app pauses_before_requests] in Hp.
    destruct ev; try exact Hp.
    destruct (l1 ++ EvSleep s :: l2) as [|[] l]; try discriminate Hp.
    exact Hp.
Qed.

(** X25. [check_server] makes between one and five requests and pauses
    fewer times than it requests, so at most four times, two seconds
    each: it never pauses after its last attempt, every pause being
    directly followed by the next request. *)
Theorem check_server_bounds (server : nat -> root_outcome) :
  let events := snd (check_server server) in
  (1 <= gets events <= 5)%nat /\
  (sleeps events < gets events)%nat /\
  (sleeps events <= 4)%nat /\
  Forall (fun ev => is_sleep ev = true -> ev = EvSleep 2) events /\
  (forall (l1 : list check_event) (s : Z) (l2 : list check_event),
      events = l1 ++ EvSleep s :: l2 ->
      exists (k : nat) (l3 : list check_event), l2 = EvGet k :: l3) /\
  (forall s : Z, last events EvPrintChecking <> EvSleep s).
Proof.
  unfold check_server.
  pose proof (check_attempts_bounds server 5 5 1 eq_refl) as H.
  pose proof (check_attempts_pauses server 5 5 1 eq_refl) as Hpauses.
  cbv zeta in H, Hpauses.
  destruct (check_attempts server 5 1 5) as [r events]. cbn [snd] in *.
  destruct H as (Hg & Hpos & Hs & Hall). specialize (Hpos ltac:(lia)).
  destruct Hpauses as (Hp & _).
  assert (Hsplit : forall (l1 : list check_event) (s : Z)
                          (l2 : list check_event),
             EvPrintChecking :: events = l1 ++ EvSleep s :: l2 ->
             exists (k : nat) (l3 : list check_event), l2 = EvGet k :: l3)
    by (apply pauses_before_requests_split; exact Hp).
  unfold gets, sleeps in *. cbn [filter is_get is_sleep].
  split; [lia|]. split; [lia|]. split; [lia|].
  split; [constructor; [discriminate|exact Hall]|].
  split; [exact Hsplit|].
  intros s Hlast.
  assert (Hne : EvPrintChecking :: events <> []) by discriminate.
  destruct (exists_last Hne) as (l1 & ev & Heq).
  rewrite Heq, last_last in Hlast. subst ev.
  destruct (Hsplit l1 s [] Heq) as (k & l3 & Hnil). discriminate Hnil.
Qed.

Lemma check_attempts_first_ready (server : nat -> root_outcome)
    (max_attempts : nat) (before : nat) :
  forall (attempt remaining : nat),
    (before < remaining)%nat ->
    (forall j : nat,
        (attempt <= j < attempt + before)%nat ->
        ready (server j) = false /\ fatal (server j) = false) ->
    ready (server (attempt + before)%nat) = true ->
    let checked := check_attempts server max_attempts attempt remaining in
    fst checked = Ok true /\ gets (snd checked) = S before.
Proof.
  induction before as [|before IH]; intros attempt remaining Hrem Hnot Hready.
  - destruct remaining as [|remaining]; [lia|].
    rewrite Nat.add_0_r in Hready. cbn [check_attempts].
    destruct (server attempt) as [e|status_code [body|e]];
      cbn [ready] in Hready; try discriminate Hready.
    rewrite Hready. split; reflexivity.
  - destruct remaining as [|remaining]; [lia|].
    cbn [check_attempts].
    destruct (Hnot attempt ltac:(lia)) as [Hr Hf].
    specialize (IH (S attempt) remaining ltac:(lia)).
    assert (Hnot' : forall j : nat,
               (S attempt <= j < S attempt + before)%nat ->
               ready (server j) = false /\ fatal (server j) = false)
      by (intros j Hj; apply Hnot; lia).
    replace (attempt + S before)%nat with (S attempt + before)%nat in Hready
      by lia.
    specialize (IH Hnot' Hready). cbv zeta in IH.
    destruct (check_attempts server max_attempts (S attempt) remaining)
      as [r later]. cbn [fst snd] in IH. destruct IH as [-> Hg].
    destruct (server attempt) as [e|status_code [body|e]]; cbn [ready fatal]
      in Hr, Hf.
    + cbn [fst snd]. split; [reflexivity|].
      rewrite !gets_app, Hg.
      destruct (attempt <? max_attempts)%nat; reflexivity.
    + rewrite Hr. cbn [fst snd]. split; [reflexivity|].
      rewrite gets_app, Hg. reflexivity.
    + destruct (status_code =? 200).
      * cbn [andb] in Hf. apply negb_false_iff in Hf. rewrite Hf.
        cbn [fst snd]. split; [reflexivity|].
        rewrite !gets_app, Hg.
        destruct (attempt <? max_attempts)%nat; reflexivity.
      * cbn [fst snd]. split; [reflexivity|].
        rewrite gets_app, Hg. reflexivity.
Qed.

(** X26. When attempt [k] of the five is the first the server answers with
    200 and a body that parses, and no earlier answer was a 200 whose body
    raised an exception other than a [RequestException], [check_server]
    returns [True] after exactly [k] requests. *)
Theorem check_server_first_ready (server : nat -> root_outcome) (k : nat) :
  (1 <= k <= 5)%nat ->
  ready (server k) = true ->
  (forall j : nat,
      (1 <= j < k)%nat ->
      ready (server j) = false /\ fatal (server j) = false) ->
  fst (check_server server) = Ok true /\
  gets (snd (check_server server)) = k.
Proof.
  intros Hk Hready Hnot. unfold check_server.
  pose proof (check_attempts_first_ready server 5 (k - 1) 1 5 ltac:(lia))
    as H.
  replace (1 + (k - 1))%nat with k in H by lia.
  specialize (H Hnot Hready). cbv zeta in H.
  destruct (check_attempts server 5 1 5) as [r events]. cbn [fst snd] in *.
  destruct H as [-> Hg]. split; [reflexivity|].
  unfold gets in *. cbn [filter is_get]. lia.
Qed.

Lemma check_server_first_ready_witness :
  fst (check_server starting_server) = Ok true /\
  gets (snd (check_server starting_server)) = 3%nat.
Proof.
  apply (check_server_first_ready starting_server 3).
  - lia.
  - reflexivity.
  - intros j Hj. assert (Hcases : j = 1%nat \/ j = 2%nat) by lia.
    destruct Hcases as [-> | ->]; split; reflexivity.
Defined.

Lemma last_app_nonempty {A : Type} (l1 l2 : list A) (d : A) :
  l2 <> [] -> last (l1 ++ l2) d = last l2 d.
Proof.
  intros Hne. induction l1 as [|x l1 IH]; [reflexivity|].
  cbn [app last]. destruct (l1 ++ l2) as [|y l] eqn:E; [|exact IH].
  apply app_eq_nil in E as [_ ->]. now elim Hne.
Qed.

Lemma check_attempts_never_ready (server : nat -> root_outcome)
    (max_attempts : nat) (remaining : nat) :
  forall attempt : nat,
    (forall j : nat,
        (attempt <= j < attempt + remaining)%nat ->
        ready (server j) = false /\ fatal (server j) = false) ->
    let checked := check_attempts server max_attempts attempt remaining in
    fst checked = Ok false /\ gets (snd checked) = remaining /\
    last (snd checked) EvPrintChecking = EvPrintNotRunning.
Proof.
  induction remaining as [|remaining IH]; intros attempt Hnot.
  - cbn. repeat split.
  - cbn [check_attempts].
    destruct (Hnot attempt ltac:(lia)) as [Hr Hf].
    specialize (IH (S attempt)).
    assert (Hnot' : forall j : nat,
               (S attempt <= j < S attempt + remaining)%nat ->
               ready (server j) = false /\ fatal (server j) = false)
      by (intros j Hj; apply Hnot; lia).
    specialize (IH Hnot'). cbv zeta in IH.
    destruct (check_attempts server max_attempts (S attempt) remaining)
      as [r later]. cbn [fst snd] in IH. destruct IH as (-> & Hg & Hlast).
    assert (Hne : later <> []).
    { intros ->. cbn in Hlast. discriminate Hlast. }
    assert (Hl : forall l, last (l ++ later) EvPrintChecking =
                           EvPrintNotRunning).
    { intros l. rewrite last_app_nonempty by exact Hne. exact Hlast. }
    destruct (server attempt) as [e|status_code [body|e]]; cbn [ready fatal]
      in Hr, Hf.
    + cbn [fst snd]. split; [reflexivity|].
      rewrite Hl, !gets_app, Hg.
      destruct (attempt <? max_attempts)%nat; split; reflexivity.
    + rewrite Hr. cbn [fst snd]. split; [reflexivity|].
      rewrite Hl, gets_app, Hg. split; reflexivity.
    + destruct (status_code =? 200).
      * cbn [andb] in Hf. apply negb_false_iff in Hf. rewrite Hf.
        cbn [fst snd]. split; [reflexivity|].
        rewrite Hl, !gets_app, Hg.
        destruct (attempt <? max_attempts)%nat; split; reflexivity.
      * cbn [fst snd]. split; [reflexivity|].
        rewrite Hl, gets_app, Hg. split; reflexivity.
Qed.

(** X27. When none of the five attempts is answered with 200 and a body
    that parses (the request raises, or the status is not 200, the latter
    without a message or a pause), [check_server] returns [False] after
    exactly five requests, and its last line says the server is not
    running. *)
Theorem check_server_never_ready (server : nat -> root_outcome) :
  (forall j : nat,
      (1 <= j <= 5)%nat ->
      ready (server j) = false /\ fatal (server j) = false) ->
  fst (check_server server) = Ok false /\
  gets (snd (check_server server)) = 5%nat /\
  last (snd (check_server server)) EvPrintChecking = EvPrintNotRunning.
Proof.
  intros Hnot. unfold check_server.
  pose proof (check_attempts_never_ready server 5 5 1) as H.
  specialize (H ltac:(intros j Hj; apply Hnot; lia)). cbv zeta in H.
  destruct (check_attempts server 5 1 5) as [r events]. cbn [fst snd] in *.
  destruct H as (-> & Hg & Hlast). split; [reflexivity|].
  split.
  - unfold gets in *. cbn [filter is_get]. exact Hg.
  - destruct events as [|ev events]; [discriminate Hg|].
    exact Hlast.
Qed.

Lemma check_server_never_ready_witness :
  fst (check_server down_server) = Ok false /\
  gets (snd (check_server down_server)) = 5%nat /\
  last (snd (check_server down_server)) EvPrintChecking = EvPrintNotRunning.
Proof.
  apply (check_server_never_ready down_server).
  intros j Hj.
  assert (Hcases : j = 1%nat \/ j = 2%nat \/ j = 3%nat \/ j = 4%nat \/
                   j = 5%nat) by lia.
  destruct Hcases as [-> | [-> | [-> | [-> | ->]]]]; split; reflexivity.
Defined.

(** ** The webhook message *)

Lemma filter_nonempty {A : Type} (f : A -> bool) (l : list A) :
  (0 < List.length (filter f l))%nat <-> exists x : A, In x l /\ f x = true.
Proof.
  split.
  - intros H. destruct (filter f l) as [|x l'] eqn:E; [cbn in H; lia|].
    exists x. apply filter_In. rewrite E. now left.
  - intros (x & Hin & Hf).
    assert (Hx : In x (filter f l)) by (apply filter_In; now split).
    destruct (filter f l); [contradiction|cbn; lia].
Qed.

(** X28. For a summary of [_categorize_results], the message of
    [webhook_integration] is coloured ["danger"] exactly when some result
    is both HIGH and anomalous, and ["good"] otherwise; the count in its
    text is the count of these results. *)
Theorem webhook_color (now : datetime) (results : list ScoredRecord) :
  let message_sent := webhook_message (_categorize_results now results) in
  (color message_sent = "danger" <->
   exists r : ScoredRecord,
     In r results /\ scored_risk r = "HIGH" /\ scored_anomalous r = true) /\
  (color message_sent = "danger" \/ color message_sent = "good") /\
  text_critical message_sent =
    List.length
      (filter (fun r => has_risk "HIGH" r && scored_anomalous r) results).
Proof.
  cbn -[String.eqb Nat.ltb]. unfold has_risk.
  set (f := fun r => String.eqb (scored_risk r) "HIGH" && scored_anomalous r).
  pose proof (filter_nonempty f results) as Hf.
  destruct (Nat.ltb_spec 0 (List.length (filter f results))) as [Hlt|Hge].
  - split; [|split; [now left|reflexivity]].
    split; [intros _|reflexivity].
    destruct (proj1 Hf Hlt) as (r & Hin & Hr). exists r.
    subst f. cbn beta in Hr. apply andb_true_iff in Hr as [Hh Ha].
    apply String.eqb_eq in Hh. auto.
  - split; [|split; [now right|reflexivity]].
    split; [discriminate|].
    intros (r & Hin & Hh & Ha). exfalso.
    assert (0 < List.length (filter f results))%nat; [|lia].
    apply Hf. exists r. split; [exact Hin|].
    subst f. cbn beta. rewrite Hh, Ha. reflexivity.
Qed.
